(** * AN30259A LED driver: shadow-register model of drivers/leds/leds-an30259a.c

    The driver keeps a 21-byte shadow image of the chip's registers, mutates
    it through [leds_on] and [leds_set_slope_mode], and flushes it to the chip
    with [leds_i2c_write_all].  This file embeds those functions, the two
    callers that compute their arguments ([an30259a_start_led_pattern] and
    [an30259a_set_led_blink]) and the [led_speed] sysfs setter, and proves
    properties of them.

    Conventions.
    - C integers are [Z]; a conversion to [u8] or [u32] is written out with
      [to_u8] / [to_u32] where the source converts (assignment to a [u8]
      object, passing a [u8] parameter, unsigned arithmetic).
    - [shadow_reg] is a [list Z] indexed by register offset; every offset the
      driver computes is below [AN30259A_REG_MAX].
    - A function that can execute an integer division by zero returns
      [option]; [None] is C undefined behaviour.
    - Logging calls (dev_err, pr_info, printk) have no effect on the driver
      state and are left out. *)

From stdpp Require Import base numbers option list.
From Stdlib Require Import ZArith QArith Qround Lia.

Local Open Scope Z_scope.

(** ** Integer conversions *)

Definition to_u8 (z : Z) : Z := z mod 256.
Definition to_u32 (z : Z) : Z := z mod 2 ^ 32.

(** [a / b] on [int]: truncation toward zero, undefined for [b = 0]. *)
Definition c_div_int (a b : Z) : option Z :=
  if b =? 0 then None else Some (Z.quot a b).

(** [a / b] on [unsigned int] operands (both already converted). *)
Definition c_div_uint (a b : Z) : option Z :=
  if b =? 0 then None else Some (a / b).

(** ** Register map and masks *)

Definition AN30259A_REG_SRESET : nat := 0x00.
Definition AN30259A_REG_LEDON : nat := 0x01.
Definition AN30259A_REG_SEL : nat := 0x02.
Definition AN30259A_REG_LED1CC : nat := 0x03.
Definition AN30259A_REG_LED2CC : nat := 0x04.
Definition AN30259A_REG_LED3CC : nat := 0x05.
Definition AN30259A_REG_LED1SLP : nat := 0x06.
Definition AN30259A_REG_LED2SLP : nat := 0x07.
Definition AN30259A_REG_LED3SLP : nat := 0x08.
Definition AN30259A_REG_LED1CNT1 : nat := 0x09.
Definition AN30259A_REG_LED1CNT2 : nat := 0x0a.
Definition AN30259A_REG_LED1CNT3 : nat := 0x0b.
Definition AN30259A_REG_LED1CNT4 : nat := 0x0c.
Definition AN30259A_REG_MAX : nat := 0x15.

Definition AN30259A_MASK_DELAY : Z := 0xf0.
Definition LED_SLOPE_MODE : Z := 0x10.
Definition LED_ON : Z := 0x01.
Definition SLPTT_MAX_VALUE : Z := 7500.
Definition AN30259A_TIME_UNIT : Z := 500.
Definition AN30259A_CTN_RW_FLG : Z := 0x80.
Definition LED_MAX_CURRENT : Z := 0xFF.
Definition LED_OFF : Z := 0x00.

Inductive an30259a_led_enum := LED_R | LED_G | LED_B.

#[global] Instance an30259a_led_enum_eq_dec : EqDecision an30259a_led_enum.
Proof. solve_decision. Defined.

(** The enumerator's integer value, used in [REG + led * 4] and [1 << led]. *)
Definition led_num (led : an30259a_led_enum) : nat :=
  match led with LED_R => 0 | LED_G => 1 | LED_B => 2 end.

(** enum an30259a_pattern, as the [int mode] the pattern code compares with. *)
Definition PATTERN_OFF : Z := 0.
Definition CHARGING : Z := 1.
Definition CHARGING_ERR : Z := 2.
Definition MISSED_NOTI : Z := 3.
Definition LOW_BATTERY : Z := 4.
Definition FULLY_CHARGED : Z := 5.
Definition POWERING : Z := 6.

(** ** Driver state *)

(** The file-scope tunables. *)
Record globals := Globals {
  LED_DYNAMIC_CURRENT : Z;        (* u8 *)
  LED_LOWPOWER_MODE : Z;          (* u8 *)
  LED_R_CURRENT : Z;              (* u32 *)
  LED_G_CURRENT : Z;              (* u32 *)
  LED_B_CURRENT : Z;              (* u32 *)
  led_default_cur : Z;            (* u32 *)
  led_lowpower_cur : Z;           (* u32 *)
  disabled_samsung_pattern : Z;   (* unsigned long *)
  led_offset : list Z;            (* u32 [MAX_NUM_LEDS] *)
  led_enable_fade : Z;            (* int *)
  led_intensity : Z;              (* u8 *)
  led_speed : Z;                  (* int *)
  led_slope_up_1 : Z;             (* int *)
  led_slope_up_2 : Z;
  led_slope_down_1 : Z;
  led_slope_down_2 : Z
}.

Definition set_LED_DYNAMIC_CURRENT (v : Z) (g : globals) : globals :=
  Globals v (LED_LOWPOWER_MODE g) (LED_R_CURRENT g) (LED_G_CURRENT g)
    (LED_B_CURRENT g) (led_default_cur g) (led_lowpower_cur g)
    (disabled_samsung_pattern g) (led_offset g) (led_enable_fade g)
    (led_intensity g) (led_speed g) (led_slope_up_1 g) (led_slope_up_2 g)
    (led_slope_down_1 g) (led_slope_down_2 g).

Definition set_led_speed (v : Z) (g : globals) : globals :=
  Globals (LED_DYNAMIC_CURRENT g) (LED_LOWPOWER_MODE g) (LED_R_CURRENT g)
    (LED_G_CURRENT g) (LED_B_CURRENT g) (led_default_cur g)
    (led_lowpower_cur g) (disabled_samsung_pattern g) (led_offset g)
    (led_enable_fade g) (led_intensity g) v (led_slope_up_1 g)
    (led_slope_up_2 g) (led_slope_down_1 g) (led_slope_down_2 g).

(** What the driver asks of the outside world, in program order. *)
Inductive event :=
  | EvMutexLock
  | EvMutexUnlock
  | EvWriteBlock (command length : Z) (values : list Z) (ret : Z)
  | EvWriteByte (command value : Z) (ret : Z).

(** The I2C adapter is not part of this source file: it is a parameter.  A
    transfer returns the kernel's status (negative errno on failure) and the
    adapter's next state. *)
Class I2CAdapter (B : Type) := {
  adapter_write_block : B → Z → Z → list Z → Z * B;
  adapter_write_byte : B → Z → Z → Z * B
}.

Record state (B : Type) := State {
  glob : globals;
  mutex : bool;                   (* data->mutex is held *)
  shadow_reg : list Z;            (* data->shadow_reg *)
  bus : B;                        (* the adapter behind data->client *)
  trace : list event
}.
Arguments State {B}.
Arguments glob {B}.
Arguments mutex {B}.
Arguments shadow_reg {B}.
Arguments bus {B}.
Arguments trace {B}.

Section Driver.
Context {B : Type} `{I2CAdapter B}.

Definition with_glob (f : globals → globals) (s : state B) : state B :=
  State (f (glob s)) (mutex s) (shadow_reg s) (bus s) (trace s).

Definition log (e : event) (s : state B) : state B :=
  State (glob s) (mutex s) (shadow_reg s) (bus s) (trace s ++ [e]).

(** [data->shadow_reg[i]] as an rvalue. *)
Definition reg (s : state B) (i : nat) : Z := shadow_reg s !!! i.

(** [data->shadow_reg[i] = v], with the conversion to [u8]. *)
Definition write_reg (i : nat) (v : Z) (s : state B) : state B :=
  State (glob s) (mutex s) (<[i := to_u8 v]> (shadow_reg s)) (bus s) (trace s).

Definition mutex_lock (s : state B) : state B :=
  log EvMutexLock (State (glob s) true (shadow_reg s) (bus s) (trace s)).

Definition mutex_unlock (s : state B) : state B :=
  log EvMutexUnlock (State (glob s) false (shadow_reg s) (bus s) (trace s)).

Definition i2c_smbus_write_i2c_block_data
    (command length : Z) (values : list Z) (s : state B) : Z * state B :=
  let '(ret, b) := adapter_write_block (bus s) command length values in
  (ret, log (EvWriteBlock command length values ret)
          (State (glob s) (mutex s) (shadow_reg s) b (trace s))).

Definition i2c_smbus_write_byte_data
    (command value : Z) (s : state B) : Z * state B :=
  let '(ret, b) := adapter_write_byte (bus s) command value in
  (ret, log (EvWriteByte command value ret)
          (State (glob s) (mutex s) (shadow_reg s) b (trace s))).

(** ** leds_i2c_write_all (lines 257-288) *)

Definition leds_i2c_write_all (s : state B) : Z * state B :=
  let s := mutex_lock s in
  let '(ret, s) :=
    i2c_smbus_write_i2c_block_data
      (Z.lor (Z.of_nat AN30259A_REG_SEL) AN30259A_CTN_RW_FLG)
      (Z.of_nat (AN30259A_REG_MAX - AN30259A_REG_SEL))
      (take (AN30259A_REG_MAX - AN30259A_REG_SEL)
            (drop AN30259A_REG_SEL (shadow_reg s))) s in
  if ret <? 0 then (ret, mutex_unlock s)
  else
    let '(ret, s) :=
      i2c_smbus_write_byte_data (Z.of_nat AN30259A_REG_LEDON)
        (reg s AN30259A_REG_LEDON) s in
    if ret <? 0 then (ret, mutex_unlock s)
    else (0, mutex_unlock s).

(** ** leds_set_slope_mode (lines 321-337) *)

Definition leds_set_slope_mode (led : an30259a_led_enum)
    (delay dutymax dutymid dutymin slptt1 slptt2 dt1 dt2 dt3 dt4 : Z)
    (s : state B) : state B :=
  let delay := to_u8 delay in
  let dutymax := to_u8 dutymax in
  let dutymid := to_u8 dutymid in
  let dutymin := to_u8 dutymin in
  let slptt1 := to_u8 slptt1 in
  let slptt2 := to_u8 slptt2 in
  let dt1 := to_u8 dt1 in
  let dt2 := to_u8 dt2 in
  let dt3 := to_u8 dt3 in
  let dt4 := to_u8 dt4 in
  let s := write_reg (AN30259A_REG_LED1CNT1 + led_num led * 4)
             (Z.lor (Z.shiftl dutymax 4) dutymid) s in
  let s := write_reg (AN30259A_REG_LED1CNT2 + led_num led * 4)
             (Z.lor (Z.shiftl delay 4) dutymin) s in
  let s := write_reg (AN30259A_REG_LED1CNT3 + led_num led * 4)
             (Z.lor (Z.shiftl dt2 4) dt1) s in
  let s := write_reg (AN30259A_REG_LED1CNT4 + led_num led * 4)
             (Z.lor (Z.shiftl dt4 4) dt3) s in
  write_reg (AN30259A_REG_LED1SLP + led_num led)
    (Z.lor (Z.shiftl slptt2 4) slptt1) s.

(** ** leds_on (lines 339-361) *)

Definition leds_on (led : an30259a_led_enum) (on slopemode : bool)
    (ledcc : Z) (s : state B) : state B :=
  let ledcc := to_u8 ledcc in
  let ledcc :=
    if 0 <? ledcc
    then to_u8 (to_u32 (ledcc + led_offset (glob s) !!! led_num led))
    else ledcc in
  let s :=
    if on
    then write_reg AN30259A_REG_LEDON
           (Z.lor (reg s AN30259A_REG_LEDON)
                  (Z.shiftl LED_ON (Z.of_nat (led_num led)))) s
    else
      let s := write_reg AN30259A_REG_LEDON
                 (Z.land (reg s AN30259A_REG_LEDON)
                         (Z.lnot (Z.shiftl LED_ON (Z.of_nat (led_num led)))))
                 s in
      write_reg (AN30259A_REG_LED1CNT2 + led_num led * 4)
        (Z.land (reg s (AN30259A_REG_LED1CNT2 + led_num led * 4))
                (Z.lnot AN30259A_MASK_DELAY)) s in
  let s :=
    if slopemode && negb (led_speed (glob s) =? 0)
    then write_reg AN30259A_REG_LEDON
           (Z.lor (reg s AN30259A_REG_LEDON)
                  (Z.shiftl LED_SLOPE_MODE (Z.of_nat (led_num led)))) s
    else write_reg AN30259A_REG_LEDON
           (Z.land (reg s AN30259A_REG_LEDON)
                   (Z.lnot (Z.shiftl LED_SLOPE_MODE (Z.of_nat (led_num led)))))
           s in
  write_reg (AN30259A_REG_LED1CC + led_num led) ledcc s.

(** ** an30259a_reset_register_work (lines 382-395) *)

Definition an30259a_reset_register_work (s : state B) : state B :=
  let s := leds_on LED_R false false 0 s in
  let s := leds_on LED_G false false 0 s in
  let s := leds_on LED_B false false 0 s in
  let '(retval, s) := leds_i2c_write_all s in
  s.

(** ** an30259a_start_led_pattern (lines 397-501) *)

(** Lines 498-500: the commit that follows the switch. *)
Definition pattern_commit (s : state B) : option (state B) :=
  let '(retval, s) := leds_i2c_write_all s in
  Some s.

Definition an30259a_start_led_pattern (mode : Z) (s : state B)
    : option (state B) :=
  if POWERING <? mode then Some s
  else if negb (disabled_samsung_pattern (glob s) =? 0) then Some s
  else
    let s := an30259a_reset_register_work s in
    if mode =? LED_OFF then Some s
    else
      let s :=
        with_glob
          (set_LED_DYNAMIC_CURRENT
             (if LED_LOWPOWER_MODE (glob s) =? 1
              then to_u8 (led_lowpower_cur (glob s))
              else to_u8 (led_default_cur (glob s)))) s in
      let g := glob s in
      let r_brightness :=
        if led_intensity g =? 0 then to_u8 (LED_R_CURRENT g)
        else to_u8 (Z.min (led_intensity g) LED_MAX_CURRENT) in
      let g_brightness :=
        if led_intensity g =? 0 then to_u8 (LED_G_CURRENT g)
        else to_u8 (Z.min (led_intensity g) LED_MAX_CURRENT) in
      let b_brightness :=
        if led_intensity g =? 0 then to_u8 (LED_B_CURRENT g)
        else to_u8 (Z.min (led_intensity g) LED_MAX_CURRENT) in
      if mode =? CHARGING then
        pattern_commit (leds_on LED_R true false r_brightness s)
      else if mode =? CHARGING_ERR then
        let s := leds_on LED_R true true r_brightness s in
        if led_enable_fade g =? 1 then
          dmax ← c_div_int 15 (led_speed g);
          dmid ← c_div_int 7 (led_speed g);
          pattern_commit
            (leds_set_slope_mode LED_R 1 dmax dmid 0 1 1
               (led_slope_up_1 g) (led_slope_up_2 g)
               (led_slope_down_1 g) (led_slope_down_2 g) s)
        else
          dmax ← c_div_int 15 (led_speed g);
          dmid ← c_div_int 15 (led_speed g);
          pattern_commit
            (leds_set_slope_mode LED_R 1 dmax dmid 0 1 1 0 0 0 0 s)
      else if mode =? MISSED_NOTI then
        let s := leds_on LED_B true true b_brightness s in
        if led_enable_fade g =? 1 then
          dmax ← c_div_int 15 (led_speed g);
          dmid ← c_div_int 7 (led_speed g);
          tt2 ← c_div_int 10 (led_speed g);
          pattern_commit
            (leds_set_slope_mode LED_B 10 dmax dmid 0 1 tt2
               (led_slope_up_1 g) (led_slope_up_2 g)
               (led_slope_down_1 g) (led_slope_down_2 g) s)
        else
          dmax ← c_div_int 15 (led_speed g);
          dmid ← c_div_int 15 (led_speed g);
          tt2 ← c_div_int 10 (led_speed g);
          pattern_commit
            (leds_set_slope_mode LED_B 10 dmax dmid 0 1 tt2 0 0 0 0 s)
      else if mode =? LOW_BATTERY then
        let s := leds_on LED_R true true r_brightness s in
        if led_enable_fade g =? 1 then
          dmax ← c_div_int 15 (led_speed g);
          dmid ← c_div_int 7 (led_speed g);
          tt2 ← c_div_int 10 (led_speed g);
          pattern_commit
            (leds_set_slope_mode LED_R 10 dmax dmid 0 1 tt2
               (led_slope_up_1 g) (led_slope_up_2 g)
               (led_slope_down_1 g) (led_slope_down_2 g) s)
        else
          dmax ← c_div_int 15 (led_speed g);
          dmid ← c_div_int 15 (led_speed g);
          tt2 ← c_div_int 10 (led_speed g);
          pattern_commit
            (leds_set_slope_mode LED_R 10 dmax dmid 0 1 tt2 0 0 0 0 s)
      else if mode =? FULLY_CHARGED then
        pattern_commit (leds_on LED_G true false g_brightness s)
      else if mode =? POWERING then
        let s := leds_on LED_B true true (LED_DYNAMIC_CURRENT g) s in
        pattern_commit (leds_set_slope_mode LED_B 0 15 12 8 2 2 3 3 3 3 s)
      else Some s.

(** ** an30259a_set_led_blink (lines 503-562) *)

(** Lines 516-530: the requested brightness after the intensity scaling, and
    the new value of LED_DYNAMIC_CURRENT.  [brightness] is the [u8]
    parameter and is not LED_OFF here. *)
Definition blink_scale_brightness (led : an30259a_led_enum) (brightness : Z)
    (g : globals) : Z * globals :=
  let brightness :=
    if LED_MAX_CURRENT <? brightness then LED_MAX_CURRENT else brightness in
  let g :=
    set_LED_DYNAMIC_CURRENT
      (to_u8 (match led with
              | LED_R => LED_R_CURRENT g
              | LED_G => LED_G_CURRENT g
              | LED_B => LED_B_CURRENT g
              end)) g in
  let brightness :=
    if led_intensity g =? 40
    then to_u8 (Z.quot (brightness * LED_DYNAMIC_CURRENT g) LED_MAX_CURRENT)
    else if negb (led_intensity g =? 0)
    then to_u8 (Z.quot (brightness * led_intensity g) LED_MAX_CURRENT)
    else brightness in
  (brightness, g).

(** Lines 549-552: a phase duration in units of AN30259A_TIME_UNIT; the
    division by [led_speed] is between [unsigned int] operands. *)
Definition blink_slptt (delay_time speed : Z) : option Z :=
  q ← c_div_uint delay_time (to_u32 speed);
  Some (to_u32 (q + AN30259A_TIME_UNIT - 1) / AN30259A_TIME_UNIT).

Definition an30259a_set_led_blink (led : an30259a_led_enum)
    (delay_on_time delay_off_time brightness : Z) (s : state B)
    : option (state B) :=
  let delay_on_time := to_u32 delay_on_time in
  let delay_off_time := to_u32 delay_off_time in
  let brightness := to_u8 brightness in
  if brightness =? LED_OFF then Some (leds_on led false false brightness s)
  else
    let '(brightness, g) := blink_scale_brightness led brightness (glob s) in
    let s := with_glob (λ _, g) s in
    let delay_on_time :=
      if SLPTT_MAX_VALUE <? delay_on_time then SLPTT_MAX_VALUE
      else delay_on_time in
    let delay_off_time :=
      if SLPTT_MAX_VALUE <? delay_off_time then SLPTT_MAX_VALUE
      else delay_off_time in
    if delay_off_time =? LED_OFF then
      let s := leds_on led true false brightness s in
      Some (if brightness =? LED_OFF
            then leds_on led false false brightness s
            else s)
    else
      let s := leds_on led true true brightness s in
      if led_enable_fade g =? 1 then
        dmax ← c_div_int 15 (led_speed g);
        dmid ← c_div_int 7 (led_speed g);
        tt1 ← blink_slptt delay_on_time (led_speed g);
        tt2 ← blink_slptt delay_off_time (led_speed g);
        Some (leds_set_slope_mode led 0 dmax dmid 0 tt1 tt2
                (led_slope_up_1 g) (led_slope_up_2 g)
                (led_slope_down_1 g) (led_slope_down_2 g) s)
      else
        dmax ← c_div_int 15 (led_speed g);
        dmid ← c_div_int 15 (led_speed g);
        tt1 ← blink_slptt delay_on_time (led_speed g);
        tt2 ← blink_slptt delay_off_time (led_speed g);
        Some (leds_set_slope_mode led 0 dmax dmid 0 tt1 tt2 0 0 0 0 s).

(** ** store_an30259a_led_speed (lines 735-748) *)

(** [scanned] is what [sscanf(buf, "%d", &new_led_speed)] stored, [None]
    when the buffer holds no integer and the initial -1 stays.  [count] is
    the length of the buffer; the handler's result is [count] on every
    path. *)
Definition store_an30259a_led_speed (count : Z) (scanned : option Z)
    (s : state B) : Z * state B :=
  let new_led_speed := default (-1) scanned in
  let s :=
    if (0 <=? new_led_speed) && (new_led_speed <=? 15)
    then with_glob (set_led_speed new_led_speed) s
    else s in
  (count, s).

End Driver.

(** ** A scripted adapter

    A concrete [I2CAdapter] for closed examples: the chip's register file and
    a script of statuses, one per transfer (an exhausted script means
    success).  A transfer that fails leaves the chip untouched. *)
Module TestDouble.

Record fake_bus := FakeBus { chip : list Z; script : list Z }.

Definition next_status (b : fake_bus) : Z * list Z :=
  match script b with
  | [] => (0, [])
  | r :: rs => (r, rs)
  end.

Definition chip_store (start : nat) (values : list Z) (c : list Z) : list Z :=
  take start c ++ values ++ drop (start + length values) c.

#[export] Instance fake_adapter : I2CAdapter fake_bus := {
  adapter_write_block b command length values :=
    let '(r, rs) := next_status b in
    if r <? 0 then (r, FakeBus (chip b) rs)
    else (0, FakeBus (chip_store (Z.to_nat (Z.land command 0x7f))
                                 (take (Z.to_nat length) values) (chip b)) rs);
  adapter_write_byte b command value :=
    let '(r, rs) := next_status b in
    if r <? 0 then (r, FakeBus (chip b) rs)
    else (0, FakeBus (chip_store (Z.to_nat command) [value] (chip b)) rs)
}.

End TestDouble.
Import TestDouble.

(** The tunables as an30259a_probe leaves them when the device tree gives no
    overrides: the initialisers of lines 123-135 and the probe's defaults. *)
Definition probe_globals : globals :=
  {| LED_DYNAMIC_CURRENT := 0x28; LED_LOWPOWER_MODE := 0;
     LED_R_CURRENT := 0x28; LED_G_CURRENT := 0x28; LED_B_CURRENT := 0x28;
     led_default_cur := 0x28; led_lowpower_cur := 0x05;
     disabled_samsung_pattern := 0; led_offset := [0; 0; 0];
     led_enable_fade := 0; led_intensity := 40; led_speed := 1;
     led_slope_up_1 := 1; led_slope_up_2 := 1;
     led_slope_down_1 := 1; led_slope_down_2 := 1 |}.

(** A device right after reset: every register reads 0, the bus works. *)
Definition probe_state : state fake_bus :=
  State probe_globals false (replicate AN30259A_REG_MAX 0)
        (FakeBus (replicate AN30259A_REG_MAX 0) []) [].

Definition with_shadow_reg {B} (l : list Z) (s : state B) : state B :=
  State (glob s) (mutex s) l (bus s) (trace s).

Definition with_script (rs : list Z) (s : state fake_bus) : state fake_bus :=
  State (glob s) (mutex s) (shadow_reg s) (FakeBus (chip (bus s)) rs) (trace s).

(** ** Example states *)

Definition with_offsets (offs : list Z) (g : globals) : globals :=
  Globals (LED_DYNAMIC_CURRENT g) (LED_LOWPOWER_MODE g) (LED_R_CURRENT g)
    (LED_G_CURRENT g) (LED_B_CURRENT g) (led_default_cur g)
    (led_lowpower_cur g) (disabled_samsung_pattern g) offs
    (led_enable_fade g) (led_intensity g) (led_speed g) (led_slope_up_1 g)
    (led_slope_up_2 g) (led_slope_down_1 g) (led_slope_down_2 g).

Definition with_disabled (v : Z) (g : globals) : globals :=
  Globals (LED_DYNAMIC_CURRENT g) (LED_LOWPOWER_MODE g) (LED_R_CURRENT g)
    (LED_G_CURRENT g) (LED_B_CURRENT g) (led_default_cur g)
    (led_lowpower_cur g) v (led_offset g)
    (led_enable_fade g) (led_intensity g) (led_speed g) (led_slope_up_1 g)
    (led_slope_up_2 g) (led_slope_down_1 g) (led_slope_down_2 g).

(** The red channel has a calibration offset of 100 and a start delay of
    10 half-seconds left in LED1CNT2 by an earlier pattern. *)
Definition offset_state : state fake_bus :=
  with_glob (with_offsets [100; 0; 0])
    (with_shadow_reg (<[AN30259A_REG_LED1CNT2 := 0xa0]> (shadow_reg probe_state))
       probe_state).

(** The red channel is blinking: enable and slope-mode bits set, a current
    code and a start delay programmed. *)
Definition red_blinking : state fake_bus :=
  with_shadow_reg
    (<[AN30259A_REG_LEDON := 0x11]>
       (<[AN30259A_REG_LED1CC := 0x28]>
          (<[AN30259A_REG_LED1CNT2 := 0xa0]> (shadow_reg probe_state))))
    probe_state.

(** ** The rest of the driver

    The remaining register-level functions and the sysfs handlers that feed
    the tunables.  A handler's first argument is what its parser left behind:
    kstrtou8 / kstrtoul give a value or fail ([None]); sscanf gives the number
    of conversions and the values its targets then hold. *)

Definition AN30259A_MASK_IMAX : Z := 0xc0.
Definition LED_IMAX_SHIFT : Z := 6.
Definition LED_R_MASK : Z := 0x00ff0000.
Definition LED_G_MASK : Z := 0x0000ff00.
Definition LED_B_MASK : Z := 0x000000ff.
Definition LED_R_SHIFT : Z := 16.
Definition LED_G_SHIFT : Z := 8.
Definition EINVAL : Z := 22.

(** Conversion of an [unsigned int] value to [int]. *)
Definition to_int (z : Z) : Z := (z + 2 ^ 31) mod 2 ^ 32 - 2 ^ 31.

Definition set_LED_LOWPOWER_MODE (v : Z) (g : globals) : globals :=
  Globals (LED_DYNAMIC_CURRENT g) v (LED_R_CURRENT g) (LED_G_CURRENT g)
    (LED_B_CURRENT g) (led_default_cur g) (led_lowpower_cur g)
    (disabled_samsung_pattern g) (led_offset g) (led_enable_fade g)
    (led_intensity g) (led_speed g) (led_slope_up_1 g) (led_slope_up_2 g)
    (led_slope_down_1 g) (led_slope_down_2 g).

Definition set_led_enable_fade (v : Z) (g : globals) : globals :=
  Globals (LED_DYNAMIC_CURRENT g) (LED_LOWPOWER_MODE g) (LED_R_CURRENT g)
    (LED_G_CURRENT g) (LED_B_CURRENT g) (led_default_cur g)
    (led_lowpower_cur g) (disabled_samsung_pattern g) (led_offset g) v
    (led_intensity g) (led_speed g) (led_slope_up_1 g) (led_slope_up_2 g)
    (led_slope_down_1 g) (led_slope_down_2 g).

Definition set_led_intensity (v : Z) (g : globals) : globals :=
  Globals (LED_DYNAMIC_CURRENT g) (LED_LOWPOWER_MODE g) (LED_R_CURRENT g)
    (LED_G_CURRENT g) (LED_B_CURRENT g) (led_default_cur g)
    (led_lowpower_cur g) (disabled_samsung_pattern g) (led_offset g)
    (led_enable_fade g) v (led_speed g) (led_slope_up_1 g) (led_slope_up_2 g)
    (led_slope_down_1 g) (led_slope_down_2 g).

Definition set_led_slope (up1 up2 down1 down2 : Z) (g : globals) : globals :=
  Globals (LED_DYNAMIC_CURRENT g) (LED_LOWPOWER_MODE g) (LED_R_CURRENT g)
    (LED_G_CURRENT g) (LED_B_CURRENT g) (led_default_cur g)
    (led_lowpower_cur g) (disabled_samsung_pattern g) (led_offset g)
    (led_enable_fade g) (led_intensity g) (led_speed g) up1 up2 down1 down2.

Definition set_dt (default_cur lowpower_cur : Z) (offs : list Z) (g : globals)
    : globals :=
  Globals (LED_DYNAMIC_CURRENT g) (LED_LOWPOWER_MODE g) (LED_R_CURRENT g)
    (LED_G_CURRENT g) (LED_B_CURRENT g) default_cur lowpower_cur
    (disabled_samsung_pattern g) offs (led_enable_fade g) (led_intensity g)
    (led_speed g) (led_slope_up_1 g) (led_slope_up_2 g) (led_slope_down_1 g)
    (led_slope_down_2 g).

(** struct an30259a_led, the two fields the brightness work reads. *)
Record an30259a_led := An30259aLed {
  channel : an30259a_led_enum;    (* u8, set to 0..2 by an30259a_initialize *)
  brightness : Z                  (* u8 *)
}.

Section DriverRest.
Context {B : Type} `{I2CAdapter B}.

(** an30259a_set_brightness (lines 290-296): records the level; the work it
    schedules is [an30259a_led_brightness_work]. *)
Definition an30259a_set_brightness (led : an30259a_led) (level : Z)
    : an30259a_led :=
  An30259aLed (channel led) (to_u8 level).

(** an30259a_led_brightness_work (lines 298-305). *)
Definition an30259a_led_brightness_work (led : an30259a_led) (s : state B)
    : state B :=
  let s := leds_on (channel led) true false (brightness led) s in
  let '(ret, s) := leds_i2c_write_all s in
  s.

(** leds_set_imax (lines 363-379): the status of the write is logged and
    dropped. *)
Definition leds_set_imax (imax : Z) (s : state B) : Z * state B :=
  let imax := to_u8 imax in
  let s := write_reg AN30259A_REG_SEL
             (Z.land (reg s AN30259A_REG_SEL) (Z.lnot AN30259A_MASK_IMAX)) s in
  let s := write_reg AN30259A_REG_SEL
             (Z.lor (reg s AN30259A_REG_SEL) (Z.shiftl imax LED_IMAX_SHIFT))
             s in
  let '(ret, s) :=
    i2c_smbus_write_byte_data (Z.of_nat AN30259A_REG_SEL)
      (reg s AN30259A_REG_SEL) s in
  (0, s).

(** store_an30259a_led_lowpower (lines 564-583); [parsed] is kstrtou8's. *)
Definition store_an30259a_led_lowpower (parsed : option Z) (s : state B)
    : state B :=
  match parsed with
  | None => s
  | Some led_lowpower => with_glob (set_LED_LOWPOWER_MODE led_lowpower) s
  end.

(** store_an30259a_led_br_lev (lines 585-604); [parsed] is kstrtoul's, base
    16. *)
Definition store_an30259a_led_br_lev (parsed : option Z) (s : state B)
    : state B :=
  match parsed with
  | None => s
  | Some brightness_lev => (leds_set_imax brightness_lev s).2
  end.

(** store_an30259a_led_pattern (lines 606-626); [mode] is the [unsigned int]
    the first conversion stored (0 if none). *)
Definition store_an30259a_led_pattern (retval mode : Z) (s : state B)
    : option (state B) :=
  if retval =? 0 then Some s
  else an30259a_start_led_pattern (to_int mode) s.

(** store_an30259a_led_blink (lines 628-672); the three values are the
    [unsigned int] targets, 0 where nothing was converted. *)
Definition store_an30259a_led_blink
    (retval led_brightness delay_on_time delay_off_time : Z) (s : state B)
    : option (state B) :=
  if retval =? 0 then Some s
  else
    let s := an30259a_reset_register_work s in
    let led_r_brightness :=
      to_u8 (Z.shiftr (Z.land (to_u32 led_brightness) LED_R_MASK) LED_R_SHIFT) in
    let led_g_brightness :=
      to_u8 (Z.shiftr (Z.land (to_u32 led_brightness) LED_G_MASK) LED_G_SHIFT) in
    let led_b_brightness :=
      to_u8 (Z.land (to_u32 led_brightness) LED_B_MASK) in
    s ← an30259a_set_led_blink LED_R delay_on_time delay_off_time
          led_r_brightness s;
    s ← an30259a_set_led_blink LED_G delay_on_time delay_off_time
          led_g_brightness s;
    s ← an30259a_set_led_blink LED_B delay_on_time delay_off_time
          led_b_brightness s;
    let '(ret, s) := leds_i2c_write_all s in
    Some s.

(** store_an30259a_led_fade (lines 684-697). *)
Definition store_an30259a_led_fade (scanned : option Z) (s : state B)
    : state B :=
  let enabled := default (-1) scanned in
  if (enabled =? 0) || (enabled =? 1)
  then with_glob (set_led_enable_fade enabled) s
  else s.

(** store_an30259a_led_intensity (lines 712-727). *)
Definition store_an30259a_led_intensity (scanned : option Z) (s : state B)
    : state B :=
  let new_intensity := default (-1) scanned in
  if (0 <=? new_intensity) && (new_intensity <=? 255)
  then with_glob (set_led_intensity (to_u8 new_intensity)) s
  else s.

(** store_an30259a_led_slope (lines 756-777); the four values are what the
    locals hold after sscanf, whatever that is for a target it did not reach. *)
Definition store_an30259a_led_slope
    (retval new_led_slope_up_1 new_led_slope_up_2
     new_led_slope_down_1 new_led_slope_down_2 : Z) (s : state B) : state B :=
  if negb (retval =? 0) then
    with_glob
      (set_led_slope
         (Z.min (Z.max new_led_slope_up_1 0) 5)
         (Z.min (Z.max new_led_slope_up_2 0) 5)
         (Z.min (Z.max new_led_slope_down_1 0) 5)
         (Z.min (Z.max new_led_slope_down_2 0) 5)) s
  else s.

(** disable_samsung_pattern_on_store (lines 931-940); [parsed] is kstrtoul's,
    which writes the global only on success. *)
Definition disable_samsung_pattern_on_store (parsed : option Z) (s : state B)
    : Z * state B :=
  match parsed with
  | None => (- EINVAL, s)
  | Some v => (1, with_glob (with_disabled v) s)
  end.

(** [data->shadow_reg[i] &= ~mask]. *)
Definition clear_bits (i : nat) (mask : Z) (s : state B) : state B :=
  write_reg i (Z.land (reg s i) (Z.lnot mask)) s.

(** an30259a_remove (lines 1197-1231), its edits of the shadow image.  The
    sysfs and class-device teardown that follows is outside the model, and the
    image is freed at the end. *)
Definition an30259a_remove (s : state B) : state B :=
  let s := clear_bits AN30259A_REG_LEDON (Z.shiftl LED_ON 0) s in
  let s := clear_bits AN30259A_REG_LEDON (Z.shiftl LED_ON 1) s in
  let s := clear_bits AN30259A_REG_LEDON (Z.shiftl LED_ON 2) s in
  let s := clear_bits (AN30259A_REG_LED1CNT2 + 0 * 4) AN30259A_MASK_DELAY s in
  let s := clear_bits (AN30259A_REG_LED1CNT2 + 1 * 4) AN30259A_MASK_DELAY s in
  let s := clear_bits (AN30259A_REG_LED1CNT2 + 2 * 4) AN30259A_MASK_DELAY s in
  let s := clear_bits AN30259A_REG_LEDON (Z.shiftl LED_SLOPE_MODE 0) s in
  let s := clear_bits AN30259A_REG_LEDON (Z.shiftl LED_SLOPE_MODE 1) s in
  let s := clear_bits AN30259A_REG_LEDON (Z.shiftl LED_SLOPE_MODE 2) s in
  let s := write_reg (AN30259A_REG_LED1CC + 0) 0 s in
  let s := write_reg (AN30259A_REG_LED1CC + 1) 0 s in
  write_reg (AN30259A_REG_LED1CC + 2) 0 s.

End DriverRest.

(** an30259a_parse_dt (lines 1008-1045); each argument is what
    of_property_read_u32 read, [None] when the property is missing. *)
Definition an30259a_parse_dt (default_current lowpower_current
    offset_current : option Z) (g : globals) : Z * globals :=
  let led_default_cur := default 0x28 default_current in
  let led_lowpower_cur := default 0x05 lowpower_current in
  let offs :=
    match offset_current with
    | None => [0; 0; 0]
    | Some read_dt_property =>
        [Z.land (Z.shiftr read_dt_property LED_R_SHIFT) 0xff;
         Z.land (Z.shiftr read_dt_property LED_G_SHIFT) 0xff;
         Z.land read_dt_property 0xff]
    end in
  (0, set_dt led_default_cur led_lowpower_cur offs g).

(** ** Properties of states used below *)

(** Every byte of the image is a byte and there are AN30259A_REG_MAX of
    them. *)
Definition image_ok {B} (s : state B) : Prop :=
  length (shadow_reg s) = AN30259A_REG_MAX ∧
  Forall (λ x, 0 <= x < 256) (shadow_reg s).

(** The ranges the sysfs setters and the device tree reader establish. *)
Definition tunables_ok (g : globals) : Prop :=
  (led_enable_fade g = 0 ∨ led_enable_fade g = 1) ∧
  0 <= led_intensity g <= 255 ∧
  0 <= led_speed g <= 15 ∧
  0 <= led_slope_up_1 g <= 5 ∧ 0 <= led_slope_up_2 g <= 5 ∧
  0 <= led_slope_down_1 g <= 5 ∧ 0 <= led_slope_down_2 g <= 5.

(** The channel a named pattern lights, and whether it runs in slope mode. *)
Definition pattern_channel (mode : Z) : an30259a_led_enum :=
  if (mode =? MISSED_NOTI) || (mode =? POWERING) then LED_B
  else if mode =? FULLY_CHARGED then LED_G
  else LED_R.

Definition pattern_slope (mode : Z) : bool :=
  (mode =? CHARGING_ERR) || (mode =? MISSED_NOTI) || (mode =? LOW_BATTERY)
  || (mode =? POWERING).

(** A trace extension made of whole commits: every bus write lies between
    a lock and the matching unlock, and no lock is left open. *)
Fixpoint in_commit (held : bool) (l : list event) : bool :=
  match l with
  | [] => negb held
  | EvMutexLock :: l => negb held && in_commit true l
  | EvMutexUnlock :: l => held && in_commit false l
  | _ :: l => held && in_commit held l
  end.

(** What every operation keeps: the image stays an image of bytes, the trace
    grows by whole commits, and a free mutex is free again on return. *)
Definition keeps_invariant {B} (s s' : state B) : Prop :=
  (image_ok s → image_ok s') ∧
  (∃ ext, trace s' = trace s ++ ext ∧ in_commit false ext = true) ∧
  (mutex s = false → mutex s' = false).

(** The events one commit adds to the trace when the image is [regs] and the
    adapter is in state [b]: the lock, the block of 19 registers from SEL
    with the adapter's status, the LEDON byte with its status unless the
    block failed, and the unlock. *)
Definition commit_events `{I2CAdapter B} (regs : list Z) (b : B) : list event :=
  let command := Z.lor (Z.of_nat AN30259A_REG_SEL) AN30259A_CTN_RW_FLG in
  let block := take 19 (drop 2 regs) in
  let rb := adapter_write_block b command 19 block in
  let ledon := regs !!! AN30259A_REG_LEDON in
  let ry := adapter_write_byte rb.2 (Z.of_nat AN30259A_REG_LEDON) ledon in
  [EvMutexLock; EvWriteBlock command 19 block rb.1]
  ++ (if rb.1 <? 0 then []
      else [EvWriteByte (Z.of_nat AN30259A_REG_LEDON) ledon ry.1])
  ++ [EvMutexUnlock].

(** ** Reading fields back out of the image *)

Definition hi_nibble (x : Z) : Z := Z.shiftr x 4.
Definition lo_nibble (x : Z) : Z := Z.land x 0x0f.

Definition enable_bit {B} (s : state B) (led : an30259a_led_enum) : bool :=
  Z.testbit (reg s AN30259A_REG_LEDON) (Z.of_nat (led_num led)).

Definition slope_bit {B} (s : state B) (led : an30259a_led_enum) : bool :=
  Z.testbit (reg s AN30259A_REG_LEDON) (4 + Z.of_nat (led_num led)).

Definition delay_field {B} (s : state B) (led : an30259a_led_enum) : Z :=
  hi_nibble (reg s (AN30259A_REG_LED1CNT2 + led_num led * 4)).

Definition current_code {B} (s : state B) (led : an30259a_led_enum) : Z :=
  reg s (AN30259A_REG_LED1CC + led_num led).

(** The five registers that belong to one channel's slope engine. *)
Definition slope_regs (led : an30259a_led_enum) : list nat :=
  [AN30259A_REG_LED1CNT1 + led_num led * 4;
   AN30259A_REG_LED1CNT2 + led_num led * 4;
   AN30259A_REG_LED1CNT3 + led_num led * 4;
   AN30259A_REG_LED1CNT4 + led_num led * 4;
   AN30259A_REG_LED1SLP + led_num led]%nat.

Definition nibble (x : Z) : Prop := 0 <= x <= 15.

(** Channel [led] looks the same in [s'] as in [s]: its two LEDON bits, its
    current code and its five slope registers. *)
Definition channel_same {B} (s s' : state B) (led : an30259a_led_enum) : Prop :=
  enable_bit s' led = enable_bit s led ∧
  slope_bit s' led = slope_bit s led ∧
  current_code s' led = current_code s led ∧
  ∀ i : nat, i ∈ slope_regs led → shadow_reg s' !! i = shadow_reg s !! i.

(** The tunables agree except possibly for LED_DYNAMIC_CURRENT. *)
Definition same_tunables (g g' : globals) : Prop :=
  set_LED_DYNAMIC_CURRENT 0 g' = set_LED_DYNAMIC_CURRENT 0 g.

(** One byte of the 0xRRGGBB composite the blink handler parses. *)
Definition colour_byte (colour : Z) (led : an30259a_led_enum) : Z :=
  match led with
  | LED_R => (colour / 2 ^ 16) mod 256
  | LED_G => (colour / 2 ^ 8) mod 256
  | LED_B => colour mod 256
  end.

(** ** What [leds_on] computes, byte by byte *)

(** LEDON after [leds_on]: the byte before, with bit [c] set to [on] and bit
    [4 + c] set to [slope]. *)
Definition ledon_after (r c : Z) (on slope : bool) : Z :=
  let r := to_u8 (if on then Z.lor r (Z.shiftl LED_ON c)
                  else Z.land r (Z.lnot (Z.shiftl LED_ON c))) in
  to_u8 (if slope then Z.lor r (Z.shiftl LED_SLOPE_MODE c)
         else Z.land r (Z.lnot (Z.shiftl LED_SLOPE_MODE c))).

(** The current code [leds_on] stores: the calibration offset is added in
    [u32] arithmetic and the sum converted back to [u8]; code 0 gets no
    offset. *)
Definition ledcc_after (g : globals) (led : an30259a_led_enum) (ledcc : Z) : Z :=
  if 0 <? to_u8 ledcc
  then to_u8 (to_u8 ledcc + led_offset g !!! led_num led)
  else 0.

(** ** The brightness policy and the duration conversion in closed form *)

Definition channel_current (g : globals) (led : an30259a_led_enum) : Z :=
  match led with
  | LED_R => LED_R_CURRENT g
  | LED_G => LED_G_CURRENT g
  | LED_B => LED_B_CURRENT g
  end.

(** The brightness a named pattern hands to leds_on (lines 419-434, 489). *)
Definition pattern_brightness (g : globals) (mode : Z) : Z :=
  if mode =? POWERING then
    if LED_LOWPOWER_MODE g =? 1 then to_u8 (led_lowpower_cur g)
    else to_u8 (led_default_cur g)
  else if led_intensity g =? 0
  then to_u8 (channel_current g (pattern_channel mode))
  else to_u8 (Z.min (led_intensity g) LED_MAX_CURRENT).


(** The three branches of the intensity scale, with floor division. *)
Definition B_eff (scale dynamic_current B_req : Z) : Z :=
  if scale =? 0 then Z.min B_req 255
  else if scale =? 40 then B_req * dynamic_current / 255
  else B_req * scale / 255.

Definition clamp_ms (d : Z) : Z := Z.min d SLPTT_MAX_VALUE.

(** ceil(d / s / 500) with both quotients taken in the rationals. *)
Definition slptt_rational (d s : Z) : Z :=
  Qceiling (inject_Z (clamp_ms d) / inject_Z s / inject_Z 500)%Q.

(** ceil(q / 500) where q is the integer quotient of d by s. *)
Definition slptt_quotient_first (d s : Z) : Z :=
  Qceiling (inject_Z (clamp_ms d / s) / inject_Z 500)%Q.

(** floor(floor(d / s) / 500): both quotients taken as integer divisions. *)
Definition slptt_truncating (d s : Z) : Z := clamp_ms d / s / 500.

Definition int_range (z : Z) : Prop := - 2 ^ 31 <= z < 2 ^ 31.

(** The state in which an30259a_set_led_blink runs the encoders: the entry
    state with LED_DYNAMIC_CURRENT updated (line 520-524). *)
Definition blink_entry {B} (led : an30259a_led_enum) (b : Z) (s : state B)
    : state B :=
  with_glob (λ _, (blink_scale_brightness led (to_u8 b) (glob s)).2) s.

(** ** The model at work on a freshly probed device *)

(** The charging pattern: reset, then red steady at min(led_intensity, 255)
    = 0x28; two commits reach the chip, which ends up equal to the image. *)
Example charging_on_probe :
  (λ s', (take 6 (shadow_reg s'), chip (bus s'), length (trace s'), mutex s'))
    <$> an30259a_start_led_pattern CHARGING probe_state
  = Some ([0; 0x01; 0; 0x28; 0; 0],
          [0; 0x01; 0; 0x28; 0; 0; 0; 0; 0; 0; 0; 0; 0; 0; 0; 0; 0; 0; 0; 0; 0],
          8%nat, false).
Proof. vm_compute. reflexivity. Qed.

(** The powering pattern: blue in slope mode with the literal timings. *)
Example powering_on_probe :
  shadow_reg <$> an30259a_start_led_pattern POWERING probe_state
  = Some [0; 0x44; 0; 0; 0; 0x28; 0; 0; 0x22;
          0; 0; 0; 0; 0; 0; 0; 0; 0xfc; 0x08; 0x33; 0x33].
Proof. vm_compute. reflexivity. Qed.

(** A commit whose LEDON byte write fails: the configuration block has
    reached the chip, its LEDON register still reads 0. *)
Example commit_fails_on_enable_byte :
  let r := leds_i2c_write_all (with_script [0; -5] red_blinking) in
  r.1 = -5 ∧
  drop 2 (chip (bus r.2)) = drop 2 (shadow_reg red_blinking) ∧
  chip (bus r.2) !! AN30259A_REG_LEDON = Some 0 ∧
  shadow_reg r.2 !! AN30259A_REG_LEDON = Some 0x11.
Proof. vm_compute. repeat split; reflexivity. Qed.

(** ** Integer and bit lemmas *)

Lemma to_u8_range z : 0 <= to_u8 z < 256.
Proof. unfold to_u8. apply Z.mod_pos_bound. lia. Qed.

Lemma to_u8_small z : 0 <= z < 256 → to_u8 z = z.
Proof. intros. unfold to_u8. by apply Z.mod_small. Qed.

Lemma testbit_to_u8 z i : 0 <= i < 8 → Z.testbit (to_u8 z) i = Z.testbit z i.
Proof.
  intros Hi. unfold to_u8. change 256 with (2 ^ 8).
  apply Z.mod_pow2_bits_low. lia.
Qed.

Lemma pack_nibbles a b :
  0 <= b < 16 → Z.lor (Z.shiftl a 4) b = a * 16 + b.
Proof.
  intros Hb.
  assert (Hdisj : Z.land (Z.shiftl a 4) b = 0).
  { apply Z.bits_inj'. intros n Hn.
    rewrite Z.land_spec, Z.bits_0.
    destruct (Z.lt_ge_cases n 4) as [Hlt|Hge].
    - rewrite Z.shiftl_spec_low by lia. reflexivity.
    - rewrite <- (Z.mod_small b (2 ^ 4)) by lia.
      rewrite Z.mod_pow2_bits_high by lia. apply andb_false_r. }
  rewrite <- Z.lxor_lor by exact Hdisj.
  rewrite <- Z.add_nocarry_lxor by exact Hdisj.
  rewrite Z.shiftl_mul_pow2 by lia. reflexivity.
Qed.

Lemma pack_nibbles_u8 a b :
  nibble a → nibble b → to_u8 (Z.lor (Z.shiftl a 4) b) = a * 16 + b.
Proof.
  unfold nibble. intros Ha Hb.
  rewrite pack_nibbles by lia. apply to_u8_small. lia.
Qed.

Lemma hi_nibble_pack a b : nibble a → nibble b → hi_nibble (a * 16 + b) = a.
Proof.
  unfold nibble, hi_nibble. intros Ha Hb.
  rewrite Z.shiftr_div_pow2 by lia. change (2 ^ 4) with 16.
  symmetry. apply (Z.div_unique_pos _ _ _ b); lia.
Qed.

Lemma lo_nibble_pack a b : nibble a → nibble b → lo_nibble (a * 16 + b) = b.
Proof.
  unfold nibble, lo_nibble. intros Ha Hb.
  change 0x0f with (Z.ones 4). rewrite Z.land_ones by lia.
  change (2 ^ 4) with 16.
  symmetry. apply (Z.mod_unique_pos _ _ a); lia.
Qed.

(** ** Register-image lemmas *)

Section ImageLemmas.
Context {B : Type} `{I2CAdapter B}.
Implicit Types (s : state B) (i j : nat) (v : Z).

Lemma reg_write_reg_eq s i v :
  (i < length (shadow_reg s))%nat → reg (write_reg i v s) i = to_u8 v.
Proof. intros Hi. unfold reg, write_reg; simpl. by apply list_lookup_total_insert_eq. Qed.

Lemma reg_write_reg_ne s i j v : i ≠ j → reg (write_reg i v s) j = reg s j.
Proof. intros Hij. unfold reg, write_reg; simpl. by apply list_lookup_total_insert_ne. Qed.

Lemma length_write_reg s i v :
  length (shadow_reg (write_reg i v s)) = length (shadow_reg s).
Proof. unfold write_reg; simpl. apply length_insert. Qed.

End ImageLemmas.

(** ** leds_set_slope_mode: packing and frame *)

Section SlopeMode.
Context {B : Type} `{I2CAdapter B}.
Implicit Types (s : state B) (led : an30259a_led_enum).

Lemma leds_set_slope_mode_other s led delay dutymax dutymid dutymin
    slptt1 slptt2 dt1 dt2 dt3 dt4 (i : nat) :
  i ∉ slope_regs led →
  shadow_reg (leds_set_slope_mode led delay dutymax dutymid dutymin
                slptt1 slptt2 dt1 dt2 dt3 dt4 s) !! i = shadow_reg s !! i.
Proof.
  unfold slope_regs. rewrite !not_elem_of_cons. intros (H1 & H2 & H3 & H4 & H5 & _).
  unfold leds_set_slope_mode, write_reg; simpl.
  by rewrite !list_lookup_insert_ne.
Qed.

Lemma leds_set_slope_mode_regs s led delay dutymax dutymid dutymin
    slptt1 slptt2 dt1 dt2 dt3 dt4 :
  length (shadow_reg s) = AN30259A_REG_MAX →
  let s' := leds_set_slope_mode led delay dutymax dutymid dutymin
              slptt1 slptt2 dt1 dt2 dt3 dt4 s in
  reg s' (AN30259A_REG_LED1CNT1 + led_num led * 4)
    = to_u8 (Z.lor (Z.shiftl (to_u8 dutymax) 4) (to_u8 dutymid)) ∧
  reg s' (AN30259A_REG_LED1CNT2 + led_num led * 4)
    = to_u8 (Z.lor (Z.shiftl (to_u8 delay) 4) (to_u8 dutymin)) ∧
  reg s' (AN30259A_REG_LED1CNT3 + led_num led * 4)
    = to_u8 (Z.lor (Z.shiftl (to_u8 dt2) 4) (to_u8 dt1)) ∧
  reg s' (AN30259A_REG_LED1CNT4 + led_num led * 4)
    = to_u8 (Z.lor (Z.shiftl (to_u8 dt4) 4) (to_u8 dt3)) ∧
  reg s' (AN30259A_REG_LED1SLP + led_num led)
    = to_u8 (Z.lor (Z.shiftl (to_u8 slptt2) 4) (to_u8 slptt1)).
Proof.
  intros Hlen s'. subst s'. unfold leds_set_slope_mode, reg, write_reg; simpl.
  destruct led; simpl;
    repeat split;
    repeat first
      [ rewrite list_lookup_total_insert_eq
          by (rewrite ?length_insert, Hlen; unfold AN30259A_REG_MAX; simpl; lia)
      | rewrite list_lookup_total_insert_ne by (compute; lia) ];
    reflexivity.
Qed.

(** C10.  For every channel and all argument values, leds_set_slope_mode
    writes the four counter registers of that channel (LED1CNT1 + 4c ..
    LED1CNT4 + 4c) and its slope register (LED1SLP + c) with the packed
    arguments, and changes nothing else: every other byte of the shadow
    image, hence LEDON, the three current-code bytes and all registers of
    the other two channels, keeps its value, and so do the tunables, the
    mutex, the bus and the trace. *)
Theorem leds_set_slope_mode_frame s led delay dutymax dutymid dutymin
    slptt1 slptt2 dt1 dt2 dt3 dt4 :
  length (shadow_reg s) = AN30259A_REG_MAX →
  let s' := leds_set_slope_mode led delay dutymax dutymid dutymin
              slptt1 slptt2 dt1 dt2 dt3 dt4 s in
  (* the five bytes written *)
  (reg s' (AN30259A_REG_LED1CNT1 + led_num led * 4)
     = to_u8 (Z.lor (Z.shiftl (to_u8 dutymax) 4) (to_u8 dutymid)) ∧
   reg s' (AN30259A_REG_LED1CNT2 + led_num led * 4)
     = to_u8 (Z.lor (Z.shiftl (to_u8 delay) 4) (to_u8 dutymin)) ∧
   reg s' (AN30259A_REG_LED1CNT3 + led_num led * 4)
     = to_u8 (Z.lor (Z.shiftl (to_u8 dt2) 4) (to_u8 dt1)) ∧
   reg s' (AN30259A_REG_LED1CNT4 + led_num led * 4)
     = to_u8 (Z.lor (Z.shiftl (to_u8 dt4) 4) (to_u8 dt3)) ∧
   reg s' (AN30259A_REG_LED1SLP + led_num led)
     = to_u8 (Z.lor (Z.shiftl (to_u8 slptt2) 4) (to_u8 slptt1))) ∧
  (* every other byte is unchanged *)
  (∀ i : nat, i ∉ slope_regs led → shadow_reg s' !! i = shadow_reg s !! i) ∧
  length (shadow_reg s') = length (shadow_reg s) ∧
  (* in particular *)
  reg s' AN30259A_REG_LEDON = reg s AN30259A_REG_LEDON ∧
  (∀ led', current_code s' led' = current_code s led') ∧
  (∀ led' (i : nat), led' ≠ led → i ∈ slope_regs led' → reg s' i = reg s i) ∧
  (* nothing outside the image is touched *)
  glob s' = glob s ∧ mutex s' = mutex s ∧ bus s' = bus s ∧ trace s' = trace s.
Proof.
  intros Hlen s'.
  assert (Hother : ∀ i : nat, i ∉ slope_regs led → reg s' i = reg s i).
  { intros i Hi. unfold reg. rewrite !list_lookup_total_alt.
    subst s'. by rewrite leds_set_slope_mode_other. }
  split; [by apply leds_set_slope_mode_regs|].
  split; [intros i Hi; by apply leds_set_slope_mode_other|].
  split; [subst s'; unfold leds_set_slope_mode, write_reg; simpl;
          by rewrite !length_insert|].
  split; [apply Hother; destruct led; unfold slope_regs; simpl;
          rewrite !not_elem_of_cons; repeat split; try discriminate;
          apply not_elem_of_nil|].
  split; [intros led'; unfold current_code; apply Hother;
          destruct led, led'; unfold slope_regs; simpl;
          rewrite !not_elem_of_cons; repeat split; try discriminate;
          apply not_elem_of_nil|].
  split; [|done].
  intros led' i Hne Hi. apply Hother.
  destruct led, led'; try congruence; unfold slope_regs in *; simpl in *;
    rewrite !elem_of_cons in Hi; rewrite !not_elem_of_cons;
    destruct Hi as [->|[->|[->|[->|[->|Hi]]]]];
    try (by apply elem_of_nil in Hi);
    repeat split; try discriminate; apply not_elem_of_nil.
Qed.

(** C8.  The packing round-trips: for nibble-range arguments, the high and
    low nibbles of the bytes leds_set_slope_mode stores in the channel's
    registers are exactly the arguments, (dutymax, dutymid) in LEDxCNT1 and
    (delay, dutymin) in LEDxCNT2, and likewise (dt2, dt1), (dt4, dt3) and
    (slptt2, slptt1) in the remaining three. *)
Theorem leds_set_slope_mode_roundtrip s led delay dutymax dutymid dutymin
    slptt1 slptt2 dt1 dt2 dt3 dt4 :
  length (shadow_reg s) = AN30259A_REG_MAX →
  nibble delay → nibble dutymax → nibble dutymid → nibble dutymin →
  nibble slptt1 → nibble slptt2 →
  nibble dt1 → nibble dt2 → nibble dt3 → nibble dt4 →
  let s' := leds_set_slope_mode led delay dutymax dutymid dutymin
              slptt1 slptt2 dt1 dt2 dt3 dt4 s in
  let cnt (n : nat) := reg s' (AN30259A_REG_LED1CNT1 + n + led_num led * 4) in
  let slp := reg s' (AN30259A_REG_LED1SLP + led_num led) in
  hi_nibble (cnt 0%nat) = dutymax ∧ lo_nibble (cnt 0%nat) = dutymid ∧
  hi_nibble (cnt 1%nat) = delay ∧ lo_nibble (cnt 1%nat) = dutymin ∧
  hi_nibble (cnt 2%nat) = dt2 ∧ lo_nibble (cnt 2%nat) = dt1 ∧
  hi_nibble (cnt 3%nat) = dt4 ∧ lo_nibble (cnt 3%nat) = dt3 ∧
  hi_nibble slp = slptt2 ∧ lo_nibble slp = slptt1.
Proof.
  intros Hlen Hdelay Hmax Hmid Hmin Htt1 Htt2 Hdt1 Hdt2 Hdt3 Hdt4 s' cnt slp.
  destruct (leds_set_slope_mode_regs s led delay dutymax dutymid dutymin
              slptt1 slptt2 dt1 dt2 dt3 dt4 Hlen) as (E1 & E2 & E3 & E4 & E5).
  fold s' in E1, E2, E3, E4, E5.
  assert (Hu : ∀ x, nibble x → to_u8 x = x)
    by (intros x Hx; apply to_u8_small; unfold nibble in Hx; lia).
  rewrite (Hu dutymax), (Hu dutymid) in E1 by assumption.
  rewrite (Hu delay), (Hu dutymin) in E2 by assumption.
  rewrite (Hu dt2), (Hu dt1) in E3 by assumption.
  rewrite (Hu dt4), (Hu dt3) in E4 by assumption.
  rewrite (Hu slptt2), (Hu slptt1) in E5 by assumption.
  rewrite pack_nibbles_u8 in E1, E2, E3, E4, E5 by assumption.
  subst cnt slp; cbv beta.
  replace (AN30259A_REG_LED1CNT1 + 0 + led_num led * 4)%nat
    with (AN30259A_REG_LED1CNT1 + led_num led * 4)%nat by lia.
  replace (AN30259A_REG_LED1CNT1 + 1 + led_num led * 4)%nat
    with (AN30259A_REG_LED1CNT2 + led_num led * 4)%nat
    by (unfold AN30259A_REG_LED1CNT1, AN30259A_REG_LED1CNT2; lia).
  replace (AN30259A_REG_LED1CNT1 + 2 + led_num led * 4)%nat
    with (AN30259A_REG_LED1CNT3 + led_num led * 4)%nat
    by (unfold AN30259A_REG_LED1CNT1, AN30259A_REG_LED1CNT3; lia).
  replace (AN30259A_REG_LED1CNT1 + 3 + led_num led * 4)%nat
    with (AN30259A_REG_LED1CNT4 + led_num led * 4)%nat
    by (unfold AN30259A_REG_LED1CNT1, AN30259A_REG_LED1CNT4; lia).
  rewrite E1, E2, E3, E4, E5.
  rewrite !hi_nibble_pack, !lo_nibble_pack by assumption.
  done.
Qed.

End SlopeMode.

(** ** leds_on *)

Lemma to_u8_to_u32 z : to_u8 (to_u32 z) = to_u8 z.
Proof.
  unfold to_u8, to_u32. apply Z.mod_mod_divide.
  exists (2 ^ 24). reflexivity.
Qed.

Lemma to_u8_idemp z : to_u8 (to_u8 z) = to_u8 z.
Proof. apply to_u8_small, to_u8_range. Qed.

Lemma LED_ON_bit k i : 0 <= k → Z.testbit (Z.shiftl LED_ON k) i = (k =? i).
Proof.
  intros Hk. unfold LED_ON. rewrite Z.shiftl_1_l. by apply Z.pow2_bits_eqb.
Qed.

Lemma LED_SLOPE_MODE_bit k i :
  0 <= k → Z.testbit (Z.shiftl LED_SLOPE_MODE k) i = (4 + k =? i).
Proof.
  intros Hk. change LED_SLOPE_MODE with (Z.shiftl 1 4).
  rewrite Z.shiftl_shiftl by lia. rewrite Z.shiftl_1_l.
  apply Z.pow2_bits_eqb. lia.
Qed.

Lemma ledon_after_bit r c on slope i :
  0 <= c < 4 → 0 <= i < 8 →
  Z.testbit (ledon_after r c on slope) i =
    if c =? i then on else if 4 + c =? i then slope else Z.testbit r i.
Proof.
  intros Hc Hi. unfold ledon_after.
  rewrite testbit_to_u8 by lia.
  destruct slope, on;
    rewrite ?Z.lor_spec, ?Z.land_spec, ?Z.lnot_spec by lia;
    rewrite testbit_to_u8 by lia;
    rewrite ?Z.lor_spec, ?Z.land_spec, ?Z.lnot_spec by lia;
    rewrite LED_ON_bit, LED_SLOPE_MODE_bit by lia;
    destruct (Z.eqb_spec c i), (Z.eqb_spec (4 + c) i); try lia;
    simpl; rewrite ?orb_true_r, ?orb_false_r, ?andb_true_r, ?andb_false_r;
    reflexivity.
Qed.

Section LedsOn.
Context {B : Type} `{I2CAdapter B}.
Implicit Types (s : state B) (led : an30259a_led_enum).

Ltac image_simpl Hlen :=
  repeat first
    [ rewrite list_lookup_total_insert_eq
        by (rewrite ?length_insert, Hlen; compute; lia)
    | rewrite list_lookup_total_insert_ne by (compute; lia)
    | rewrite list_lookup_insert_ne by (compute; lia) ].

Lemma leds_on_outside s led on slopemode ledcc :
  let s' := leds_on led on slopemode ledcc s in
  glob s' = glob s ∧ mutex s' = mutex s ∧ bus s' = bus s ∧
  trace s' = trace s ∧ length (shadow_reg s') = length (shadow_reg s).
Proof.
  unfold leds_on.
  destruct on, (slopemode && negb (led_speed (glob s) =? 0)) eqn:E;
    simpl; rewrite ?E; simpl; rewrite !length_insert; done.
Qed.

Lemma leds_on_LEDON s led on slopemode ledcc :
  length (shadow_reg s) = AN30259A_REG_MAX →
  reg (leds_on led on slopemode ledcc s) AN30259A_REG_LEDON =
    ledon_after (reg s AN30259A_REG_LEDON) (Z.of_nat (led_num led)) on
      (slopemode && negb (led_speed (glob s) =? 0)).
Proof.
  intros Hlen. unfold leds_on, ledon_after.
  destruct on, (slopemode && negb (led_speed (glob s) =? 0)) eqn:E;
    simpl; rewrite ?E; unfold reg, write_reg; simpl;
    destruct led; simpl; image_simpl Hlen; reflexivity.
Qed.

Lemma leds_on_LEDCC s led on slopemode ledcc :
  length (shadow_reg s) = AN30259A_REG_MAX →
  current_code (leds_on led on slopemode ledcc s) led =
    ledcc_after (glob s) led ledcc.
Proof.
  intros Hlen. unfold leds_on, ledcc_after, current_code.
  destruct on, (slopemode && negb (led_speed (glob s) =? 0)) eqn:E;
    simpl; rewrite ?E; unfold reg, write_reg; simpl;
    destruct led; simpl; image_simpl Hlen;
    destruct (0 <? to_u8 ledcc) eqn:E0;
    rewrite ?to_u8_to_u32, ?to_u8_idemp; try reflexivity;
    apply Z.ltb_ge in E0; pose proof (to_u8_range ledcc);
    replace (to_u8 ledcc) with 0 by lia; reflexivity.
Qed.

(** With [on = true] only LEDON and the channel's current code are written. *)
Lemma leds_on_true_other s led slopemode ledcc (i : nat) :
  i ≠ AN30259A_REG_LEDON → i ≠ (AN30259A_REG_LED1CC + led_num led)%nat →
  shadow_reg (leds_on led true slopemode ledcc s) !! i = shadow_reg s !! i.
Proof.
  intros H1 H2. unfold leds_on.
  destruct (slopemode && negb (led_speed (glob s) =? 0)) eqn:E;
    simpl; rewrite ?E; unfold write_reg; simpl;
    by rewrite !list_lookup_insert_ne.
Qed.

(** With [on = false] the channel's LEDxCNT2 is written as well. *)
Lemma leds_on_false_other s led slopemode ledcc (i : nat) :
  i ≠ AN30259A_REG_LEDON → i ≠ (AN30259A_REG_LED1CC + led_num led)%nat →
  i ≠ (AN30259A_REG_LED1CNT2 + led_num led * 4)%nat →
  shadow_reg (leds_on led false slopemode ledcc s) !! i = shadow_reg s !! i.
Proof.
  intros H1 H2 H3. unfold leds_on.
  destruct (slopemode && negb (led_speed (glob s) =? 0)) eqn:E;
    simpl; rewrite ?E; unfold write_reg; simpl;
    by rewrite !list_lookup_insert_ne.
Qed.

Lemma leds_on_false_CNT2 s led slopemode ledcc :
  length (shadow_reg s) = AN30259A_REG_MAX →
  reg (leds_on led false slopemode ledcc s)
      (AN30259A_REG_LED1CNT2 + led_num led * 4) =
    to_u8 (Z.land (reg s (AN30259A_REG_LED1CNT2 + led_num led * 4))
                  (Z.lnot AN30259A_MASK_DELAY)).
Proof.
  intros Hlen. unfold leds_on.
  destruct (slopemode && negb (led_speed (glob s) =? 0)) eqn:E;
    simpl; rewrite ?E; unfold reg, write_reg; simpl;
    destruct led; simpl; image_simpl Hlen; reflexivity.
Qed.

Lemma reg_lookup_eq s s' (i : nat) :
  shadow_reg s' !! i = shadow_reg s !! i → reg s' i = reg s i.
Proof. unfold reg. rewrite !list_lookup_total_alt. by intros ->. Qed.

Lemma enable_bit_leds_on s led led' on slopemode ledcc :
  length (shadow_reg s) = AN30259A_REG_MAX →
  enable_bit (leds_on led on slopemode ledcc s) led' =
    if decide (led' = led) then on else enable_bit s led'.
Proof.
  intros Hlen. unfold enable_bit. rewrite leds_on_LEDON by done.
  rewrite ledon_after_bit by (destruct led, led'; simpl; lia).
  destruct led, led'; simpl; reflexivity.
Qed.

Lemma slope_bit_leds_on s led led' on slopemode ledcc :
  length (shadow_reg s) = AN30259A_REG_MAX →
  slope_bit (leds_on led on slopemode ledcc s) led' =
    if decide (led' = led)
    then slopemode && negb (led_speed (glob s) =? 0)
    else slope_bit s led'.
Proof.
  intros Hlen. unfold slope_bit. rewrite leds_on_LEDON by done.
  rewrite ledon_after_bit by (destruct led, led'; simpl; lia).
  destruct led, led'; simpl; reflexivity.
Qed.

Lemma delay_field_cleared r :
  hi_nibble (to_u8 (Z.land r (Z.lnot AN30259A_MASK_DELAY))) = 0.
Proof.
  unfold hi_nibble. apply Z.bits_inj'. intros n Hn.
  rewrite Z.shiftr_spec, Z.bits_0 by lia.
  destruct (Z.lt_ge_cases (n + 4) 8).
  - rewrite testbit_to_u8, Z.land_spec, Z.lnot_spec by lia.
    assert (Hbit : Z.testbit AN30259A_MASK_DELAY (n + 4) = true).
    { assert (n = 0 ∨ n = 1 ∨ n = 2 ∨ n = 3) as [->|[->|[->| ->]]] by lia;
        reflexivity. }
    rewrite Hbit. apply andb_false_r.
  - unfold to_u8. change 256 with (2 ^ 8).
    apply Z.mod_pow2_bits_high. lia.
Qed.

End LedsOn.

Section LedsOnSteady.
Context {B : Type} `{I2CAdapter B}.
Implicit Types (s : state B) (led : an30259a_led_enum).

(** C5 (amended).  For every channel and every current code,
    leds_on(led, true, false, code) sets the channel's enable bit and clears
    its slope-mode bit, leaving the other channels' bits alone; it stores 0 as
    the current code when the code is 0 and otherwise the code plus the
    channel's calibration offset reduced modulo 256 (the sum wraps, it does
    not saturate); it leaves every other byte of the image as it was, so the
    start-delay field and all slope, duty and timing fields keep their
    values; and nothing is sent to the bus. *)
Theorem leds_on_steady s led code :
  length (shadow_reg s) = AN30259A_REG_MAX →
  0 <= code <= 255 →
  let s' := leds_on led true false code s in
  enable_bit s' led = true ∧
  slope_bit s' led = false ∧
  (∀ led', led' ≠ led →
     enable_bit s' led' = enable_bit s led' ∧
     slope_bit s' led' = slope_bit s led') ∧
  current_code s' led =
    (if code =? 0 then 0
     else (code + led_offset (glob s) !!! led_num led) mod 256) ∧
  (∀ i : nat, i ≠ AN30259A_REG_LEDON →
     i ≠ (AN30259A_REG_LED1CC + led_num led)%nat →
     shadow_reg s' !! i = shadow_reg s !! i) ∧
  delay_field s' led = delay_field s led ∧
  glob s' = glob s ∧ mutex s' = mutex s ∧ bus s' = bus s ∧
  trace s' = trace s.
Proof.
  intros Hlen Hcode s'. subst s'.
  split; [rewrite enable_bit_leds_on by done; by rewrite decide_True|].
  split; [rewrite slope_bit_leds_on by done; by rewrite decide_True|].
  split.
  { intros led' Hne.
    rewrite enable_bit_leds_on, slope_bit_leds_on by done.
    by rewrite !decide_False. }
  split.
  { rewrite leds_on_LEDCC by done. unfold ledcc_after.
    rewrite (to_u8_small code) by lia.
    destruct (Z.eqb_spec code 0) as [->|Hnz]; [reflexivity|].
    destruct (Z.ltb_spec 0 code); [reflexivity|lia]. }
  split; [intros i H1 H2; by apply leds_on_true_other|].
  split.
  { unfold delay_field. f_equal. apply reg_lookup_eq.
    apply leds_on_true_other; destruct led; discriminate. }
  pose proof (leds_on_outside s led true false code) as (?&?&?&?&?).
  done.
Qed.

End LedsOnSteady.

(** C5, witness: red at code 0x20 on a freshly probed device. *)
Lemma leds_on_steady_witness :
  enable_bit (leds_on LED_R true false 0x20 probe_state) LED_R = true.
Proof.
  apply (leds_on_steady probe_state LED_R 0x20); [reflexivity | lia].
Defined.

(** C5 as stated fails: with a start delay of 10 programmed and a calibration
    offset of 100, leds_on(LED_R, true, false, 200) leaves the delay field at
    10 (it is not cleared) and stores 300 mod 256 = 44 as the current code,
    not the saturated 255. *)
Lemma leds_on_steady_not_as_stated :
  let s' := leds_on LED_R true false 200 offset_state in
  delay_field offset_state LED_R = 10 ∧
  delay_field s' LED_R = 10 ∧ delay_field s' LED_R ≠ 0 ∧
  led_offset (glob offset_state) !!! led_num LED_R = 100 ∧
  current_code s' LED_R = 44 ∧ current_code s' LED_R ≠ Z.min 255 (200 + 100).
Proof. vm_compute. repeat split; congruence. Qed.

(** ** leds_i2c_write_all: order of the two writes and the failure path *)

Section Commit.
Context {B : Type} `{I2CAdapter B}.
Implicit Types (s : state B).

(** C2.  leds_i2c_write_all takes the mutex and sends the block of
    registers from SEL to the end of the image first.  If that transfer
    fails (negative status), no byte write is issued: the trace gains exactly
    lock, block write, unlock; the mutex is released; the caller gets the
    adapter's negative status; and the shadow image is what it was on entry,
    nothing is rolled back.  If the block transfer succeeds, the LEDON byte
    is sent next, after the block, and the mutex is released whether or not
    that second transfer fails. *)
Theorem leds_i2c_write_all_order s ret b :
  let command := Z.lor (Z.of_nat AN30259A_REG_SEL) AN30259A_CTN_RW_FLG in
  let block := take 19 (drop 2 (shadow_reg s)) in
  adapter_write_block (bus s) command 19 block = (ret, b) →
  let r := leds_i2c_write_all s in
  (ret < 0 →
     r.1 = ret ∧ r.1 < 0 ∧
     trace r.2 = trace s ++ [EvMutexLock; EvWriteBlock command 19 block ret;
                             EvMutexUnlock] ∧
     (∀ c v x, EvWriteByte c v x ∉ drop (length (trace s)) (trace r.2)) ∧
     mutex r.2 = false ∧
     shadow_reg r.2 = shadow_reg s ∧
     bus r.2 = b ∧ glob r.2 = glob s) ∧
  (0 <= ret →
     ∀ ret' b',
       adapter_write_byte b (Z.of_nat AN30259A_REG_LEDON)
         (reg s AN30259A_REG_LEDON) = (ret', b') →
       r.1 = (if ret' <? 0 then ret' else 0) ∧
       trace r.2 = trace s ++ [EvMutexLock; EvWriteBlock command 19 block ret;
                               EvWriteByte (Z.of_nat AN30259A_REG_LEDON)
                                 (reg s AN30259A_REG_LEDON) ret';
                               EvMutexUnlock] ∧
       mutex r.2 = false ∧
       shadow_reg r.2 = shadow_reg s ∧
       bus r.2 = b' ∧ glob r.2 = glob s).
Proof.
  intros command block Hblock r. subst r.
  unfold leds_i2c_write_all, i2c_smbus_write_i2c_block_data, mutex_lock, log.
  cbn [bus shadow_reg glob mutex trace].
  change (Z.of_nat (AN30259A_REG_MAX - AN30259A_REG_SEL)) with 19.
  change (take (AN30259A_REG_MAX - AN30259A_REG_SEL)
            (drop AN30259A_REG_SEL (shadow_reg s))) with block.
  fold command. rewrite Hblock.
  split.
  - intros Hneg. apply Z.ltb_lt in Hneg as Hb. rewrite Hb.
    unfold mutex_unlock, log; cbn.
    rewrite <- !app_assoc; cbn.
    split; [done|]. split; [done|]. split; [done|].
    split; [|done].
    intros c v x. rewrite drop_app_length.
    rewrite !elem_of_cons. intros [?|[?|[?|Hnil]]]; try discriminate.
    by apply elem_of_nil in Hnil.
  - intros Hpos ret' b' Hbyte.
    apply Z.ltb_ge in Hpos as Hb. rewrite Hb.
    unfold i2c_smbus_write_byte_data, log, reg;
      cbn [bus shadow_reg glob mutex trace].
    unfold reg in Hbyte. rewrite Hbyte.
    destruct (ret' <? 0); unfold mutex_unlock, log; cbn;
      rewrite <- !app_assoc; cbn; done.
Qed.

End Commit.

(** C2, witness: the adapter answers the block write with -EIO (-5). *)
Lemma leds_i2c_write_all_order_witness :
  let s := with_script [-5] red_blinking in
  (leds_i2c_write_all s).1 = -5 ∧
  trace (leds_i2c_write_all s).2 =
    [EvMutexLock;
     EvWriteBlock 0x82 19 (take 19 (drop 2 (shadow_reg s))) (-5);
     EvMutexUnlock] ∧
  mutex (leds_i2c_write_all s).2 = false ∧
  shadow_reg (leds_i2c_write_all s).2 = shadow_reg s.
Proof.
  intros s.
  destruct (leds_i2c_write_all_order (H := fake_adapter) s (-5)
              (FakeBus (chip (bus s)) []) eq_refl) as [Hfail _].
  destruct (Hfail ltac:(lia)) as (H1 & _ & H2 & _ & H3 & H4 & _).
  exact (conj H1 (conj H2 (conj H3 H4))).
Defined.

(** ** store_an30259a_led_speed *)

Section Speed.
Context {B : Type} `{I2CAdapter B}.
Implicit Types (s : state B).

(** C9 (amended).  The speed setter accepts 0 and every divisor from 1 to
    15: for a parsed integer v in that range the stored divisor becomes v and
    nothing else changes; for any other parsed integer, 16 to 60 included,
    and for text that holds no integer, the state is left exactly as it was.
    In every one of these cases the handler's result is [count], the number
    of bytes it was given, which is not negative: an ignored value is not
    reported as an error. *)
Theorem store_an30259a_led_speed_range s count v :
  0 <= count →
  (0 <= v <= 15 →
     led_speed (glob (store_an30259a_led_speed count (Some v) s).2) = v ∧
     (store_an30259a_led_speed count (Some v) s).2
     = with_glob (set_led_speed v) s) ∧
  (v < 0 ∨ 15 < v → (store_an30259a_led_speed count (Some v) s).2 = s) ∧
  (store_an30259a_led_speed count None s).2 = s ∧
  (∀ scanned,
     (store_an30259a_led_speed count scanned s).1 = count ∧
     ¬ (store_an30259a_led_speed count scanned s).1 < 0).
Proof.
  intros Hcount.
  unfold store_an30259a_led_speed; simpl.
  split; [|split; [|split]].
  - intros [H0 H15].
    apply Z.leb_le in H0. apply Z.leb_le in H15. rewrite H0, H15. done.
  - intros [Hlt|Hgt].
    + apply Z.leb_gt in Hlt. by rewrite Hlt.
    + apply Z.leb_gt in Hgt. rewrite Hgt. by rewrite andb_false_r.
  - reflexivity.
  - intros scanned. split; [reflexivity|lia].
Qed.

End Speed.

(** C9, witness: 15 is stored, 60 is ignored, and both writes of three
    bytes report 3. *)
Lemma store_an30259a_led_speed_range_witness :
  led_speed (glob (store_an30259a_led_speed 3 (Some 15) probe_state).2) = 15 ∧
  (store_an30259a_led_speed 3 (Some 60) probe_state).2 = probe_state ∧
  (store_an30259a_led_speed 3 (Some 60) probe_state).1 = 3.
Proof.
  destruct (store_an30259a_led_speed_range probe_state 3 15 ltac:(lia))
    as (Hin & _).
  destruct (store_an30259a_led_speed_range probe_state 3 60 ltac:(lia))
    as (_ & Hout & _ & Hret).
  split; [exact (proj1 (Hin ltac:(lia)))|].
  split; [exact (Hout ltac:(lia))|].
  exact (proj1 (Hret (Some 60))).
Defined.

(** C9 as stated fails: 16 and 60 lie in the range 1 to 60, yet the setter
    ignores them and the divisor stays at its previous value 1. *)
Lemma store_an30259a_led_speed_rejects_16_to_60 :
  led_speed (glob probe_state) = 1 ∧
  led_speed (glob (store_an30259a_led_speed 3 (Some 16) probe_state).2) = 1 ∧
  led_speed (glob (store_an30259a_led_speed 3 (Some 16) probe_state).2) ≠ 16 ∧
  led_speed (glob (store_an30259a_led_speed 3 (Some 60) probe_state).2) = 1 ∧
  led_speed (glob (store_an30259a_led_speed 3 (Some 60) probe_state).2) ≠ 60.
Proof. vm_compute. repeat split; congruence. Qed.

(** ** an30259a_set_led_blink *)

Lemma to_u32_small z : 0 <= z < 2 ^ 32 → to_u32 z = z.
Proof. intros. unfold to_u32. by apply Z.mod_small. Qed.

Lemma to_u32_int_nonzero z : int_range z → z ≠ 0 → to_u32 z ≠ 0.
Proof.
  unfold int_range, to_u32. intros Hr Hz Hmod.
  apply Z.mod_divide in Hmod; [|lia]. destruct Hmod as [k Hk]. lia.
Qed.


Lemma B_eff_0 scale dyn : B_eff scale dyn 0 = 0.
Proof. unfold B_eff. destruct (scale =? 0), (scale =? 40); reflexivity. Qed.

(** Lines 516-530 in closed form. *)
Lemma blink_scale_brightness_eq g led b :
  0 <= b <= 255 → 0 <= led_intensity g <= 255 →
  blink_scale_brightness led b g =
    (B_eff (led_intensity g) (to_u8 (channel_current g led)) b,
     set_LED_DYNAMIC_CURRENT (to_u8 (channel_current g led)) g).
Proof.
  intros Hb Hi. unfold blink_scale_brightness.
  assert ((LED_MAX_CURRENT <? b) = false) as ->
    by (apply Z.ltb_ge; unfold LED_MAX_CURRENT; lia).
  fold (channel_current g led).
  pose proof (to_u8_range (channel_current g led)) as Hd.
  set (d := to_u8 (channel_current g led)) in *.
  cbn [led_intensity LED_DYNAMIC_CURRENT set_LED_DYNAMIC_CURRENT].
  f_equal. unfold B_eff, LED_MAX_CURRENT.
  destruct (Z.eqb_spec (led_intensity g) 40) as [E40|N40].
  - rewrite E40; simpl.
    rewrite Z.quot_div_nonneg by nia. apply to_u8_small.
    split; [apply Z.div_pos; nia|]. apply Z.div_lt_upper_bound; nia.
  - destruct (Z.eqb_spec (led_intensity g) 0) as [E0|N0]; simpl.
    + lia.
    + rewrite Z.quot_div_nonneg by nia. apply to_u8_small.
      split; [apply Z.div_pos; nia|]. apply Z.div_lt_upper_bound; nia.
Qed.

Section Blink.
Context {B : Type} `{I2CAdapter B}.
Implicit Types (s : state B) (led : an30259a_led_enum).

(** Brightness 0: the early return of lines 511-514. *)
Lemma blink_path_off s led d_on d_off b :
  to_u8 b = 0 →
  an30259a_set_led_blink led d_on d_off b s =
    Some (leds_on led false false 0 s).
Proof.
  intros Hb. unfold an30259a_set_led_blink. rewrite Hb. reflexivity.
Qed.

(** Off-time 0: lines 538-542. *)
Lemma blink_path_steady s led d_on d_off b :
  to_u8 b ≠ 0 → to_u32 d_off = 0 →
  let be := (blink_scale_brightness led (to_u8 b) (glob s)).1 in
  let s1 := leds_on led true false be (blink_entry led b s) in
  an30259a_set_led_blink led d_on d_off b s =
    Some (if be =? 0 then leds_on led false false be s1 else s1).
Proof.
  intros Hb Hoff be s1. unfold an30259a_set_led_blink.
  destruct (Z.eqb_spec (to_u8 b) LED_OFF) as [E|_]; [done|].
  subst be s1. unfold blink_entry.
  destruct (blink_scale_brightness led (to_u8 b) (glob s)) as [be g'].
  rewrite Hoff. reflexivity.
Qed.

(** Nonzero off-time and nonzero divisor: lines 544-561. *)
Lemma blink_path_slope s led d_on d_off b :
  to_u8 b ≠ 0 → to_u32 d_off ≠ 0 →
  int_range (led_speed (glob s)) → led_speed (glob s) ≠ 0 →
  let g := glob s in
  let be := (blink_scale_brightness led (to_u8 b) g).1 in
  let fade := led_enable_fade g =? 1 in
  let tt d :=
    to_u32 (clamp_ms (to_u32 d) / to_u32 (led_speed g)
            + AN30259A_TIME_UNIT - 1) / AN30259A_TIME_UNIT in
  an30259a_set_led_blink led d_on d_off b s =
    Some (leds_set_slope_mode led 0
            (Z.quot 15 (led_speed g))
            (Z.quot (if fade then 7 else 15) (led_speed g)) 0
            (tt d_on) (tt d_off)
            (if fade then led_slope_up_1 g else 0)
            (if fade then led_slope_up_2 g else 0)
            (if fade then led_slope_down_1 g else 0)
            (if fade then led_slope_down_2 g else 0)
            (leds_on led true true be (blink_entry led b s))).
Proof.
  intros Hb Hoff Hint Hsp g be fade tt. unfold an30259a_set_led_blink.
  destruct (Z.eqb_spec (to_u8 b) LED_OFF) as [E|_]; [done|].
  subst be fade tt g. unfold blink_entry.
  set (g := glob s) in *.
  assert (Hg : ∀ g', (blink_scale_brightness led (to_u8 b) g).2 = g' →
                led_speed g' = led_speed g ∧
                led_enable_fade g' = led_enable_fade g ∧
                led_slope_up_1 g' = led_slope_up_1 g ∧
                led_slope_up_2 g' = led_slope_up_2 g ∧
                led_slope_down_1 g' = led_slope_down_1 g ∧
                led_slope_down_2 g' = led_slope_down_2 g).
  { intros g' <-. unfold blink_scale_brightness; simpl. done. }
  destruct (blink_scale_brightness led (to_u8 b) g) as [be g'].
  cbv beta iota zeta. cbn [fst snd].
  destruct (Hg g' eq_refl) as (-> & -> & -> & -> & -> & ->). clear Hg.
  assert (Hclamp : (if SLPTT_MAX_VALUE <? to_u32 d_off then SLPTT_MAX_VALUE
                    else to_u32 d_off) ≠ 0).
  { destruct (SLPTT_MAX_VALUE <? to_u32 d_off); [discriminate|done]. }
  destruct (Z.eqb_spec (if SLPTT_MAX_VALUE <? to_u32 d_off then SLPTT_MAX_VALUE
                        else to_u32 d_off) LED_OFF) as [E|_]; [done|].
  assert (Hmin : ∀ d, (if SLPTT_MAX_VALUE <? d then SLPTT_MAX_VALUE else d)
                      = clamp_ms d).
  { intros d. unfold clamp_ms. destruct (Z.ltb_spec SLPTT_MAX_VALUE d); lia. }
  rewrite !Hmin.
  unfold blink_slptt, c_div_int, c_div_uint.
  apply Z.eqb_neq in Hsp as Hsp'. rewrite Hsp'.
  pose proof (to_u32_int_nonzero _ Hint Hsp) as Hu.
  apply Z.eqb_neq in Hu. rewrite Hu.
  simpl.
  destruct (led_enable_fade g =? 1); reflexivity.
Qed.

(** Nonzero off-time and divisor 0: [15 / led_speed] is reached. *)
Lemma blink_path_speed_0 s led d_on d_off b :
  to_u8 b ≠ 0 → to_u32 d_off ≠ 0 → led_speed (glob s) = 0 →
  an30259a_set_led_blink led d_on d_off b s = None.
Proof.
  intros Hb Hoff Hsp. unfold an30259a_set_led_blink.
  destruct (Z.eqb_spec (to_u8 b) LED_OFF) as [E|_]; [done|].
  assert (Hg : led_speed (blink_scale_brightness led (to_u8 b) (glob s)).2 = 0)
    by (unfold blink_scale_brightness; simpl; done).
  destruct (blink_scale_brightness led (to_u8 b) (glob s)) as [be g'].
  cbn [snd] in Hg. cbv beta iota zeta.
  destruct (Z.eqb_spec (if SLPTT_MAX_VALUE <? to_u32 d_off then SLPTT_MAX_VALUE
                        else to_u32 d_off) LED_OFF) as [E|_].
  { destruct (SLPTT_MAX_VALUE <? to_u32 d_off); [discriminate|done]. }
  rewrite Hg. destruct (led_enable_fade g' =? 1); reflexivity.
Qed.

End Blink.

Section BlinkClaims.
Context {B : Type} `{I2CAdapter B}.
Implicit Types (s : state B) (led : an30259a_led_enum).

Lemma current_code_slope_mode s led led' delay dutymax dutymid dutymin
    slptt1 slptt2 dt1 dt2 dt3 dt4 :
  current_code (leds_set_slope_mode led delay dutymax dutymid dutymin
                  slptt1 slptt2 dt1 dt2 dt3 dt4 s) led' = current_code s led'.
Proof.
  unfold current_code. apply reg_lookup_eq, leds_set_slope_mode_other.
  destruct led, led'; unfold slope_regs; simpl;
    rewrite !not_elem_of_cons; repeat split; try discriminate;
    apply not_elem_of_nil.
Qed.

Lemma LEDON_slope_mode s led delay dutymax dutymid dutymin
    slptt1 slptt2 dt1 dt2 dt3 dt4 :
  reg (leds_set_slope_mode led delay dutymax dutymid dutymin
         slptt1 slptt2 dt1 dt2 dt3 dt4 s) AN30259A_REG_LEDON
  = reg s AN30259A_REG_LEDON.
Proof.
  apply reg_lookup_eq, leds_set_slope_mode_other.
  destruct led; unfold slope_regs; simpl;
    rewrite !not_elem_of_cons; repeat split; try discriminate;
    apply not_elem_of_nil.
Qed.

Lemma length_blink_entry s led b :
  length (shadow_reg (blink_entry led b s)) = length (shadow_reg s).
Proof. reflexivity. Qed.

Lemma glob_blink_entry s led b :
  0 < b <= 255 → 0 <= led_intensity (glob s) <= 255 →
  glob (blink_entry led b s) =
    set_LED_DYNAMIC_CURRENT (to_u8 (channel_current (glob s) led)) (glob s).
Proof.
  intros Hb Hi. unfold blink_entry, with_glob; cbn [glob].
  rewrite (to_u8_small b) by lia.
  by rewrite blink_scale_brightness_eq by lia.
Qed.

(** The current code after blink-set, on every path that returns. *)
Lemma blink_current_code s led d_on d_off B_req :
  length (shadow_reg s) = AN30259A_REG_MAX →
  0 <= B_req <= 255 →
  0 <= led_intensity (glob s) <= 255 →
  int_range (led_speed (glob s)) →
  led_speed (glob s) ≠ 0 ∨ to_u32 d_off = 0 →
  let scale := led_intensity (glob s) in
  let dynamic_current := to_u8 (channel_current (glob s) led) in
  let resolved :=
    if scale =? 0 then Z.min B_req 255
    else if scale =? 40 then B_req * dynamic_current / 255
    else B_req * scale / 255 in
  ∃ s', an30259a_set_led_blink led d_on d_off B_req s = Some s' ∧
        current_code s' led = ledcc_after (glob s) led resolved ∧
        (B_req ≠ 0 →
           LED_DYNAMIC_CURRENT (glob s') = dynamic_current ∧
           (blink_scale_brightness led B_req (glob s)).1 = resolved).
Proof.
  intros Hlen Hb Hi Hint Hdef scale dyn resolved.
  change resolved with (B_eff scale dyn B_req). clear resolved.
  destruct (decide (B_req = 0)) as [->|Hnz].
  { eexists. split; [by apply blink_path_off|].
    split; [|done].
    rewrite leds_on_LEDCC by done. by rewrite B_eff_0. }
  assert (Hu : to_u8 B_req = B_req) by (apply to_u8_small; lia).
  assert (Hbe : (blink_scale_brightness led (to_u8 B_req) (glob s)).1
                = B_eff scale dyn B_req)
    by (rewrite Hu, blink_scale_brightness_eq by lia; done).
  assert (Hg : glob (blink_entry led B_req s)
               = set_LED_DYNAMIC_CURRENT dyn (glob s))
    by (apply glob_blink_entry; lia).
  assert (Hcc : ∀ g x, glob s = g →
            ledcc_after (set_LED_DYNAMIC_CURRENT dyn g) led x
            = ledcc_after g led x) by (intros; reflexivity).
  destruct (decide (to_u32 d_off = 0)) as [Hoff|Hoff].
  - eexists. split; [apply blink_path_steady; [lia|done]|].
    cbv zeta. rewrite Hbe.
    set (s1 := leds_on led true false (B_eff scale dyn B_req)
                 (blink_entry led B_req s)).
    assert (Hlen1 : length (shadow_reg s1) = AN30259A_REG_MAX).
    { subst s1.
      destruct (leds_on_outside (blink_entry led B_req s) led true false
                  (B_eff scale dyn B_req)) as (_&_&_&_&->).
      by rewrite length_blink_entry. }
    assert (Hg1 : glob s1 = set_LED_DYNAMIC_CURRENT dyn (glob s)).
    { subst s1.
      destruct (leds_on_outside (blink_entry led B_req s) led true false
                  (B_eff scale dyn B_req)) as (->&_). done. }
    destruct (Z.eqb_spec (B_eff scale dyn B_req) 0) as [E0|N0].
    + split.
      * rewrite leds_on_LEDCC by done. rewrite Hg1, E0. reflexivity.
      * intros _. split; [|by rewrite Hu in Hbe].
        destruct (leds_on_outside s1 led false false (B_eff scale dyn B_req))
          as (->&_).
        by rewrite Hg1.
    + split.
      * subst s1. rewrite leds_on_LEDCC by (by rewrite length_blink_entry).
        rewrite Hg. reflexivity.
      * intros _. split; [by rewrite Hg1|by rewrite Hu in Hbe].
  - destruct Hdef as [Hsp|?]; [|done].
    eexists. split; [apply blink_path_slope; [lia|done|done|done]|].
    cbv zeta. rewrite Hbe. split.
    + rewrite current_code_slope_mode.
      rewrite leds_on_LEDCC by (by rewrite length_blink_entry).
      rewrite Hg. reflexivity.
    + intros _. split; [|by rewrite Hu in Hbe].
      change (glob (leds_set_slope_mode ?l ?a ?b ?c ?d ?e ?f ?g ?h ?i ?j ?s0))
        with (glob s0).
      destruct (leds_on_outside (blink_entry led B_req s) led true true
                  (B_eff scale dyn B_req)) as (->&_).
      by rewrite Hg.
Qed.


End BlinkClaims.



(** ** Blink: the degenerate cases *)

Section BlinkDegenerate.
Context {B : Type} `{I2CAdapter B}.
Implicit Types (s : state B) (led : an30259a_led_enum).

Lemma leds_on_off_fields s led slopemode ledcc :
  length (shadow_reg s) = AN30259A_REG_MAX →
  let s' := leds_on led false slopemode ledcc s in
  enable_bit s' led = false ∧ delay_field s' led = 0.
Proof.
  intros Hlen s'. subst s'. split.
  - rewrite enable_bit_leds_on by done. by rewrite decide_True.
  - unfold delay_field. rewrite leds_on_false_CNT2 by done.
    apply delay_field_cleared.
Qed.

(** C7 (amended).  For every channel, blink-set with brightness 0 switches
    the channel off whatever the two durations are.  With off-time 0 and a
    nonzero brightness whose intensity-scaled value is nonzero it degenerates
    to steady-on: the channel is enabled without slope mode and only LEDON
    and the channel's current code are written, no slope timing register.
    When the scaled value is 0 the channel is switched off instead: enable
    and slope-mode bits cleared, delay field cleared, current code 0. *)
Theorem an30259a_set_led_blink_degenerate s led d_on d_off b :
  length (shadow_reg s) = AN30259A_REG_MAX →
  0 <= b <= 255 →
  0 <= led_intensity (glob s) <= 255 →
  let scaled :=
    B_eff (led_intensity (glob s)) (to_u8 (channel_current (glob s) led)) b in
  (b = 0 →
     ∃ s', an30259a_set_led_blink led d_on d_off b s = Some s' ∧
           enable_bit s' led = false ∧ slope_bit s' led = false ∧
           delay_field s' led = 0 ∧ current_code s' led = 0) ∧
  (b ≠ 0 → to_u32 d_off = 0 → scaled ≠ 0 →
     ∃ s', an30259a_set_led_blink led d_on d_off b s = Some s' ∧
           enable_bit s' led = true ∧ slope_bit s' led = false ∧
           (∀ i : nat, i ≠ AN30259A_REG_LEDON →
              i ≠ (AN30259A_REG_LED1CC + led_num led)%nat →
              shadow_reg s' !! i = shadow_reg s !! i) ∧
           (∀ i : nat, i ∈ slope_regs led →
              shadow_reg s' !! i = shadow_reg s !! i)) ∧
  (b ≠ 0 → to_u32 d_off = 0 → scaled = 0 →
     ∃ s', an30259a_set_led_blink led d_on d_off b s = Some s' ∧
           enable_bit s' led = false ∧ slope_bit s' led = false ∧
           delay_field s' led = 0 ∧ current_code s' led = 0).
Proof.
  intros Hlen Hb Hi scaled.
  assert (Hoffpath : ∀ s0 x, length (shadow_reg s0) = AN30259A_REG_MAX →
            let s' := leds_on led false false x s0 in
            x = 0 →
            enable_bit s' led = false ∧ slope_bit s' led = false ∧
            delay_field s' led = 0 ∧ current_code s' led = 0).
  { intros s0 x Hl s' ->. subst s'.
    destruct (leds_on_off_fields s0 led false 0 Hl) as [He Hd].
    split; [done|]. split; [|split; [done|]].
    - rewrite slope_bit_leds_on by done. by rewrite decide_True.
    - by rewrite leds_on_LEDCC by done. }
  split; [|split].
  - intros ->. eexists. split; [by apply blink_path_off|].
    by apply Hoffpath.
  - intros Hnz Hoff Hsc.
    assert (Hu : to_u8 b = b) by (apply to_u8_small; lia).
    eexists. split; [apply blink_path_steady; [lia|done]|].
    cbv zeta. rewrite Hu, blink_scale_brightness_eq by lia. cbn [fst].
    fold scaled. apply Z.eqb_neq in Hsc as ->.
    assert (Hl : length (shadow_reg (blink_entry led b s)) = AN30259A_REG_MAX)
      by done.
    assert (Hother : ∀ i : nat, i ≠ AN30259A_REG_LEDON →
              i ≠ (AN30259A_REG_LED1CC + led_num led)%nat →
              shadow_reg (leds_on led true false scaled (blink_entry led b s))
                !! i = shadow_reg s !! i).
    { intros i H1 H2. by rewrite leds_on_true_other. }
    split; [rewrite enable_bit_leds_on by done; by rewrite decide_True|].
    split; [rewrite slope_bit_leds_on by done; by rewrite decide_True|].
    split; [done|].
    intros i Hin. apply Hother;
      destruct led; unfold slope_regs in Hin; simpl in Hin;
      rewrite !elem_of_cons in Hin;
      destruct Hin as [->|[->|[->|[->|[->|Hin]]]]];
      try discriminate; by apply elem_of_nil in Hin.
  - intros Hnz Hoff Hsc.
    assert (Hu : to_u8 b = b) by (apply to_u8_small; lia).
    eexists. split; [apply blink_path_steady; [lia|done]|].
    cbv zeta. rewrite Hu, blink_scale_brightness_eq by lia. cbn [fst].
    fold scaled. rewrite Hsc. cbn [Z.eqb].
    apply Hoffpath; [|done].
    destruct (leds_on_outside (blink_entry led b s) led true false 0)
      as (_&_&_&_&->). done.
Qed.

End BlinkDegenerate.

(** C7, witness: brightness 0 with both durations nonzero switches red off,
    and brightness 0x80 with off-time 0 gives steady red. *)
Lemma an30259a_set_led_blink_degenerate_witness :
  (∃ s', an30259a_set_led_blink LED_R 1000 500 0 red_blinking = Some s' ∧
         enable_bit s' LED_R = false) ∧
  (∃ s', an30259a_set_led_blink LED_R 1000 0 0x80 probe_state = Some s' ∧
         enable_bit s' LED_R = true ∧ slope_bit s' LED_R = false).
Proof.
  split.
  - destruct (an30259a_set_led_blink_degenerate red_blinking LED_R 1000 500 0)
      as [Hoff _]; [reflexivity | lia | simpl; lia |].
    destruct (Hoff eq_refl) as (s' & Hs' & He & _).
    exists s'. exact (conj Hs' He).
  - destruct (an30259a_set_led_blink_degenerate probe_state LED_R 1000 0 0x80)
      as (_ & Hsteady & _); [reflexivity | lia | simpl; lia |].
    destruct (Hsteady ltac:(lia) eq_refl ltac:(vm_compute; discriminate))
      as (s' & Hs' & He & Hs & _).
    exists s'. exact (conj Hs' (conj He Hs)).
Defined.

(** C7 as stated fails: at the probe defaults (scale 40, current 0x28) a
    request of brightness 1 with off-time 0 scales to 1 * 40 / 255 = 0, and
    the red channel, enabled and with a start delay of 10 before the call,
    ends up disabled with LED1CNT2 rewritten (its delay field cleared). *)
Lemma an30259a_set_led_blink_dim_steady_is_off :
  ∃ s', an30259a_set_led_blink LED_R 1000 0 1 red_blinking = Some s' ∧
        enable_bit red_blinking LED_R = true ∧
        enable_bit s' LED_R = false ∧
        reg red_blinking AN30259A_REG_LED1CNT2 = 0xa0 ∧
        reg s' AN30259A_REG_LED1CNT2 = 0.
Proof. eexists. split; [reflexivity|]. vm_compute. done. Qed.

(** ** Blink: durations to slope-phase nibbles *)

Lemma Qceiling_over_500 q :
  Qceiling (inject_Z q / inject_Z 500)%Q = (q + 499) / 500.
Proof.
  unfold Qceiling, Qfloor, Qdiv, Qmult, Qinv, Qopp, inject_Z; simpl.
  rewrite Z.mul_1_r. change (Z.pos (1 * 500)) with 500.
  pose proof (Z.div_mod (- q) 500 ltac:(lia)).
  pose proof (Z.mod_pos_bound (- q) 500 ltac:(lia)).
  apply (Z.div_unique_pos _ _ _ (q + 499 - 500 * - (- q / 500))); lia.
Qed.

Lemma slptt_quotient_first_eq d s :
  slptt_quotient_first d s = (clamp_ms d / s + 499) / 500.
Proof. unfold slptt_quotient_first. apply Qceiling_over_500. Qed.

Lemma blink_quotient_bounds d sp :
  0 <= d → 1 <= sp → 0 <= clamp_ms d / sp <= 7500.
Proof.
  intros Hd Hsp. unfold clamp_ms, SLPTT_MAX_VALUE. split.
  - apply Z.div_pos; lia.
  - apply Z.div_le_upper_bound; [lia|]. nia.
Qed.

Lemma slptt_nibble d sp :
  0 <= d → 1 <= sp → nibble ((clamp_ms d / sp + 499) / 500).
Proof.
  intros Hd Hsp. pose proof (blink_quotient_bounds d sp Hd Hsp).
  unfold nibble. split.
  - apply Z.div_pos; lia.
  - assert ((clamp_ms d / sp + 499) / 500 < 16); [|lia].
    apply Z.div_lt_upper_bound; lia.
Qed.

Lemma duty_nibble k sp : 0 <= k <= 15 → 1 <= sp → nibble (k / sp).
Proof.
  intros Hk Hsp. unfold nibble. split.
  - apply Z.div_pos; lia.
  - apply Z.div_le_upper_bound; [lia|]. nia.
Qed.

Section BlinkTiming.
Context {B : Type} `{I2CAdapter B}.
Implicit Types (s : state B) (led : an30259a_led_enum).

(** C6 (amended).  With speed divisor s >= 1 and fade disabled, blink-set
    with nonzero brightness and nonzero off-time clamps each duration d to at
    most 7500 ms, divides it by s with C's integer division, and rounds the
    quotient up to whole units of 500 ms: the slope register's low nibble is
    ceil(floor(min(d_on, 7500) / s) / 500) and its high nibble the same for
    d_off.  Both duty nibbles are 15 / s and LEDxCNT2, LEDxCNT3 and LEDxCNT4
    are 0.  In particular, on_ms = 1000 and off_ms = 500 at speed 1 give
    phase times 2 and 1, duty_max = duty_mid = 15 and all four transition
    nibbles 0. *)
Theorem an30259a_set_led_blink_slptt s led d_on d_off b :
  length (shadow_reg s) = AN30259A_REG_MAX →
  1 <= b <= 255 →
  1 <= led_speed (glob s) < 2 ^ 31 →
  led_enable_fade (glob s) ≠ 1 →
  0 <= d_on < 2 ^ 32 → 1 <= d_off < 2 ^ 32 →
  let sp := led_speed (glob s) in
  ∃ s', an30259a_set_led_blink led d_on d_off b s = Some s' ∧
    let cnt (n : nat) := reg s' (AN30259A_REG_LED1CNT1 + n + led_num led * 4) in
    let slp := reg s' (AN30259A_REG_LED1SLP + led_num led) in
    lo_nibble slp = slptt_quotient_first d_on sp ∧
    hi_nibble slp = slptt_quotient_first d_off sp ∧
    hi_nibble (cnt 0%nat) = 15 / sp ∧ lo_nibble (cnt 0%nat) = 15 / sp ∧
    cnt 1%nat = 0 ∧ cnt 2%nat = 0 ∧ cnt 3%nat = 0 ∧
    (sp = 1 → d_on = 1000 → d_off = 500 →
       lo_nibble slp = 2 ∧ hi_nibble slp = 1 ∧
       hi_nibble (cnt 0%nat) = 15 ∧ lo_nibble (cnt 0%nat) = 15 ∧
       hi_nibble (cnt 2%nat) = 0 ∧ lo_nibble (cnt 2%nat) = 0 ∧
       hi_nibble (cnt 3%nat) = 0 ∧ lo_nibble (cnt 3%nat) = 0).
Proof.
  intros Hlen Hb Hsp Hfade Hon Hoff sp.
  assert (Hu : to_u8 b = b) by (apply to_u8_small; lia).
  assert (Hint : int_range sp) by (unfold int_range; subst sp; lia).
  eexists. split.
  { apply blink_path_slope; [lia | rewrite to_u32_small by lia; lia
                            | done | subst sp; lia]. }
  cbv zeta. fold sp.
  apply Z.eqb_neq in Hfade as ->.
  rewrite (to_u32_small sp), (to_u32_small d_on), (to_u32_small d_off)
    by (subst sp; lia).
  pose proof (blink_quotient_bounds d_on sp ltac:(lia) ltac:(lia)) as Hq1.
  pose proof (blink_quotient_bounds d_off sp ltac:(lia) ltac:(lia)) as Hq2.
  unfold AN30259A_TIME_UNIT.
  replace (clamp_ms d_on / sp + 500 - 1) with (clamp_ms d_on / sp + 499) by lia.
  replace (clamp_ms d_off / sp + 500 - 1) with (clamp_ms d_off / sp + 499) by lia.
  rewrite !to_u32_small by lia.
  rewrite Z.quot_div_nonneg by lia.
  set (tt1 := (clamp_ms d_on / sp + 499) / 500).
  set (tt2 := (clamp_ms d_off / sp + 499) / 500).
  set (duty := 15 / sp).
  assert (Ht1 : nibble tt1) by (apply slptt_nibble; lia).
  assert (Ht2 : nibble tt2) by (apply slptt_nibble; lia).
  assert (Hd : nibble duty) by (apply duty_nibble; lia).
  assert (H0 : nibble 0) by (unfold nibble; lia).
  set (s1 := leds_on led true true _ _).
  assert (Hlen1 : length (shadow_reg s1) = AN30259A_REG_MAX).
  { subst s1.
    match goal with |- context [leds_on ?l ?a ?c ?x ?s0] =>
      destruct (leds_on_outside s0 l a c x) as (_&_&_&_&->) end.
    by rewrite length_blink_entry. }
  destruct (leds_set_slope_mode_regs s1 led 0 duty duty 0 tt1 tt2 0 0 0 0 Hlen1)
    as (E1 & E2 & E3 & E4 & E5).
  assert (Hs : ∀ x, nibble x → to_u8 x = x)
    by (intros x Hx; apply to_u8_small; unfold nibble in Hx; lia).
  rewrite (Hs duty) in E1 by done. rewrite (Hs 0) in E2, E3, E4 by done.
  rewrite (Hs tt1), (Hs tt2) in E5 by done.
  rewrite pack_nibbles_u8 in E1, E5 by done.
  change (to_u8 (Z.lor (Z.shiftl 0 4) 0)) with 0 in E2, E3, E4.
  replace (AN30259A_REG_LED1CNT1 + 0 + led_num led * 4)%nat
    with (AN30259A_REG_LED1CNT1 + led_num led * 4)%nat by lia.
  replace (AN30259A_REG_LED1CNT1 + 1 + led_num led * 4)%nat
    with (AN30259A_REG_LED1CNT2 + led_num led * 4)%nat
    by (unfold AN30259A_REG_LED1CNT1, AN30259A_REG_LED1CNT2; lia).
  replace (AN30259A_REG_LED1CNT1 + 2 + led_num led * 4)%nat
    with (AN30259A_REG_LED1CNT3 + led_num led * 4)%nat
    by (unfold AN30259A_REG_LED1CNT1, AN30259A_REG_LED1CNT3; lia).
  replace (AN30259A_REG_LED1CNT1 + 3 + led_num led * 4)%nat
    with (AN30259A_REG_LED1CNT4 + led_num led * 4)%nat
    by (unfold AN30259A_REG_LED1CNT1, AN30259A_REG_LED1CNT4; lia).
  rewrite E1, E2, E3, E4, E5.
  rewrite !hi_nibble_pack, !lo_nibble_pack by done.
  rewrite !slptt_quotient_first_eq. fold tt1 tt2.
  repeat (split; [reflexivity|]).
  intros Hsp1 -> ->. subst tt1 tt2 duty. rewrite Hsp1.
  vm_compute. done.
Qed.

End BlinkTiming.

(** C6, witness: the scenario itself on a freshly probed device. *)
Lemma an30259a_set_led_blink_slptt_witness :
  ∃ s', an30259a_set_led_blink LED_R 1000 500 0x80 probe_state = Some s' ∧
        lo_nibble (reg s' AN30259A_REG_LED1SLP) = 2 ∧
        hi_nibble (reg s' AN30259A_REG_LED1SLP) = 1 ∧
        hi_nibble (reg s' AN30259A_REG_LED1CNT1) = 15 ∧
        lo_nibble (reg s' AN30259A_REG_LED1CNT1) = 15 ∧
        reg s' AN30259A_REG_LED1CNT3 = 0 ∧ reg s' AN30259A_REG_LED1CNT4 = 0.
Proof.
  destruct (an30259a_set_led_blink_slptt probe_state LED_R 1000 500 0x80)
    as (s' & Hs' & _ & _ & _ & _ & _ & H3 & H4 & Hscen);
    [reflexivity | lia | simpl; lia | simpl; lia | lia | lia |].
  destruct (Hscen eq_refl eq_refl eq_refl) as (P1 & P2 & D1 & D2 & _).
  exists s'. exact (conj Hs' (conj P1 (conj P2 (conj D1 (conj D2 (conj H3 H4)))))).
Defined.

(** C6 as stated fails under either uniform reading of ceil(d / s / 500).
    With speed 2 and on_ms = off_ms = 1001 the code stores phase times
    (1001 div 2 + 499) div 500 = 1, while the rational ceil(1001 / 2 / 500)
    is 2.  With speed 1 and on_ms = off_ms = 750 the code stores 2, while two
    integer divisions give 750 div 1 div 500 = 1. *)
Lemma an30259a_set_led_blink_slptt_not_exact :
  (∃ s', an30259a_set_led_blink LED_R 1001 1001 0x80
           (with_glob (set_led_speed 2) probe_state) = Some s' ∧
         lo_nibble (reg s' AN30259A_REG_LED1SLP) = 1 ∧
         hi_nibble (reg s' AN30259A_REG_LED1SLP) = 1 ∧
         slptt_rational 1001 2 = 2) ∧
  (∃ s', an30259a_set_led_blink LED_R 750 750 0x80 probe_state = Some s' ∧
         lo_nibble (reg s' AN30259A_REG_LED1SLP) = 2 ∧
         hi_nibble (reg s' AN30259A_REG_LED1SLP) = 2 ∧
         slptt_truncating 750 1 = 1).
Proof.
  split; (eexists; split; [reflexivity|]); vm_compute; done.
Qed.

(** ** an30259a_start_led_pattern: the gate and the reset *)

Section Pattern.
Context {B : Type} `{I2CAdapter B}.
Implicit Types (s : state B) (led : an30259a_led_enum).

Lemma leds_i2c_write_all_keeps s :
  shadow_reg (leds_i2c_write_all s).2 = shadow_reg s ∧
  glob (leds_i2c_write_all s).2 = glob s.
Proof.
  unfold leds_i2c_write_all, i2c_smbus_write_i2c_block_data,
    i2c_smbus_write_byte_data, mutex_lock, mutex_unlock, log.
  cbn [bus shadow_reg glob mutex trace].
  destruct (adapter_write_block _ _ _ _) as [ret b].
  destruct (ret <? 0); [done|].
  cbn [bus shadow_reg glob mutex trace].
  destruct (adapter_write_byte _ _ _) as [ret' b'].
  destruct (ret' <? 0); done.
Qed.

Lemma leds_i2c_write_all_trace s :
  trace (leds_i2c_write_all s).2
  = trace s ++ commit_events (shadow_reg s) (bus s) ∧
  mutex (leds_i2c_write_all s).2 = false.
Proof.
  unfold leds_i2c_write_all, commit_events, i2c_smbus_write_i2c_block_data,
    i2c_smbus_write_byte_data, mutex_lock, mutex_unlock, log, reg.
  cbn [bus shadow_reg glob mutex trace].
  change (Z.of_nat (AN30259A_REG_MAX - AN30259A_REG_SEL)) with 19.
  change (AN30259A_REG_MAX - AN30259A_REG_SEL)%nat with 19%nat.
  change AN30259A_REG_SEL with 2%nat.
  destruct (adapter_write_block _ _ _ _) as [ret b].
  cbn [fst snd]. destruct (ret <? 0).
  - cbn [bus shadow_reg glob mutex trace snd].
    by rewrite <- !app_assoc.
  - cbn [bus shadow_reg glob mutex trace].
    destruct (adapter_write_byte _ _ _) as [ret' b'].
    cbn [fst snd].
    destruct (ret' <? 0); cbn [bus shadow_reg glob mutex trace snd];
      by rewrite <- !app_assoc.
Qed.

Lemma current_code_leds_on_ne s led led' on slopemode ledcc :
  led' ≠ led →
  current_code (leds_on led on slopemode ledcc s) led' = current_code s led'.
Proof.
  intros Hne. unfold current_code. apply reg_lookup_eq.
  destruct on;
    [apply leds_on_true_other | apply leds_on_false_other];
    destruct led, led'; try congruence; discriminate.
Qed.

Lemma delay_field_leds_on_ne s led led' on slopemode ledcc :
  led' ≠ led →
  delay_field (leds_on led on slopemode ledcc s) led' = delay_field s led'.
Proof.
  intros Hne. unfold delay_field. f_equal. apply reg_lookup_eq.
  destruct on;
    [apply leds_on_true_other | apply leds_on_false_other];
    destruct led, led'; try congruence; discriminate.
Qed.

Lemma length_leds_on s led on slopemode ledcc :
  length (shadow_reg (leds_on led on slopemode ledcc s))
  = length (shadow_reg s).
Proof. by destruct (leds_on_outside s led on slopemode ledcc) as (_&_&_&_&->). Qed.

Lemma glob_leds_on s led on slopemode ledcc :
  glob (leds_on led on slopemode ledcc s) = glob s.
Proof. by destruct (leds_on_outside s led on slopemode ledcc) as (->&_). Qed.

(** The image after the reset sub-sequence: leds_on(led, false, false, 0)
    for the three channels; the commit that follows leaves it alone. *)
Lemma reset_shadow_reg s :
  shadow_reg (an30259a_reset_register_work s) =
    shadow_reg (leds_on LED_B false false 0
                  (leds_on LED_G false false 0
                     (leds_on LED_R false false 0 s))) ∧
  glob (an30259a_reset_register_work s) = glob s.
Proof.
  unfold an30259a_reset_register_work.
  set (s3 := leds_on LED_B false false 0 _).
  destruct (leds_i2c_write_all_keeps s3) as [Hs Hg].
  destruct (leds_i2c_write_all s3) as [retval s4]; cbn [fst snd] in *.
  split; [done|]. rewrite Hg. subst s3. by rewrite !glob_leds_on.
Qed.

Lemma reset_trace s :
  let s0 := an30259a_reset_register_work s in
  trace s0 = trace s ++ commit_events (shadow_reg s0) (bus s) ∧
  mutex s0 = false ∧ glob s0 = glob s.
Proof.
  intros s0. subst s0.
  pose proof (proj2 (reset_shadow_reg s)) as Hg.
  unfold an30259a_reset_register_work in *.
  set (s1 := leds_on LED_R false false 0 s) in *.
  set (s2 := leds_on LED_G false false 0 s1) in *.
  set (s3 := leds_on LED_B false false 0 s2) in *.
  destruct (leds_on_outside s LED_R false false 0) as (_ & _ & Hb1 & Ht1 & _).
  destruct (leds_on_outside s1 LED_G false false 0) as (_ & _ & Hb2 & Ht2 & _).
  destruct (leds_on_outside s2 LED_B false false 0) as (_ & _ & Hb3 & Ht3 & _).
  fold s1 in Hb1, Ht1. fold s2 in Hb2, Ht2. fold s3 in Hb3, Ht3.
  destruct (leds_i2c_write_all_trace s3) as [Ht Hm].
  destruct (leds_i2c_write_all_keeps s3) as [Hk _].
  destruct (leds_i2c_write_all s3) as [retval s4]; cbn [fst snd] in *.
  rewrite Ht, Hk, Ht3, Ht2, Ht1, Hb3, Hb2, Hb1. done.
Qed.

Lemma fields_ext s s' led :
  shadow_reg s' = shadow_reg s →
  enable_bit s' led = enable_bit s led ∧ slope_bit s' led = slope_bit s led ∧
  delay_field s' led = delay_field s led ∧
  current_code s' led = current_code s led.
Proof.
  intros Hs. unfold enable_bit, slope_bit, delay_field, current_code, reg.
  rewrite Hs. done.
Qed.

Lemma reset_all_off s led :
  length (shadow_reg s) = AN30259A_REG_MAX →
  let s' := an30259a_reset_register_work s in
  enable_bit s' led = false ∧ slope_bit s' led = false ∧
  delay_field s' led = 0 ∧ current_code s' led = 0.
Proof.
  intros Hlen s'.
  destruct (reset_shadow_reg s) as [Hs _].
  destruct (fields_ext _ _ led Hs) as (He & Hsl & Hd & Hc).
  subst s'. rewrite He, Hsl, Hd, Hc. clear He Hsl Hd Hc Hs.
  assert (Hl1 : length (shadow_reg (leds_on LED_R false false 0 s))
                = AN30259A_REG_MAX) by (by rewrite length_leds_on).
  assert (Hl2 : length (shadow_reg (leds_on LED_G false false 0
                                      (leds_on LED_R false false 0 s)))
                = AN30259A_REG_MAX) by (by rewrite length_leds_on).
  split; [|split; [|split]].
  - rewrite !enable_bit_leds_on by assumption. destruct led; reflexivity.
  - rewrite !slope_bit_leds_on by assumption. destruct led; reflexivity.
  - destruct led.
    + rewrite !delay_field_leds_on_ne by discriminate.
      exact (proj2 (leds_on_off_fields _ _ _ _ Hlen)).
    + rewrite delay_field_leds_on_ne by discriminate.
      exact (proj2 (leds_on_off_fields _ _ _ _ Hl1)).
    + exact (proj2 (leds_on_off_fields _ _ _ _ Hl2)).
  - destruct led.
    + rewrite !current_code_leds_on_ne by discriminate.
      rewrite leds_on_LEDCC by assumption. reflexivity.
    + rewrite current_code_leds_on_ne by discriminate.
      rewrite leds_on_LEDCC by assumption. reflexivity.
    + rewrite leds_on_LEDCC by assumption. reflexivity.
Qed.

(** C3 (amended).  When the disable-named-patterns flag is set, or the
    requested index is above the enumeration, the pattern operation returns
    at once: no reset, no register mutation, no bus traffic, the state is
    exactly the entry state.  When the index is below the enumeration
    (negative) and the flag is clear, it performs the all-channels-off reset
    sub-sequence with its commit and then halts.  The enable bits, slope
    bits and delay fields are cleared and the current codes are 0 on all
    three channels; the trace of the entry state is extended by exactly one
    commit of that image (lock, block write from SEL, the LEDON byte unless
    the block failed, unlock) issued to the adapter of the entry state, and
    the mutex is free.  Nothing follows the reset on the image or the bus:
    image, bus and trace are those the reset left; of the tunables only
    LED_DYNAMIC_CURRENT is rewritten, to the low-power or default current. *)
Theorem an30259a_start_led_pattern_gate s mode :
  length (shadow_reg s) = AN30259A_REG_MAX →
  (disabled_samsung_pattern (glob s) ≠ 0 ∨ POWERING < mode →
     an30259a_start_led_pattern mode s = Some s) ∧
  (disabled_samsung_pattern (glob s) = 0 → mode < PATTERN_OFF →
     let s0 := an30259a_reset_register_work s in
     ∃ s', an30259a_start_led_pattern mode s = Some s' ∧
           shadow_reg s' = shadow_reg s0 ∧ trace s' = trace s0 ∧
           bus s' = bus s0 ∧ mutex s' = mutex s0 ∧
           (∀ led, enable_bit s' led = false ∧ slope_bit s' led = false ∧
                   delay_field s' led = 0 ∧ current_code s' led = 0) ∧
           trace s' = trace s ++ commit_events (shadow_reg s') (bus s) ∧
           mutex s' = false ∧
           glob s' = set_LED_DYNAMIC_CURRENT
                       (if LED_LOWPOWER_MODE (glob s) =? 1
                        then to_u8 (led_lowpower_cur (glob s))
                        else to_u8 (led_default_cur (glob s))) (glob s)).
Proof.
  intros Hlen. split.
  - intros Hgate. unfold an30259a_start_led_pattern.
    destruct (Z.ltb_spec POWERING mode); [done|].
    destruct Hgate as [Hdis|?]; [|lia].
    apply Z.eqb_neq in Hdis. by rewrite Hdis.
  - intros Hdis Hneg s0. unfold PATTERN_OFF in Hneg.
    unfold an30259a_start_led_pattern.
    assert ((POWERING <? mode) = false) as ->
      by (apply Z.ltb_ge; unfold POWERING; lia).
    rewrite Hdis. cbn [Z.eqb negb]. fold s0.
    assert (Hm : ∀ k, 0 <= k → (mode =? k) = false)
      by (intros k Hk; apply Z.eqb_neq; lia).
    unfold LED_OFF, CHARGING, CHARGING_ERR, MISSED_NOTI, LOW_BATTERY,
      FULLY_CHARGED, POWERING.
    rewrite !Hm by lia.
    eexists. split; [reflexivity|].
    split; [done|]. split; [done|]. split; [done|]. split; [done|].
    split; [intros led; by apply reset_all_off|].
    destruct (reset_trace s) as (Ht & Hmx & Hg). fold s0 in Ht, Hmx, Hg.
    cbn [trace shadow_reg mutex glob with_glob]. rewrite Hg. done.
Qed.

(** With divisor 0 the three blinking patterns reach [15 / led_speed]. *)
Lemma an30259a_start_led_pattern_speed_0 s mode :
  disabled_samsung_pattern (glob s) = 0 →
  led_speed (glob s) = 0 →
  mode = CHARGING_ERR ∨ mode = MISSED_NOTI ∨ mode = LOW_BATTERY →
  an30259a_start_led_pattern mode s = None.
Proof.
  intros Hdis Hsp Hmode. unfold an30259a_start_led_pattern.
  rewrite Hdis. cbn [Z.eqb negb].
  destruct (reset_shadow_reg s) as [_ Hg].
  set (s0 := an30259a_reset_register_work s) in *.
  cbn [glob with_glob]. rewrite Hg.
  cbn [led_speed led_enable_fade set_LED_DYNAMIC_CURRENT]. rewrite Hsp.
  destruct Hmode as [->|[->| ->]]; cbn;
    destruct (led_enable_fade (glob s) =? 1); reflexivity.
Qed.

End Pattern.

(** C3, witness: the flag set on a device whose red channel is blinking
    gives the entry state back; index -1 on the same device with the flag
    clear switches red off and sends one commit of the cleared image. *)
Lemma an30259a_start_led_pattern_gate_witness :
  let s := with_glob (with_disabled 1) red_blinking in
  an30259a_start_led_pattern CHARGING s = Some s ∧
  ∃ s', an30259a_start_led_pattern (-1) red_blinking = Some s' ∧
        enable_bit s' LED_R = false ∧
        trace s' = [EvMutexLock;
                    EvWriteBlock 0x82 19 (take 19 (drop 2 (shadow_reg s'))) 0;
                    EvWriteByte 1 0 0; EvMutexUnlock].
Proof.
  intros s. split.
  - destruct (an30259a_start_led_pattern_gate s CHARGING) as [Hgate _];
      [reflexivity|].
    apply Hgate. left. discriminate.
  - destruct (an30259a_start_led_pattern_gate red_blinking (-1)) as [_ Hneg];
      [reflexivity|].
    destruct (Hneg eq_refl ltac:(unfold PATTERN_OFF; lia))
      as (s' & Hs' & Hsh & _ & _ & _ & Hoff & Ht & _).
    exists s'. split; [exact Hs'|]. split; [exact (proj1 (Hoff LED_R))|].
    rewrite Ht, Hsh. vm_compute. reflexivity.
Defined.

(** C3 as stated fails: with the flag set, or with index 7, the operation
    does not run the reset sub-sequence.  The red channel keeps its enable
    bit, slope-mode bit, start delay and current code, where the reset would
    have cleared them, and nothing is sent to the bus. *)
Lemma an30259a_start_led_pattern_gate_skips_reset :
  let s := with_glob (with_disabled 1) red_blinking in
  (an30259a_start_led_pattern CHARGING s = Some s ∧
   an30259a_start_led_pattern 7 red_blinking = Some red_blinking) ∧
  (enable_bit red_blinking LED_R = true ∧ slope_bit red_blinking LED_R = true ∧
   delay_field red_blinking LED_R = 10 ∧ current_code red_blinking LED_R = 0x28 ∧
   shadow_reg s = shadow_reg red_blinking ∧ trace red_blinking = []) ∧
  (enable_bit (an30259a_reset_register_work red_blinking) LED_R = false ∧
   shadow_reg (an30259a_reset_register_work s) ≠ shadow_reg s).
Proof. vm_compute. repeat split; congruence. Qed.

(** C4, the defect.  The speed setter accepts 0; with that divisor the
    charging-error, missed-notification and low-battery patterns and a
    blink with nonzero off-time evaluate [15 / led_speed], an integer
    division by zero.  No guard replaces it by the undivided constant. *)
Theorem led_speed_0_divides_by_zero :
  let s := (store_an30259a_led_speed 2 (Some 0) probe_state).2 in
  led_speed (glob s) = 0 ∧
  an30259a_start_led_pattern CHARGING_ERR s = None ∧
  an30259a_start_led_pattern MISSED_NOTI s = None ∧
  an30259a_start_led_pattern LOW_BATTERY s = None ∧
  an30259a_set_led_blink LED_R 1000 500 0x80 s = None.
Proof. vm_compute. done. Qed.

(** ** Closed instances of the slope-mode theorems *)

(** C10, witness: the charging-error arguments on the green channel of the
    blinking-red device; LEDON and the red registers are not touched. *)
Lemma leds_set_slope_mode_frame_witness :
  let s' := leds_set_slope_mode LED_G 1 15 7 0 1 1 1 1 1 1 red_blinking in
  reg s' AN30259A_REG_LEDON = 0x11 ∧
  current_code s' LED_R = 0x28 ∧
  reg s' AN30259A_REG_LED1CNT2 = 0xa0 ∧
  reg s' (AN30259A_REG_LED1CNT1 + 4) = 0xf7.
Proof.
  intros s'.
  destruct (leds_set_slope_mode_frame red_blinking LED_G 1 15 7 0 1 1 1 1 1 1
              eq_refl)
    as ((E1 & _) & _ & _ & Hon & Hcc & Hother & _).
  split; [exact Hon|]. split; [exact (Hcc LED_R)|]. split.
  - apply (Hother LED_R AN30259A_REG_LED1CNT2); [discriminate|].
    unfold slope_regs; simpl. rewrite !elem_of_cons. right. by left.
  - exact E1.
Defined.

(** C8, witness: duty_max = 15, duty_mid = 7, duty_min = 0 decode back. *)
Lemma leds_set_slope_mode_roundtrip_witness :
  let s' := leds_set_slope_mode LED_R 1 15 7 0 1 1 1 1 1 1 probe_state in
  hi_nibble (reg s' AN30259A_REG_LED1CNT1) = 15 ∧
  lo_nibble (reg s' AN30259A_REG_LED1CNT1) = 7 ∧
  hi_nibble (reg s' AN30259A_REG_LED1CNT2) = 1 ∧
  lo_nibble (reg s' AN30259A_REG_LED1CNT2) = 0.
Proof.
  intros s'.
  destruct (leds_set_slope_mode_roundtrip probe_state LED_R 1 15 7 0 1 1 1 1 1 1)
    as (H1 & H2 & H3 & H4 & _);
    [reflexivity | unfold nibble; lia .. |].
  exact (conj H1 (conj H2 (conj H3 H4))).
Defined.

(** * Further properties of the driver *)

(** ** The invariant every operation keeps *)

Lemma in_commit_app l1 l2 :
  in_commit false l1 = true → in_commit false l2 = true →
  in_commit false (l1 ++ l2) = true.
Proof.
  intros H1 H2.
  assert (Hgen : ∀ l held, in_commit held l = true →
            in_commit held (l ++ l2) = true).
  { induction l as [|e l IH]; intros held Hl; simpl in *.
    - destruct held; [discriminate|done].
    - destruct e, held; simpl in *; try discriminate; by apply IH. }
  by apply Hgen.
Qed.

Section Invariant.
Context {B : Type} `{I2CAdapter B}.
Implicit Types (s : state B) (led : an30259a_led_enum).

Lemma keeps_refl s : keeps_invariant s s.
Proof.
  split; [done|]. split; [|done].
  exists []. by rewrite app_nil_r.
Qed.

Lemma keeps_trans s1 s2 s3 :
  keeps_invariant s1 s2 → keeps_invariant s2 s3 → keeps_invariant s1 s3.
Proof.
  intros (I1 & (e1 & T1 & C1) & M1) (I2 & (e2 & T2 & C2) & M2).
  split; [auto|]. split; [|auto].
  exists (e1 ++ e2). split.
  - by rewrite T2, T1, app_assoc.
  - by apply in_commit_app.
Qed.

Lemma keeps_write_reg s0 s i v :
  keeps_invariant s0 s → keeps_invariant s0 (write_reg i v s).
Proof.
  intros Hk. apply (keeps_trans _ s); [done|].
  split; [|split; [exists []; by rewrite app_nil_r|done]].
  intros [Hlen Hall]. split.
  - unfold write_reg; simpl. by rewrite length_insert.
  - unfold write_reg; simpl. apply Forall_insert; [done|apply to_u8_range].
Qed.

Lemma keeps_with_glob s0 s f :
  keeps_invariant s0 s → keeps_invariant s0 (with_glob f s).
Proof.
  intros Hk. apply (keeps_trans _ s); [done|].
  split; [done|]. split; [exists []; by rewrite app_nil_r|done].
Qed.

Lemma keeps_leds_set_slope_mode s0 s led delay dutymax dutymid dutymin
    slptt1 slptt2 dt1 dt2 dt3 dt4 :
  keeps_invariant s0 s →
  keeps_invariant s0 (leds_set_slope_mode led delay dutymax dutymid dutymin
                        slptt1 slptt2 dt1 dt2 dt3 dt4 s).
Proof.
  intros Hk. unfold leds_set_slope_mode. cbv zeta.
  by repeat apply keeps_write_reg.
Qed.

Lemma keeps_leds_on s0 s led on slopemode ledcc :
  keeps_invariant s0 s → keeps_invariant s0 (leds_on led on slopemode ledcc s).
Proof.
  intros Hk. unfold leds_on. cbv zeta.
  apply keeps_write_reg.
  destruct on.
  - match goal with |- context [if ?c then _ else _] => destruct c end;
      by repeat apply keeps_write_reg.
  - match goal with |- context [if ?c then _ else _] => destruct c end;
      by repeat apply keeps_write_reg.
Qed.

Lemma keeps_leds_i2c_write_all s0 s :
  keeps_invariant s0 s → keeps_invariant s0 (leds_i2c_write_all s).2.
Proof.
  intros Hk. apply (keeps_trans _ s); [done|].
  unfold leds_i2c_write_all, i2c_smbus_write_i2c_block_data,
    i2c_smbus_write_byte_data, mutex_lock, mutex_unlock, log.
  cbn [bus shadow_reg glob mutex trace].
  destruct (adapter_write_block _ _ _ _) as [ret b].
  destruct (ret <? 0).
  - split; [done|]. split; [|done]. cbn.
    eexists. rewrite <- !app_assoc. split; [reflexivity|reflexivity].
  - cbn [bus shadow_reg glob mutex trace].
    destruct (adapter_write_byte _ _ _) as [ret' b'].
    destruct (ret' <? 0);
      (split; [done|]; split; [|done]; cbn;
       eexists; rewrite <- !app_assoc; split; reflexivity).
Qed.

Lemma reset_eq s :
  an30259a_reset_register_work s =
    (leds_i2c_write_all
       (leds_on LED_B false false 0
          (leds_on LED_G false false 0 (leds_on LED_R false false 0 s)))).2.
Proof.
  unfold an30259a_reset_register_work.
  by destruct (leds_i2c_write_all _).
Qed.

Lemma pattern_commit_eq s : pattern_commit s = Some (leds_i2c_write_all s).2.
Proof. unfold pattern_commit. by destruct (leds_i2c_write_all _). Qed.

Lemma keeps_reset s0 s :
  keeps_invariant s0 s → keeps_invariant s0 (an30259a_reset_register_work s).
Proof.
  intros Hk. rewrite reset_eq.
  by apply keeps_leds_i2c_write_all; repeat apply keeps_leds_on.
Qed.

Lemma keeps_set_led_blink s0 s s' led d_on d_off b :
  keeps_invariant s0 s →
  an30259a_set_led_blink led d_on d_off b s = Some s' →
  keeps_invariant s0 s'.
Proof.
  intros Hk. unfold an30259a_set_led_blink.
  destruct (to_u8 b =? LED_OFF); [intros [= <-]; by apply keeps_leds_on|].
  destruct (blink_scale_brightness led (to_u8 b) (glob s)) as [be g].
  cbv zeta.
  pose proof (keeps_with_glob s0 s (λ _, g) Hk) as Hk1.
  set (s1 := with_glob (λ _, g) s) in *. clearbody s1.
  generalize (if SLPTT_MAX_VALUE <? to_u32 d_on then SLPTT_MAX_VALUE
              else to_u32 d_on).
  generalize (if SLPTT_MAX_VALUE <? to_u32 d_off then SLPTT_MAX_VALUE
              else to_u32 d_off).
  intros off on.
  destruct (off =? LED_OFF).
  { intros [= <-]. destruct (be =? LED_OFF); by repeat apply keeps_leds_on. }
  destruct (led_enable_fade g =? 1); intros Hs';
    repeat (apply bind_Some in Hs' as (? & _ & Hs'));
    injection Hs' as <-;
    by apply keeps_leds_set_slope_mode, keeps_leds_on.
Qed.

Lemma keeps_start_led_pattern s0 s s' mode :
  keeps_invariant s0 s →
  an30259a_start_led_pattern mode s = Some s' →
  keeps_invariant s0 s'.
Proof.
  intros Hk. unfold an30259a_start_led_pattern.
  destruct (POWERING <? mode); [by intros [= <-]|].
  destruct (negb _); [by intros [= <-]|].
  pose proof (keeps_reset s0 s Hk) as Hr.
  set (s1 := an30259a_reset_register_work s) in *. clearbody s1.
  destruct (mode =? LED_OFF); [by intros [= <-]|].
  cbv zeta. rewrite !pattern_commit_eq.
  set (s2 := with_glob _ s1).
  assert (H2 : keeps_invariant s0 s2) by by apply keeps_with_glob.
  clearbody s2.
  repeat match goal with
         | |- context [leds_on ?l ?a ?b (if ?c then ?x else ?y) ?s] =>
             generalize (if c then x else y); intro
         end.
  destruct (mode =? CHARGING);
    [intros [= <-]; by apply keeps_leds_i2c_write_all, keeps_leds_on|].
  destruct (mode =? CHARGING_ERR).
  { destruct (led_enable_fade (glob s2) =? 1); intros Hs';
      repeat (apply bind_Some in Hs' as (? & _ & Hs'));
      rewrite pattern_commit_eq in Hs'; simplify_eq;
      by apply keeps_leds_i2c_write_all, keeps_leds_set_slope_mode,
         keeps_leds_on. }
  destruct (mode =? MISSED_NOTI).
  { destruct (led_enable_fade (glob s2) =? 1); intros Hs';
      repeat (apply bind_Some in Hs' as (? & _ & Hs'));
      rewrite pattern_commit_eq in Hs'; simplify_eq;
      by apply keeps_leds_i2c_write_all, keeps_leds_set_slope_mode,
         keeps_leds_on. }
  destruct (mode =? LOW_BATTERY).
  { destruct (led_enable_fade (glob s2) =? 1); intros Hs';
      repeat (apply bind_Some in Hs' as (? & _ & Hs'));
      rewrite pattern_commit_eq in Hs'; simplify_eq;
      by apply keeps_leds_i2c_write_all, keeps_leds_set_slope_mode,
         keeps_leds_on. }
  destruct (mode =? FULLY_CHARGED);
    [intros [= <-]; by apply keeps_leds_i2c_write_all, keeps_leds_on|].
  destruct (mode =? POWERING); intros [= <-]; [|done].
  by apply keeps_leds_i2c_write_all, keeps_leds_set_slope_mode, keeps_leds_on.
Qed.

End Invariant.

Section InvariantTheorems.
Context {B : Type} `{I2CAdapter B}.
Implicit Types (s : state B) (led : an30259a_led_enum).

Lemma keeps_remove s : keeps_invariant s (an30259a_remove s).
Proof.
  unfold an30259a_remove, clear_bits. cbv zeta.
  repeat apply keeps_write_reg. apply keeps_refl.
Qed.

Lemma keeps_store_led_blink s s' retval colour d_on d_off :
  store_an30259a_led_blink retval colour d_on d_off s = Some s' →
  keeps_invariant s s'.
Proof.
  unfold store_an30259a_led_blink.
  destruct (retval =? 0); [intros [= <-]; apply keeps_refl|].
  cbv zeta. intros Hs'.
  apply bind_Some in Hs' as (s1 & H1 & Hs').
  apply bind_Some in Hs' as (s2 & H2 & Hs').
  apply bind_Some in Hs' as (s3 & H3 & Hs').
  destruct (leds_i2c_write_all s3) as [ret s4] eqn:E.
  injection Hs' as <-.
  change s4 with (ret, s4).2. rewrite <- E.
  apply keeps_leds_i2c_write_all.
  eapply keeps_set_led_blink; [|exact H3].
  eapply keeps_set_led_blink; [|exact H2].
  eapply keeps_set_led_blink; [|exact H1].
  apply keeps_reset, keeps_refl.
Qed.

Lemma leds_set_imax_unlocked s imax :
  let s' := (leds_set_imax imax s).2 in
  (image_ok s → image_ok s') ∧ mutex s' = mutex s ∧
  ∃ v ret, trace s' = trace s ++ [EvWriteByte (Z.of_nat AN30259A_REG_SEL) v ret].
Proof.
  unfold leds_set_imax. cbv zeta.
  set (s1 := write_reg AN30259A_REG_SEL _ s).
  set (s2 := write_reg AN30259A_REG_SEL _ s1).
  assert (Hk : keeps_invariant s s2)
    by (subst s2 s1; apply keeps_write_reg, keeps_write_reg, keeps_refl).
  destruct Hk as (Himg & _ & _).
  unfold i2c_smbus_write_byte_data, log.
  destruct (adapter_write_byte _ _ _) as [ret b]. cbn [snd].
  split; [exact Himg|]. split; [reflexivity|].
  by exists (reg s2 AN30259A_REG_SEL), ret.
Qed.

Lemma bare_write_breaks s s' c v ret :
  trace s' = trace s ++ [EvWriteByte c v ret] → ¬ keeps_invariant s s'.
Proof.
  intros Ht (_ & (ext & Hext & Hin) & _).
  rewrite Ht in Hext. apply app_inv_head in Hext. subst ext.
  discriminate Hin.
Qed.

(** X1.  The driver's invariant is: an image of AN30259A_REG_MAX bytes stays
    one, the trace grows by whole commits only (each bus write between a
    mutex lock and its unlock), and a mutex that was free on entry is free
    on return.  It is kept by leds_on, leds_set_slope_mode,
    leds_i2c_write_all, the reset work, the brightness work, the shadow
    edits of an30259a_remove, and, whenever they return, the pattern, blink,
    blink-store and pattern-store operations.  It is not kept by
    leds_set_imax, nor by the led_br_lev handler that calls it: they keep
    the image and the mutex, but their byte write is issued outside any
    lock, so the trace part fails in every state. *)
Theorem driver_keeps_invariant s :
  (∀ led on slopemode ledcc,
     keeps_invariant s (leds_on led on slopemode ledcc s)) ∧
  (∀ led delay dutymax dutymid dutymin slptt1 slptt2 dt1 dt2 dt3 dt4,
     keeps_invariant s (leds_set_slope_mode led delay dutymax dutymid dutymin
                          slptt1 slptt2 dt1 dt2 dt3 dt4 s)) ∧
  keeps_invariant s (leds_i2c_write_all s).2 ∧
  keeps_invariant s (an30259a_reset_register_work s) ∧
  (∀ led_work, keeps_invariant s (an30259a_led_brightness_work led_work s)) ∧
  keeps_invariant s (an30259a_remove s) ∧
  (∀ mode s', an30259a_start_led_pattern mode s = Some s' →
     keeps_invariant s s') ∧
  (∀ led d_on d_off b s',
     an30259a_set_led_blink led d_on d_off b s = Some s' →
     keeps_invariant s s') ∧
  (∀ retval colour d_on d_off s',
     store_an30259a_led_blink retval colour d_on d_off s = Some s' →
     keeps_invariant s s') ∧
  (∀ retval mode s',
     store_an30259a_led_pattern retval mode s = Some s' →
     keeps_invariant s s') ∧
  (∀ imax,
     let s' := (leds_set_imax imax s).2 in
     (image_ok s → image_ok s') ∧ mutex s' = mutex s ∧
     (∃ v ret,
        trace s' = trace s ++ [EvWriteByte (Z.of_nat AN30259A_REG_SEL) v ret]) ∧
     ¬ keeps_invariant s s') ∧
  (∀ v, ¬ keeps_invariant s (store_an30259a_led_br_lev (Some v) s)).
Proof.
  pose proof (keeps_refl s) as Hr.
  split; [intros; by apply keeps_leds_on|].
  split; [intros; by apply keeps_leds_set_slope_mode|].
  split; [by apply keeps_leds_i2c_write_all|].
  split; [by apply keeps_reset|].
  split.
  { intros lw. unfold an30259a_led_brightness_work.
    destruct (leds_i2c_write_all _) as [ret s1] eqn:E.
    change s1 with (ret, s1).2. rewrite <- E.
    by apply keeps_leds_i2c_write_all, keeps_leds_on. }
  split; [apply keeps_remove|].
  split; [intros; by eapply keeps_start_led_pattern|].
  split; [intros; by eapply keeps_set_led_blink|].
  split; [intros; by eapply keeps_store_led_blink|].
  split.
  { intros retval mode s'. unfold store_an30259a_led_pattern.
    destruct (retval =? 0); [by intros [= <-]|].
    by apply keeps_start_led_pattern. }
  split.
  { intros imax s'. subst s'.
    destruct (leds_set_imax_unlocked s imax) as (Himg & Hm & v & ret & Ht).
    split; [exact Himg|]. split; [exact Hm|].
    split; [by exists v, ret|]. by eapply bare_write_breaks. }
  intros v. unfold store_an30259a_led_br_lev.
  destruct (leds_set_imax_unlocked s v) as (_ & _ & x & ret & Ht).
  by eapply bare_write_breaks.
Qed.

End InvariantTheorems.

(** X1, witness: the powering pattern on the blinking-red device keeps the
    invariant; setting imax on it does not. *)
Lemma driver_keeps_invariant_witness :
  (∃ s', an30259a_start_led_pattern POWERING red_blinking = Some s' ∧
         keeps_invariant red_blinking s') ∧
  ¬ keeps_invariant red_blinking (leds_set_imax 3 red_blinking).2.
Proof.
  destruct (driver_keeps_invariant red_blinking)
    as (_&_&_&_&_&_&Hp&_&_&_&Himax&_).
  split; [|exact (proj2 (proj2 (proj2 (Himax 3))))].
  destruct (an30259a_start_led_pattern POWERING red_blinking) as [s'|] eqn:E;
    [|vm_compute in E; discriminate].
  exists s'. split; [reflexivity|].
  exact (Hp POWERING s' E).
Defined.

(** ** leds_set_imax and its sysfs handler *)

Lemma testbit_MASK_IMAX i :
  0 <= i → Z.testbit AN30259A_MASK_IMAX i = (6 <=? i) && (i <? 8).
Proof.
  intros Hi. change AN30259A_MASK_IMAX with (Z.shiftl (Z.ones 2) 6).
  rewrite Z.shiftl_spec by lia.
  destruct (Z.leb_spec 6 i); simpl.
  - rewrite Z.testbit_ones_nonneg by lia.
    destruct (Z.ltb_spec (i - 6) 2), (Z.ltb_spec i 8); lia || reflexivity.
  - apply Z.testbit_neg_r. lia.
Qed.

Lemma imax_byte r imax :
  to_u8 (Z.lor (to_u8 (Z.land r (Z.lnot AN30259A_MASK_IMAX)))
               (Z.shiftl (to_u8 imax) LED_IMAX_SHIFT))
  = Z.lor (Z.shiftl (imax mod 4) 6) (Z.land r 0x3f).
Proof.
  apply Z.bits_inj'. intros i Hi. unfold LED_IMAX_SHIFT.
  rewrite Z.lor_spec, Z.shiftl_spec by lia.
  change 0x3f with (Z.ones 6). rewrite Z.land_spec.
  rewrite Z.testbit_ones_nonneg by lia.
  destruct (Z.lt_ge_cases i 8) as [Hlt|Hge].
  - rewrite testbit_to_u8, Z.lor_spec, testbit_to_u8, Z.land_spec,
      Z.lnot_spec, testbit_MASK_IMAX, Z.shiftl_spec by lia.
    destruct (Z.leb_spec 6 i), (Z.ltb_spec i 8), (Z.ltb_spec i 6); try lia;
      simpl; rewrite ?andb_true_r, ?andb_false_r, ?orb_false_l, ?orb_false_r.
    + change 4 with (2 ^ 2). rewrite Z.mod_pow2_bits_low by lia.
      apply testbit_to_u8. lia.
    + rewrite !(Z.testbit_neg_r _ (i - 6)) by lia. by rewrite orb_false_r.
  - unfold to_u8 at 1. change 256 with (2 ^ 8).
    rewrite Z.mod_pow2_bits_high by lia.
    change 4 with (2 ^ 2). rewrite Z.mod_pow2_bits_high by lia.
    destruct (Z.ltb_spec i 6); [lia|]. by rewrite andb_false_r.
Qed.

Section Imax.
Context {B : Type} `{I2CAdapter B}.
Implicit Types (s : state B).

Lemma leds_set_imax_spec s imax :
  length (shadow_reg s) = AN30259A_REG_MAX →
  let r := leds_set_imax imax s in
  let sel := Z.lor (Z.shiftl (imax mod 4) 6)
                   (Z.land (reg s AN30259A_REG_SEL) 0x3f) in
  r.1 = 0 ∧
  reg r.2 AN30259A_REG_SEL = sel ∧
  (∀ i : nat, i ≠ AN30259A_REG_SEL → shadow_reg r.2 !! i = shadow_reg s !! i) ∧
  (∃ ret, trace r.2 = trace s ++ [EvWriteByte (Z.of_nat AN30259A_REG_SEL) sel ret]
          ∧ (adapter_write_byte (bus s) (Z.of_nat AN30259A_REG_SEL) sel).1 = ret) ∧
  in_commit false (drop (length (trace s)) (trace r.2)) = false ∧
  mutex r.2 = mutex s ∧ glob r.2 = glob s.
Proof.
  intros Hlen r sel. subst r. unfold leds_set_imax. cbv zeta.
  set (s2 := write_reg AN30259A_REG_SEL _ (write_reg AN30259A_REG_SEL _ s)).
  assert (Hsel : reg s2 AN30259A_REG_SEL = sel).
  { subst s2. rewrite reg_write_reg_eq by (by rewrite length_write_reg, Hlen; compute; lia).
    rewrite reg_write_reg_eq by (rewrite Hlen; compute; lia).
    apply imax_byte. }
  assert (Hother : ∀ i : nat, i ≠ AN30259A_REG_SEL →
            shadow_reg s2 !! i = shadow_reg s !! i).
  { intros i Hi. subst s2. unfold write_reg; simpl.
    by rewrite !list_lookup_insert_ne. }
  rewrite Hsel. unfold i2c_smbus_write_byte_data.
  assert (Hb : bus s2 = bus s) by reflexivity.
  assert (Ht : trace s2 = trace s) by reflexivity.
  assert (Hm : mutex s2 = mutex s) by reflexivity.
  assert (Hg : glob s2 = glob s) by reflexivity.
  assert (Hsh : ∀ (b : B) t,
            reg (State (glob s2) (mutex s2) (shadow_reg s2) b t)
                         AN30259A_REG_SEL = sel) by (intros; exact Hsel).
  clearbody s2. rewrite Hb.
  destruct (adapter_write_byte (bus s) _ sel) as [ret b'] eqn:E.
  cbn [fst snd log trace mutex glob shadow_reg].
  split; [done|]. split; [apply Hsh|]. split; [done|].
  split; [exists ret; by rewrite Ht|].
  rewrite Ht, drop_app_length. done.
Qed.

(** X2.  leds_set_imax replaces the two top bits of the SEL byte by the
    two low bits of its argument and keeps the six low bits; no other
    register changes.  It sends the new byte in one write that is not
    bracketed by the mutex, and it returns 0 whatever status the adapter
    reports, leaving the new value in the image even when the write
    failed. *)
Theorem leds_set_imax_sel s imax :
  length (shadow_reg s) = AN30259A_REG_MAX →
  let r := leds_set_imax imax s in
  let sel := Z.lor (Z.shiftl (imax mod 4) 6)
                   (Z.land (reg s AN30259A_REG_SEL) 0x3f) in
  r.1 = 0 ∧
  reg r.2 AN30259A_REG_SEL = sel ∧
  (∀ i : nat, i ≠ AN30259A_REG_SEL → shadow_reg r.2 !! i = shadow_reg s !! i) ∧
  (∃ ret, trace r.2 = trace s ++ [EvWriteByte (Z.of_nat AN30259A_REG_SEL) sel ret]
          ∧ (adapter_write_byte (bus s) (Z.of_nat AN30259A_REG_SEL) sel).1 = ret) ∧
  in_commit false (drop (length (trace s)) (trace r.2)) = false ∧
  mutex r.2 = mutex s ∧ glob r.2 = glob s.
Proof. apply leds_set_imax_spec. Qed.

(** X3.  The led_br_lev handler ignores text that kstrtoul rejects, and of
    an accepted value only the two low bits count: values that agree modulo
    4 program the same image. *)
Theorem store_an30259a_led_br_lev_mod_4 s v w :
  length (shadow_reg s) = AN30259A_REG_MAX →
  v mod 4 = w mod 4 →
  store_an30259a_led_br_lev None s = s ∧
  shadow_reg (store_an30259a_led_br_lev (Some v) s)
  = shadow_reg (store_an30259a_led_br_lev (Some w) s) ∧
  reg (store_an30259a_led_br_lev (Some v) s) AN30259A_REG_SEL
  = Z.lor (Z.shiftl (v mod 4) 6) (Z.land (reg s AN30259A_REG_SEL) 0x3f).
Proof.
  intros Hlen Hvw. split; [done|].
  unfold store_an30259a_led_br_lev.
  destruct (leds_set_imax_spec s v Hlen) as (_ & Hv & Hov & _).
  destruct (leds_set_imax_spec s w Hlen) as (_ & Hw & How & _).
  split; [|done].
  apply list_eq. intros i.
  destruct (decide (i = AN30259A_REG_SEL)) as [->|Hne].
  - assert (Hl : ∀ x, length (shadow_reg (leds_set_imax x s).2)
                      = AN30259A_REG_MAX).
    { intros x. unfold leds_set_imax, i2c_smbus_write_byte_data. cbv zeta.
      destruct (adapter_write_byte _ _ _); cbn.
      by rewrite !length_insert. }
    unfold reg in Hv, Hw.
    rewrite !list_lookup_lookup_total_lt by (rewrite Hl; compute; lia).
    by rewrite Hv, Hw, Hvw.
  - by rewrite Hov, How.
Qed.

End Imax.

(** ** When the pattern and blink operations are defined *)

Section Defined.
Context {B : Type} `{I2CAdapter B}.
Implicit Types (s : state B) (led : an30259a_led_enum).

(** X4.  A blink-set call divides by zero exactly when the speed divisor
    is 0 and both the brightness and the (32-bit) off-time are nonzero; in
    every other case it returns a state. *)
Theorem an30259a_set_led_blink_undefined_iff s led d_on d_off b :
  int_range (led_speed (glob s)) →
  an30259a_set_led_blink led d_on d_off b s = None ↔
  to_u8 b ≠ 0 ∧ to_u32 d_off ≠ 0 ∧ led_speed (glob s) = 0.
Proof.
  intros Hint. split.
  - intros Hnone.
    destruct (decide (to_u8 b = 0)) as [Hb|Hb].
    { rewrite blink_path_off in Hnone by done. discriminate. }
    destruct (decide (to_u32 d_off = 0)) as [Hoff|Hoff].
    { pose proof (blink_path_steady s led d_on d_off b Hb Hoff) as E.
      cbv zeta in E. rewrite E in Hnone. discriminate. }
    destruct (decide (led_speed (glob s) = 0)) as [Hsp|Hsp]; [done|].
    pose proof (blink_path_slope s led d_on d_off b Hb Hoff Hint Hsp) as E.
    cbv zeta in E. rewrite E in Hnone. discriminate.
  - intros (Hb & Hoff & Hsp). by apply blink_path_speed_0.
Qed.

Lemma glob_reset s : glob (an30259a_reset_register_work s) = glob s.
Proof. by destruct (reset_shadow_reg s). Qed.

Lemma c_div_int_Some k sp : sp ≠ 0 → c_div_int k sp = Some (Z.quot k sp).
Proof. intros Hsp. unfold c_div_int. apply Z.eqb_neq in Hsp. by rewrite Hsp. Qed.

(** X5.  A pattern request divides by zero exactly when named patterns
    are enabled, the speed divisor is 0 and the pattern is one of the three
    blinking ones (charging error, missed notification, low battery); every
    other request, whatever the index, returns a state. *)
Theorem an30259a_start_led_pattern_undefined_iff s mode :
  an30259a_start_led_pattern mode s = None ↔
  disabled_samsung_pattern (glob s) = 0 ∧ led_speed (glob s) = 0 ∧
  (mode = CHARGING_ERR ∨ mode = MISSED_NOTI ∨ mode = LOW_BATTERY).
Proof.
  split.
  - destruct (decide (led_speed (glob s) = 0)) as [Hsp|Hsp].
    + unfold an30259a_start_led_pattern.
      destruct (POWERING <? mode); [discriminate|].
      destruct (Z.eqb_spec (disabled_samsung_pattern (glob s)) 0) as [Hd|Hd];
        simpl; [|discriminate].
      destruct (mode =? LED_OFF); [discriminate|].
      cbv zeta. rewrite !pattern_commit_eq.
      destruct (mode =? CHARGING); [discriminate|].
      destruct (Z.eqb_spec mode CHARGING_ERR); [by auto|].
      destruct (Z.eqb_spec mode MISSED_NOTI); [by auto|].
      destruct (Z.eqb_spec mode LOW_BATTERY); [by auto|].
      destruct (mode =? FULLY_CHARGED); [discriminate|].
      destruct (mode =? POWERING); discriminate.
    + unfold an30259a_start_led_pattern.
      destruct (POWERING <? mode); [discriminate|].
      destruct (negb _); [discriminate|].
      destruct (mode =? LED_OFF); [discriminate|].
      cbv zeta. cbn [glob with_glob led_speed set_LED_DYNAMIC_CURRENT
                       led_enable_fade].
      rewrite glob_reset, !pattern_commit_eq.
      rewrite !c_div_int_Some by done. cbn [mbind option_bind].
      rewrite !pattern_commit_eq.
      repeat match goal with
             | |- context [if ?c then _ else _] => destruct c
             end; discriminate.
  - intros (Hd & Hsp & Hmode). by apply an30259a_start_led_pattern_speed_0.
Qed.

End Defined.

(** X4, witness: the probed device has speed 1, so a blink is defined. *)
Lemma an30259a_set_led_blink_undefined_iff_witness :
  an30259a_set_led_blink LED_G 300 300 0xff probe_state ≠ None.
Proof.
  intros Hnone.
  apply (an30259a_set_led_blink_undefined_iff probe_state LED_G 300 300 0xff)
    in Hnone as (_ & _ & Hsp); [discriminate|].
  unfold int_range; simpl; lia.
Defined.

(** ** What a named pattern leaves in the image *)

Section PatternFields.
Context {B : Type} `{I2CAdapter B}.
Implicit Types (s : state B) (led : an30259a_led_enum).

(** The state in which a pattern's encoders run, and the one leds_on call
    every pattern makes. *)
Lemma pattern_fields s mode s' :
  disabled_samsung_pattern (glob s) = 0 →
  1 <= mode <= 6 →
  an30259a_start_led_pattern mode s = Some s' →
  let s1 :=
    with_glob
      (set_LED_DYNAMIC_CURRENT
         (if LED_LOWPOWER_MODE (glob s) =? 1
          then to_u8 (led_lowpower_cur (glob s))
          else to_u8 (led_default_cur (glob s))))
      (an30259a_reset_register_work s) in
  let s2 := leds_on (pattern_channel mode) true (pattern_slope mode)
              (pattern_brightness (glob s) mode) s1 in
  reg s' AN30259A_REG_LEDON = reg s2 AN30259A_REG_LEDON ∧
  (∀ led, current_code s' led = current_code s2 led) ∧
  glob s' = glob s1.
Proof.
  intros Hdis Hmode. unfold an30259a_start_led_pattern.
  assert ((POWERING <? mode) = false) as ->
    by (apply Z.ltb_ge; unfold POWERING; lia).
  rewrite Hdis. cbn [Z.eqb negb].
  assert ((mode =? LED_OFF) = false) as ->
    by (apply Z.eqb_neq; unfold LED_OFF; lia).
  cbv zeta. rewrite glob_reset. rewrite !pattern_commit_eq.
  set (s1 := with_glob _ (an30259a_reset_register_work s)).
  assert (Hg1 : ∀ f : globals → Z,
            (∀ g v, f (set_LED_DYNAMIC_CURRENT v g) = f g) →
            f (glob s1) = f (glob s)).
  { intros f Hf. subst s1. cbn [glob with_glob]. by rewrite Hf, glob_reset. }
  rewrite (Hg1 led_intensity), (Hg1 LED_R_CURRENT), (Hg1 LED_G_CURRENT),
    (Hg1 LED_B_CURRENT) by done.
  assert (Hdyn : LED_DYNAMIC_CURRENT (glob s1) =
                 if LED_LOWPOWER_MODE (glob s) =? 1
                 then to_u8 (led_lowpower_cur (glob s))
                 else to_u8 (led_default_cur (glob s))) by reflexivity.
  rewrite Hdyn.
  assert (Hfin : ∀ s3 s4 : state B,
            reg s4 AN30259A_REG_LEDON = reg s3 AN30259A_REG_LEDON →
            (∀ led, current_code s4 led = current_code s3 led) →
            glob s4 = glob s1 →
            reg (leds_i2c_write_all s4).2 AN30259A_REG_LEDON
              = reg s3 AN30259A_REG_LEDON ∧
            (∀ led, current_code (leds_i2c_write_all s4).2 led
                    = current_code s3 led) ∧
            glob (leds_i2c_write_all s4).2 = glob s1).
  { intros s3 s4 H1 H2 H3.
    destruct (leds_i2c_write_all_keeps s4) as [Hs Hg].
    split; [unfold reg; rewrite Hs; exact H1|].
    split; [|by rewrite Hg].
    intros led. destruct (fields_ext _ _ led Hs) as (_&_&_&->). apply H2. }
  assert (Hgl : ∀ led on sl cc, glob (leds_on led on sl cc s1) = glob s1)
    by (intros; apply glob_leds_on).
  unfold pattern_brightness, pattern_channel, pattern_slope.
  destruct (Z.eqb_spec mode CHARGING) as [->|N1].
  { intros [= <-]. apply Hfin; [done|done|apply Hgl]. }
  destruct (Z.eqb_spec mode CHARGING_ERR) as [->|N2].
  { destruct (led_enable_fade (glob s1) =? 1); intros Hs';
      repeat (apply bind_Some in Hs' as (? & _ & Hs'));
      rewrite pattern_commit_eq in Hs'; injection Hs' as <-;
      (apply Hfin;
       [apply LEDON_slope_mode
       |intros led; apply current_code_slope_mode|apply Hgl]). }
  destruct (Z.eqb_spec mode MISSED_NOTI) as [->|N3].
  { destruct (led_enable_fade (glob s1) =? 1); intros Hs';
      repeat (apply bind_Some in Hs' as (? & _ & Hs'));
      rewrite pattern_commit_eq in Hs'; injection Hs' as <-;
      (apply Hfin;
       [apply LEDON_slope_mode
       |intros led; apply current_code_slope_mode|apply Hgl]). }
  destruct (Z.eqb_spec mode LOW_BATTERY) as [->|N4].
  { destruct (led_enable_fade (glob s1) =? 1); intros Hs';
      repeat (apply bind_Some in Hs' as (? & _ & Hs'));
      rewrite pattern_commit_eq in Hs'; injection Hs' as <-;
      (apply Hfin;
       [apply LEDON_slope_mode
       |intros led; apply current_code_slope_mode|apply Hgl]). }
  destruct (Z.eqb_spec mode FULLY_CHARGED) as [->|N5].
  { intros [= <-]. apply Hfin; [done|done|apply Hgl]. }
  destruct (Z.eqb_spec mode POWERING) as [->|N6].
  { intros [= <-].
    apply Hfin;
      [apply LEDON_slope_mode
      |intros led; apply current_code_slope_mode|apply Hgl]. }
  unfold CHARGING, CHARGING_ERR, MISSED_NOTI, LOW_BATTERY, FULLY_CHARGED,
    POWERING in *. lia.
Qed.

Lemma reset_entry_fields s led v :
  length (shadow_reg s) = AN30259A_REG_MAX →
  let s1 := with_glob (set_LED_DYNAMIC_CURRENT v)
              (an30259a_reset_register_work s) in
  length (shadow_reg s1) = AN30259A_REG_MAX ∧
  enable_bit s1 led = false ∧ slope_bit s1 led = false ∧
  current_code s1 led = 0.
Proof.
  intros Hlen s1.
  destruct (reset_all_off s led Hlen) as (He & Hs & _ & Hc).
  split; [|done].
  subst s1. cbn [with_glob shadow_reg].
  destruct (reset_shadow_reg s) as [-> _].
  by rewrite !length_leds_on.
Qed.

(** X6.  A named pattern (index 1 to 6, patterns enabled) that returns
    leaves exactly one channel enabled, the pattern's own: red for charging,
    charging error and low battery, green for fully charged, blue for missed
    notification and powering.  That channel's slope-mode bit is set for the
    four blinking patterns provided the speed divisor is nonzero; with
    divisor 0 the powering pattern lights blue steadily.  All other enable
    and slope-mode bits are clear. *)
Theorem an30259a_start_led_pattern_lights_one s mode s' :
  length (shadow_reg s) = AN30259A_REG_MAX →
  disabled_samsung_pattern (glob s) = 0 →
  1 <= mode <= 6 →
  an30259a_start_led_pattern mode s = Some s' →
  ∀ led,
    enable_bit s' led = bool_decide (led = pattern_channel mode) ∧
    slope_bit s' led =
      bool_decide (led = pattern_channel mode) && pattern_slope mode
      && negb (led_speed (glob s) =? 0).
Proof.
  intros Hlen Hdis Hmode Hs' led.
  destruct (pattern_fields s mode s' Hdis Hmode Hs') as (Hon & _ & _).
  set (v := if LED_LOWPOWER_MODE (glob s) =? 1 then _ else _) in Hon.
  destruct (reset_entry_fields s led v Hlen) as (Hl1 & He & Hsl & _).
  unfold enable_bit, slope_bit. rewrite Hon.
  fold (enable_bit
          (leds_on (pattern_channel mode) true (pattern_slope mode)
             (pattern_brightness (glob s) mode)
             (with_glob (set_LED_DYNAMIC_CURRENT v)
                (an30259a_reset_register_work s))) led).
  fold (slope_bit
          (leds_on (pattern_channel mode) true (pattern_slope mode)
             (pattern_brightness (glob s) mode)
             (with_glob (set_LED_DYNAMIC_CURRENT v)
                (an30259a_reset_register_work s))) led).
  rewrite enable_bit_leds_on, slope_bit_leds_on by done.
  cbn [glob with_glob led_speed set_LED_DYNAMIC_CURRENT].
  rewrite glob_reset.
  destruct (decide (led = pattern_channel mode)) as [E|N].
  - rewrite bool_decide_eq_true_2 by done. done.
  - rewrite bool_decide_eq_false_2 by done. rewrite He, Hsl. done.
Qed.

(** X7.  After a named pattern that returns, the lit channel's current
    code is the pattern's brightness with the calibration offset leds_on
    adds, and the other two current codes are 0.  The brightness is
    LED_x_CURRENT of the channel when led_intensity is 0 and led_intensity
    itself otherwise; only the powering pattern uses the low-power or
    default current chosen by LED_LOWPOWER_MODE, so low-power mode changes no
    other pattern. *)
Theorem an30259a_start_led_pattern_current_code s mode s' :
  length (shadow_reg s) = AN30259A_REG_MAX →
  disabled_samsung_pattern (glob s) = 0 →
  1 <= mode <= 6 →
  an30259a_start_led_pattern mode s = Some s' →
  let b :=
    if mode =? POWERING then
      if LED_LOWPOWER_MODE (glob s) =? 1 then to_u8 (led_lowpower_cur (glob s))
      else to_u8 (led_default_cur (glob s))
    else if led_intensity (glob s) =? 0
    then to_u8 (channel_current (glob s) (pattern_channel mode))
    else to_u8 (Z.min (led_intensity (glob s)) 255) in
  ∀ led,
    current_code s' led =
      if decide (led = pattern_channel mode)
      then ledcc_after (glob s) led b
      else 0.
Proof.
  intros Hlen Hdis Hmode Hs' b led.
  destruct (pattern_fields s mode s' Hdis Hmode Hs') as (_ & Hcc & _).
  set (v := if LED_LOWPOWER_MODE (glob s) =? 1 then _ else _) in Hcc.
  destruct (reset_entry_fields s led v Hlen) as (Hl1 & _ & _ & Hc).
  rewrite Hcc.
  destruct (decide (led = pattern_channel mode)) as [->|N].
  - rewrite leds_on_LEDCC by done.
    cbn [glob with_glob]. rewrite glob_reset. reflexivity.
  - rewrite current_code_leds_on_ne by done. exact Hc.
Qed.

End PatternFields.

(** ** Blink: what it leaves alone *)

Section BlinkFrame.
Context {B : Type} `{I2CAdapter B}.
Implicit Types (s : state B) (led : an30259a_led_enum).

Lemma channel_same_refl s led : channel_same s s led.
Proof. by repeat split. Qed.

Lemma channel_same_trans s1 s2 s3 led :
  channel_same s1 s2 led → channel_same s2 s3 led → channel_same s1 s3 led.
Proof.
  intros (E1 & S1 & C1 & R1) (E2 & S2 & C2 & R2).
  split; [congruence|]. split; [congruence|]. split; [congruence|].
  intros i Hi. rewrite R2, R1; done.
Qed.

Lemma slope_regs_disjoint led led' (i : nat) :
  led' ≠ led → i ∈ slope_regs led' →
  (i ∉ slope_regs led) ∧ i ≠ AN30259A_REG_LEDON ∧
  (∀ c, i ≠ (AN30259A_REG_LED1CC + led_num c)%nat).
Proof.
  intros Hne Hi.
  destruct led, led'; try congruence; unfold slope_regs in *; simpl in *;
    rewrite !elem_of_cons in Hi; rewrite !not_elem_of_cons;
    destruct Hi as [->|[->|[->|[->|[->|Hi]]]]];
    try (by apply elem_of_nil in Hi);
    (split; [repeat split; try discriminate; apply not_elem_of_nil|]);
    (split; [discriminate|]); intros []; discriminate.
Qed.

Lemma channel_same_leds_on s led led' on slopemode ledcc :
  length (shadow_reg s) = AN30259A_REG_MAX → led' ≠ led →
  channel_same s (leds_on led on slopemode ledcc s) led'.
Proof.
  intros Hlen Hne. split; [|split; [|split]].
  - rewrite enable_bit_leds_on by done. by rewrite decide_False.
  - rewrite slope_bit_leds_on by done. by rewrite decide_False.
  - by apply current_code_leds_on_ne.
  - intros i Hi.
    destruct (slope_regs_disjoint led led' i Hne Hi) as (Hn & Hon & Hcc).
    destruct on; [by apply leds_on_true_other|].
    apply leds_on_false_other; [done|done|].
    intros ->. apply Hn. unfold slope_regs. rewrite !elem_of_cons. auto.
Qed.

Lemma channel_same_slope_mode s led led' delay dutymax dutymid dutymin
    slptt1 slptt2 dt1 dt2 dt3 dt4 :
  led' ≠ led →
  channel_same s (leds_set_slope_mode led delay dutymax dutymid dutymin
                    slptt1 slptt2 dt1 dt2 dt3 dt4 s) led'.
Proof.
  intros Hne. split; [|split; [|split]].
  - unfold enable_bit. by rewrite LEDON_slope_mode.
  - unfold slope_bit. by rewrite LEDON_slope_mode.
  - apply current_code_slope_mode.
  - intros i Hi. apply leds_set_slope_mode_other.
    by destruct (slope_regs_disjoint led led' i Hne Hi).
Qed.

Ltac some_inj H :=
  match type of H with
  | Some ?x = Some ?y => assert (y = x) as -> by congruence; clear H
  end.

Lemma blink_effect s led d_on d_off b s' :
  length (shadow_reg s) = AN30259A_REG_MAX →
  int_range (led_speed (glob s)) →
  an30259a_set_led_blink led d_on d_off b s = Some s' →
  (∀ led', led' ≠ led → channel_same s s' led') ∧
  same_tunables (glob s) (glob s') ∧
  length (shadow_reg s') = AN30259A_REG_MAX ∧
  trace s' = trace s ∧ bus s' = bus s ∧ mutex s' = mutex s.
Proof.
  intros Hlen Hint Hs'.
  assert (Hout : ∀ s0 l on sl cc,
            trace (leds_on l on sl cc s0) = trace s0 ∧
            bus (leds_on l on sl cc s0) = bus s0 ∧
            mutex (leds_on l on sl cc s0) = mutex s0).
  { intros. by destruct (leds_on_outside s0 l on sl cc) as (_&->&->&->&_). }
  assert (Hent : same_tunables (glob s) (glob (blink_entry led b s)))
    by (unfold blink_entry, blink_scale_brightness; reflexivity).
  assert (Hle : length (shadow_reg (blink_entry led b s)) = AN30259A_REG_MAX)
    by done.
  assert (Hce : ∀ led', channel_same s (blink_entry led b s) led')
    by (intros; by repeat split).
  destruct (decide (to_u8 b = 0)) as [Hb|Hb].
  { rewrite blink_path_off in Hs' by done. some_inj Hs'.
    destruct (Hout s led false false 0) as (-> & -> & ->).
    rewrite length_leds_on, glob_leds_on.
    split; [intros; by apply channel_same_leds_on|]. done. }
  destruct (decide (to_u32 d_off = 0)) as [Hoff|Hoff].
  { pose proof (blink_path_steady s led d_on d_off b Hb Hoff) as E.
    cbv zeta in E. rewrite E in Hs'. some_inj Hs'.
    set (be := (blink_scale_brightness led (to_u8 b) (glob s)).1).
    set (s1 := leds_on led true false be (blink_entry led b s)).
    assert (Hl1 : length (shadow_reg s1) = AN30259A_REG_MAX)
      by (subst s1; by rewrite length_leds_on).
    assert (H1 : ∀ led', led' ≠ led → channel_same s s1 led').
    { intros led' Hne. eapply channel_same_trans; [apply Hce|].
      by apply channel_same_leds_on. }
    destruct (Hout (blink_entry led b s) led true false be) as (T1 & B1 & M1).
    fold s1 in T1, B1, M1.
    assert (G1 : glob s1 = glob (blink_entry led b s))
      by (subst s1; apply glob_leds_on).
    destruct (be =? 0).
    - destruct (Hout s1 led false false be) as (-> & -> & ->).
      rewrite length_leds_on, glob_leds_on, G1, T1, B1, M1.
      split; [|done]. intros led' Hne.
      eapply channel_same_trans; [by apply H1|].
      by apply channel_same_leds_on.
    - rewrite G1, T1, B1, M1. done. }
  destruct (decide (led_speed (glob s) = 0)) as [Hsp|Hsp].
  { rewrite blink_path_speed_0 in Hs' by done. discriminate. }
  pose proof (blink_path_slope s led d_on d_off b Hb Hoff Hint Hsp) as E.
  cbv zeta in E. rewrite E in Hs'. some_inj Hs'.
  set (be := (blink_scale_brightness led (to_u8 b) (glob s)).1).
  set (s1 := leds_on led true true be (blink_entry led b s)).
  assert (Hl1 : length (shadow_reg s1) = AN30259A_REG_MAX)
    by (subst s1; by rewrite length_leds_on).
  destruct (Hout (blink_entry led b s) led true true be) as (T1 & B1 & M1).
  fold s1 in T1, B1, M1.
  assert (G1 : glob s1 = glob (blink_entry led b s))
    by (subst s1; apply glob_leds_on).
  split.
  { intros led' Hne. eapply channel_same_trans; [apply Hce|].
    eapply channel_same_trans; [by apply channel_same_leds_on|].
    by apply channel_same_slope_mode. }
  change (glob (leds_set_slope_mode ?l ?a ?b0 ?c ?d ?e ?f ?g ?h ?i ?j ?s0))
    with (glob s0).
  change (trace (leds_set_slope_mode ?l ?a ?b0 ?c ?d ?e ?f ?g ?h ?i ?j ?s0))
    with (trace s0).
  change (bus (leds_set_slope_mode ?l ?a ?b0 ?c ?d ?e ?f ?g ?h ?i ?j ?s0))
    with (bus s0).
  change (mutex (leds_set_slope_mode ?l ?a ?b0 ?c ?d ?e ?f ?g ?h ?i ?j ?s0))
    with (mutex s0).
  rewrite G1, T1, B1, M1.
  split; [done|]. split; [|done].
  unfold leds_set_slope_mode, write_reg; cbn [shadow_reg].
  rewrite !length_insert. exact Hl1.
Qed.

(** X8.  A blink-set call on one channel leaves the other two channels
    as they were: their enable and slope-mode bits, their current codes and
    their slope registers.  Of the tunables it changes at most
    LED_DYNAMIC_CURRENT, and it sends nothing to the bus: trace, adapter and
    mutex are untouched, so the caller has to commit. *)
Theorem an30259a_set_led_blink_frame s led d_on d_off b s' :
  length (shadow_reg s) = AN30259A_REG_MAX →
  int_range (led_speed (glob s)) →
  an30259a_set_led_blink led d_on d_off b s = Some s' →
  (∀ led', led' ≠ led →
     enable_bit s' led' = enable_bit s led' ∧
     slope_bit s' led' = slope_bit s led' ∧
     current_code s' led' = current_code s led' ∧
     ∀ i : nat, i ∈ slope_regs led' → shadow_reg s' !! i = shadow_reg s !! i) ∧
  set_LED_DYNAMIC_CURRENT 0 (glob s') = set_LED_DYNAMIC_CURRENT 0 (glob s) ∧
  length (shadow_reg s') = AN30259A_REG_MAX ∧
  trace s' = trace s ∧ bus s' = bus s ∧ mutex s' = mutex s.
Proof. apply blink_effect. Qed.

End BlinkFrame.

(** ** Blink: the fade encoding *)

Section BlinkFade.
Context {B : Type} `{I2CAdapter B}.
Implicit Types (s : state B) (led : an30259a_led_enum).

(** The bytes of the slope path, for either value of led_enable_fade. *)
Lemma blink_slope_bytes s led d_on d_off b :
  length (shadow_reg s) = AN30259A_REG_MAX →
  1 <= b <= 255 →
  1 <= led_speed (glob s) < 2 ^ 31 →
  nibble (led_slope_up_1 (glob s)) → nibble (led_slope_up_2 (glob s)) →
  nibble (led_slope_down_1 (glob s)) → nibble (led_slope_down_2 (glob s)) →
  0 <= d_on < 2 ^ 32 → 1 <= d_off < 2 ^ 32 →
  let g := glob s in
  let sp := led_speed g in
  let fade := led_enable_fade g =? 1 in
  ∃ s', an30259a_set_led_blink led d_on d_off b s = Some s' ∧
    reg s' (AN30259A_REG_LED1CNT1 + led_num led * 4)
      = 15 / sp * 16 + (if fade then 7 else 15) / sp ∧
    reg s' (AN30259A_REG_LED1CNT2 + led_num led * 4) = 0 ∧
    reg s' (AN30259A_REG_LED1CNT3 + led_num led * 4)
      = (if fade then led_slope_up_2 g else 0) * 16
        + (if fade then led_slope_up_1 g else 0) ∧
    reg s' (AN30259A_REG_LED1CNT4 + led_num led * 4)
      = (if fade then led_slope_down_2 g else 0) * 16
        + (if fade then led_slope_down_1 g else 0) ∧
    reg s' (AN30259A_REG_LED1SLP + led_num led)
      = (clamp_ms d_off / sp + 499) / 500 * 16
        + (clamp_ms d_on / sp + 499) / 500 ∧
    enable_bit s' led = true ∧ slope_bit s' led = true.
Proof.
  intros Hlen Hb Hsp Hu1 Hu2 Hd1 Hd2 Hon Hoff g sp fade.
  subst fade sp g.
  set (sp := led_speed (glob s)) in *.
  set (fade := led_enable_fade (glob s) =? 1).
  assert (Hu : to_u8 b = b) by (apply to_u8_small; lia).
  assert (Hint : int_range sp) by (unfold int_range; lia).
  eexists. split.
  { apply blink_path_slope; [lia | rewrite to_u32_small by lia; lia
                            | done | lia]. }
  cbv zeta. fold sp. fold fade.
  rewrite (to_u32_small sp), (to_u32_small d_on), (to_u32_small d_off)
    by lia.
  pose proof (blink_quotient_bounds d_on sp ltac:(lia) ltac:(lia)) as Hq1.
  pose proof (blink_quotient_bounds d_off sp ltac:(lia) ltac:(lia)) as Hq2.
  unfold AN30259A_TIME_UNIT.
  replace (clamp_ms d_on / sp + 500 - 1) with (clamp_ms d_on / sp + 499) by lia.
  replace (clamp_ms d_off / sp + 500 - 1) with (clamp_ms d_off / sp + 499) by lia.
  rewrite !to_u32_small by lia.
  rewrite !Z.quot_div_nonneg by (destruct fade; lia).
  set (tt1 := (clamp_ms d_on / sp + 499) / 500).
  set (tt2 := (clamp_ms d_off / sp + 499) / 500).
  set (dmax := 15 / sp).
  set (dmid := (if fade then 7 else 15) / sp).
  set (t1 := if fade then led_slope_up_1 (glob s) else 0).
  set (t2 := if fade then led_slope_up_2 (glob s) else 0).
  set (t3 := if fade then led_slope_down_1 (glob s) else 0).
  set (t4 := if fade then led_slope_down_2 (glob s) else 0).
  assert (H0 : nibble 0) by (unfold nibble; lia).
  assert (Ht1 : nibble tt1) by (apply slptt_nibble; lia).
  assert (Ht2 : nibble tt2) by (apply slptt_nibble; lia).
  assert (Hdmax : nibble dmax) by (apply duty_nibble; lia).
  assert (Hdmid : nibble dmid) by (apply duty_nibble; destruct fade; lia).
  assert (N1 : nibble t1) by (subst t1; by destruct fade).
  assert (N2 : nibble t2) by (subst t2; by destruct fade).
  assert (N3 : nibble t3) by (subst t3; by destruct fade).
  assert (N4 : nibble t4) by (subst t4; by destruct fade).
  set (s1 := leds_on led true true _ _).
  assert (Hlen1 : length (shadow_reg s1) = AN30259A_REG_MAX)
    by (subst s1; by rewrite length_leds_on).
  destruct (leds_set_slope_mode_regs s1 led 0 dmax dmid 0 tt1 tt2 t1 t2 t3 t4
              Hlen1) as (E1 & E2 & E3 & E4 & E5).
  assert (Hs : ∀ x, nibble x → to_u8 x = x)
    by (intros x Hx; apply to_u8_small; unfold nibble in Hx; lia).
  rewrite (Hs dmax), (Hs dmid) in E1 by done. rewrite (Hs 0) in E2 by done.
  rewrite (Hs t2), (Hs t1) in E3 by done.
  rewrite (Hs t4), (Hs t3) in E4 by done.
  rewrite (Hs tt1), (Hs tt2) in E5 by done.
  rewrite pack_nibbles_u8 in E1, E3, E4, E5 by done.
  change (to_u8 (Z.lor (Z.shiftl 0 4) 0)) with 0 in E2.
  split; [exact E1|]. split; [exact E2|]. split; [exact E3|].
  split; [exact E4|]. split; [exact E5|].
  unfold enable_bit, slope_bit. rewrite LEDON_slope_mode.
  fold (enable_bit s1 led) (slope_bit s1 led). subst s1.
  rewrite enable_bit_leds_on, slope_bit_leds_on by done.
  rewrite !decide_True by done.
  split; [done|].
  assert (led_speed (glob (blink_entry led b s)) = sp) as -> by reflexivity.
  destruct (Z.eqb_spec sp 0); [lia|done].
Qed.

(** X9.  With fading enabled, tunables in the ranges the setters
    establish and a nonzero speed divisor s, a blink with nonzero brightness
    and off-time programs the channel for slope mode with duty_max 15 / s
    and the lower fade peak duty_mid 7 / s, start delay and duty_min 0, the
    four transition nibbles equal to the four slope presets, and the two
    phase times computed as for a plain blink; the channel's enable and
    slope-mode bits are set. *)
Theorem an30259a_set_led_blink_fade s led d_on d_off b :
  length (shadow_reg s) = AN30259A_REG_MAX →
  tunables_ok (glob s) →
  led_enable_fade (glob s) = 1 →
  led_speed (glob s) ≠ 0 →
  1 <= b <= 255 →
  0 <= d_on < 2 ^ 32 → 1 <= d_off < 2 ^ 32 →
  let g := glob s in
  let sp := led_speed g in
  ∃ s', an30259a_set_led_blink led d_on d_off b s = Some s' ∧
    let cnt (n : nat) := reg s' (AN30259A_REG_LED1CNT1 + n + led_num led * 4) in
    let slp := reg s' (AN30259A_REG_LED1SLP + led_num led) in
    hi_nibble (cnt 0%nat) = 15 / sp ∧ lo_nibble (cnt 0%nat) = 7 / sp ∧
    cnt 1%nat = 0 ∧
    lo_nibble (cnt 2%nat) = led_slope_up_1 g ∧
    hi_nibble (cnt 2%nat) = led_slope_up_2 g ∧
    lo_nibble (cnt 3%nat) = led_slope_down_1 g ∧
    hi_nibble (cnt 3%nat) = led_slope_down_2 g ∧
    lo_nibble slp = slptt_quotient_first d_on sp ∧
    hi_nibble slp = slptt_quotient_first d_off sp ∧
    enable_bit s' led = true ∧ slope_bit s' led = true.
Proof.
  intros Hlen (Hf & Hi & Hsp & U1 & U2 & D1 & D2) Hfade Hnz Hb Hon Hoff g sp.
  subst sp g. set (sp := led_speed (glob s)) in *.
  assert (Hn : ∀ x, 0 <= x <= 5 → nibble x) by (unfold nibble; lia).
  destruct (blink_slope_bytes s led d_on d_off b Hlen Hb ltac:(lia)
              (Hn _ U1) (Hn _ U2) (Hn _ D1) (Hn _ D2) Hon Hoff)
    as (s' & Hs' & E1 & E2 & E3 & E4 & E5 & He & Hsl).
  cbv zeta in E1, E3, E4, E5. rewrite Hfade in E1, E3, E4.
  cbn [Z.eqb Pos.eqb] in E1, E3, E4.
  exists s'. split; [exact Hs'|]. cbv beta zeta.
  replace (AN30259A_REG_LED1CNT1 + 0 + led_num led * 4)%nat
    with (AN30259A_REG_LED1CNT1 + led_num led * 4)%nat by lia.
  replace (AN30259A_REG_LED1CNT1 + 1 + led_num led * 4)%nat
    with (AN30259A_REG_LED1CNT2 + led_num led * 4)%nat
    by (unfold AN30259A_REG_LED1CNT1, AN30259A_REG_LED1CNT2; lia).
  replace (AN30259A_REG_LED1CNT1 + 2 + led_num led * 4)%nat
    with (AN30259A_REG_LED1CNT3 + led_num led * 4)%nat
    by (unfold AN30259A_REG_LED1CNT1, AN30259A_REG_LED1CNT3; lia).
  replace (AN30259A_REG_LED1CNT1 + 3 + led_num led * 4)%nat
    with (AN30259A_REG_LED1CNT4 + led_num led * 4)%nat
    by (unfold AN30259A_REG_LED1CNT1, AN30259A_REG_LED1CNT4; lia).
  rewrite E1, E2, E3, E4, E5.
  rewrite !slptt_quotient_first_eq.
  assert (nibble (15 / sp)) by (apply duty_nibble; lia).
  assert (nibble (7 / sp)) by (apply duty_nibble; lia).
  assert (nibble ((clamp_ms d_on / sp + 499) / 500))
    by (apply slptt_nibble; lia).
  assert (nibble ((clamp_ms d_off / sp + 499) / 500))
    by (apply slptt_nibble; lia).
  rewrite !hi_nibble_pack, !lo_nibble_pack by auto.
  done.
Qed.

End BlinkFade.

(** ** The blink handler: one composite, three channels *)

Lemma mask_shift_byte x k :
  0 <= k →
  to_u8 (Z.shiftr (Z.land x (Z.shiftl (Z.ones 8) k)) k) = (x / 2 ^ k) mod 256.
Proof.
  intros Hk. rewrite <- Z.shiftr_div_pow2 by lia.
  unfold to_u8. change 256 with (2 ^ 8).
  apply Z.bits_inj'. intros i Hi.
  destruct (Z.lt_ge_cases i 8).
  - rewrite !Z.mod_pow2_bits_low by lia.
    rewrite !Z.shiftr_spec, Z.land_spec, Z.shiftl_spec by lia.
    replace (i + k - k) with i by lia.
    rewrite Z.testbit_ones_nonneg by lia.
    destruct (Z.ltb_spec i 8); [|lia]. apply andb_true_r.
  - by rewrite !Z.mod_pow2_bits_high by lia.
Qed.

Lemma colour_bytes colour :
  0 <= colour < 2 ^ 32 →
  to_u8 (Z.shiftr (Z.land (to_u32 colour) LED_R_MASK) LED_R_SHIFT)
    = colour_byte colour LED_R ∧
  to_u8 (Z.shiftr (Z.land (to_u32 colour) LED_G_MASK) LED_G_SHIFT)
    = colour_byte colour LED_G ∧
  to_u8 (Z.land (to_u32 colour) LED_B_MASK) = colour_byte colour LED_B.
Proof.
  intros Hc. rewrite to_u32_small by done.
  split; [apply (mask_shift_byte colour 16); lia|].
  split; [apply (mask_shift_byte colour 8); lia|].
  pose proof (mask_shift_byte colour 0 ltac:(lia)) as E.
  rewrite Z.shiftr_0_r, Z.div_1_r in E. exact E.
Qed.

Lemma same_tunables_proj g g' :
  same_tunables g g' →
  led_intensity g' = led_intensity g ∧ led_speed g' = led_speed g ∧
  led_offset g' = led_offset g ∧
  ∀ led, channel_current g' led = channel_current g led.
Proof.
  unfold same_tunables. intros E.
  pose proof (f_equal led_intensity E). pose proof (f_equal led_speed E).
  pose proof (f_equal led_offset E).
  pose proof (f_equal LED_R_CURRENT E). pose proof (f_equal LED_G_CURRENT E).
  pose proof (f_equal LED_B_CURRENT E).
  repeat split; try done. by intros [].
Qed.

Section BlinkStore.
Context {B : Type} `{I2CAdapter B}.
Implicit Types (s : state B) (led : an30259a_led_enum).

(** One blink step of the handler: the channel's code, the other channels
    kept, the tunables kept. *)
Lemma blink_step s0 s led d_on d_off b :
  length (shadow_reg s) = AN30259A_REG_MAX →
  same_tunables (glob s0) (glob s) →
  0 <= b <= 255 →
  0 <= led_intensity (glob s0) <= 255 →
  int_range (led_speed (glob s0)) →
  led_speed (glob s0) ≠ 0 ∨ to_u32 d_off = 0 →
  ∃ s', an30259a_set_led_blink led d_on d_off b s = Some s' ∧
    current_code s' led =
      ledcc_after (glob s0) led
        (B_eff (led_intensity (glob s0))
               (to_u8 (channel_current (glob s0) led)) b) ∧
    (∀ led', led' ≠ led → channel_same s s' led') ∧
    same_tunables (glob s0) (glob s') ∧
    length (shadow_reg s') = AN30259A_REG_MAX.
Proof.
  intros Hlen Hsame Hb Hi Hint Hdef.
  destruct (same_tunables_proj _ _ Hsame) as (Ei & Es & Eo & Ec).
  destruct (blink_current_code s led d_on d_off b Hlen Hb)
    as (s' & Hs' & Hcc & _); [by rewrite Ei|by rewrite Es|by rewrite Es|].
  destruct (blink_effect s led d_on d_off b s' Hlen) as (Hch & Hst & Hl & _);
    [by rewrite Es|done|].
  exists s'. split; [done|]. split.
  - rewrite Hcc. unfold ledcc_after, B_eff. by rewrite Ei, Eo, Ec.
  - split; [done|]. split; [|done].
    unfold same_tunables in *. congruence.
Qed.

Lemma store_blink_codes s retval colour d_on d_off :
  length (shadow_reg s) = AN30259A_REG_MAX →
  0 <= led_intensity (glob s) <= 255 →
  int_range (led_speed (glob s)) →
  led_speed (glob s) ≠ 0 ∨ to_u32 d_off = 0 →
  retval ≠ 0 →
  0 <= colour < 2 ^ 32 →
  ∃ s', store_an30259a_led_blink retval colour d_on d_off s = Some s' ∧
    ∀ led,
      current_code s' led =
        ledcc_after (glob s) led
          (B_eff (led_intensity (glob s))
                 (to_u8 (channel_current (glob s) led))
                 (colour_byte colour led)).
Proof.
  intros Hlen Hi Hint Hdef Hret Hcol.
  unfold store_an30259a_led_blink.
  apply Z.eqb_neq in Hret as ->. cbv zeta.
  destruct (colour_bytes colour Hcol) as (-> & -> & ->).
  set (s0 := an30259a_reset_register_work s).
  assert (Hg0 : glob s0 = glob s) by apply glob_reset.
  assert (Hl0 : length (shadow_reg s0) = AN30259A_REG_MAX).
  { subst s0. destruct (reset_shadow_reg s) as [-> _].
    by rewrite !length_leds_on. }
  assert (Hbyte : ∀ led, 0 <= colour_byte colour led <= 255).
  { intros []; unfold colour_byte;
      match goal with |- _ <= ?x mod 256 <= _ =>
        pose proof (Z.mod_pos_bound x 256 ltac:(lia)) end; lia. }
  assert (Hs0 : same_tunables (glob s) (glob s0))
    by (unfold same_tunables; by rewrite Hg0).
  destruct (blink_step s s0 LED_R d_on d_off (colour_byte colour LED_R)
              Hl0 Hs0 (Hbyte _) Hi Hint Hdef)
    as (s1 & E1 & C1 & F1 & T1 & L1).
  destruct (blink_step s s1 LED_G d_on d_off (colour_byte colour LED_G)
              L1 T1 (Hbyte _) Hi Hint Hdef)
    as (s2 & E2 & C2 & F2 & T2 & L2).
  destruct (blink_step s s2 LED_B d_on d_off (colour_byte colour LED_B)
              L2 T2 (Hbyte _) Hi Hint Hdef)
    as (s3 & E3 & C3 & F3 & T3 & L3).
  rewrite E1. cbn [mbind option_bind]. rewrite E2. cbn [mbind option_bind].
  rewrite E3. cbn [mbind option_bind].
  destruct (leds_i2c_write_all_keeps s3) as [Hs _].
  destruct (leds_i2c_write_all s3) as [ret s4]. cbn [snd] in Hs.
  exists s4. split; [done|].
  intros led. destruct (fields_ext s3 s4 led Hs) as (_ & _ & _ & ->).
  destruct led.
  - destruct (F3 LED_R ltac:(done)) as (_ & _ & -> & _).
    destruct (F2 LED_R ltac:(done)) as (_ & _ & -> & _). exact C1.
  - destruct (F3 LED_G ltac:(done)) as (_ & _ & -> & _). exact C2.
  - exact C3.
Qed.

(** X10.  The blink handler routes the composite 0xRRGGBB byte by byte:
    after a successful parse it resets the device and ends with each
    channel's current code equal to the intensity-scaled value of that
    channel's byte (RR for red, GG for green, BB for blue), with the
    calibration offset leds_on adds.  Later channels do not disturb the codes
    of earlier ones. *)
Theorem store_an30259a_led_blink_routes s retval colour d_on d_off :
  length (shadow_reg s) = AN30259A_REG_MAX →
  0 <= led_intensity (glob s) <= 255 →
  int_range (led_speed (glob s)) →
  led_speed (glob s) ≠ 0 ∨ to_u32 d_off = 0 →
  retval ≠ 0 →
  0 <= colour < 2 ^ 32 →
  ∃ s', store_an30259a_led_blink retval colour d_on d_off s = Some s' ∧
    ∀ led,
      let byte := colour_byte colour led in
      let scale := led_intensity (glob s) in
      let dynamic_current := to_u8 (channel_current (glob s) led) in
      current_code s' led =
        ledcc_after (glob s) led
          (if scale =? 0 then Z.min byte 255
           else if scale =? 40 then byte * dynamic_current / 255
           else byte * scale / 255).
Proof. apply store_blink_codes. Qed.

(** Three blinks of brightness 0 after a reset: every channel off. *)
Lemma reset_blinks_off s0 d_on d_off :
  length (shadow_reg s0) = AN30259A_REG_MAX →
  ∃ s3,
    (s1 ← an30259a_set_led_blink LED_R d_on d_off 0 s0;
     s2 ← an30259a_set_led_blink LED_G d_on d_off 0 s1;
     an30259a_set_led_blink LED_B d_on d_off 0 s2) = Some s3 ∧
    ∀ led, enable_bit s3 led = false ∧ slope_bit s3 led = false ∧
           delay_field s3 led = 0 ∧ current_code s3 led = 0.
Proof.
  intros Hl0.
  rewrite blink_path_off by reflexivity. cbn [mbind option_bind].
  rewrite blink_path_off by reflexivity. cbn [mbind option_bind].
  rewrite blink_path_off by reflexivity.
  eexists. split; [reflexivity|]. intros led.
  destruct (reset_shadow_reg s0) as [Hr _].
  destruct (fields_ext _ _ led Hr) as (<- & <- & <- & <-).
  by apply reset_all_off.
Qed.

(** X11.  The blink handler does nothing when sscanf converts nothing.
    When the three colour bytes are 0 it switches every channel off, for any
    durations and any speed divisor, 0 included: enable and slope-mode bits
    clear, delay fields and current codes 0. *)
Theorem store_an30259a_led_blink_black s retval colour d_on d_off :
  length (shadow_reg s) = AN30259A_REG_MAX →
  0 <= colour < 2 ^ 32 →
  (∀ led, colour_byte colour led = 0) →
  store_an30259a_led_blink 0 colour d_on d_off s = Some s ∧
  (retval ≠ 0 →
   ∃ s', store_an30259a_led_blink retval colour d_on d_off s = Some s' ∧
         ∀ led, enable_bit s' led = false ∧ slope_bit s' led = false ∧
                delay_field s' led = 0 ∧ current_code s' led = 0).
Proof.
  intros Hlen Hcol Hzero. split; [reflexivity|]. intros Hret.
  destruct (colour_bytes colour Hcol) as (E1 & E2 & E3).
  rewrite Hzero in E1, E2, E3.
  assert (Hl0 : length (shadow_reg (an30259a_reset_register_work s))
                = AN30259A_REG_MAX).
  { destruct (reset_shadow_reg s) as [-> _]. by rewrite !length_leds_on. }
  pose proof (reset_blinks_off (an30259a_reset_register_work s) d_on d_off
                Hl0) as Hoff.
  unfold store_an30259a_led_blink.
  apply Z.eqb_neq in Hret as ->. cbv zeta.
  rewrite E1, E2, E3.
  destruct (an30259a_set_led_blink LED_R _ _ 0 _) as [s1|];
    [|by destruct Hoff as (? & ? & ?)].
  cbn [mbind option_bind] in *.
  destruct (an30259a_set_led_blink LED_G _ _ 0 _) as [s2|];
    [|by destruct Hoff as (? & ? & ?)].
  cbn [mbind option_bind] in *.
  destruct (an30259a_set_led_blink LED_B _ _ 0 _) as [s3|];
    [|by destruct Hoff as (? & ? & ?)].
  cbn [mbind option_bind] in *.
  destruct Hoff as (s3' & [= <-] & Hall).
  destruct (leds_i2c_write_all_keeps s3) as [Hs _].
  destruct (leds_i2c_write_all s3) as [ret s4]. cbn [snd] in Hs.
  exists s4. split; [done|]. intros led.
  destruct (fields_ext _ _ led Hs) as (-> & -> & -> & ->).
  apply Hall.
Qed.

End BlinkStore.

(** ** The tunables and their setters *)

Section Setters.
Context {B : Type} `{I2CAdapter B}.
Implicit Types (s : state B).

(** X12.  The sysfs setters keep the tunables in range whatever text
    they are given: led_enable_fade stays 0 or 1, led_intensity within
    0..255, led_speed within 0..15 and the four slope presets within 0..5.
    The slope setter clamps out-of-range values instead of ignoring them.
    The fade, intensity and speed setters store a value in their range and
    ignore every other value and text that holds no integer: the state is
    then exactly the entry state; so do the low-power and disable setters
    for text their parser rejects, and the slope setter when nothing was
    converted.  None of the setters touches the image, the bus or the
    trace. *)
Theorem setters_keep_tunables_ok s :
  tunables_ok (glob s) →
  (∀ scanned, tunables_ok (glob (store_an30259a_led_fade scanned s))) ∧
  (∀ scanned, tunables_ok (glob (store_an30259a_led_intensity scanned s))) ∧
  (∀ count scanned,
     tunables_ok (glob (store_an30259a_led_speed count scanned s).2)) ∧
  (∀ retval n1 n2 n3 n4,
     let s' := store_an30259a_led_slope retval n1 n2 n3 n4 s in
     tunables_ok (glob s') ∧
     (retval ≠ 0 →
        led_slope_up_1 (glob s') = Z.min (Z.max n1 0) 5 ∧
        led_slope_up_2 (glob s') = Z.min (Z.max n2 0) 5 ∧
        led_slope_down_1 (glob s') = Z.min (Z.max n3 0) 5 ∧
        led_slope_down_2 (glob s') = Z.min (Z.max n4 0) 5)) ∧
  (∀ parsed, tunables_ok (glob (store_an30259a_led_lowpower parsed s))) ∧
  (∀ parsed, tunables_ok (glob (disable_samsung_pattern_on_store parsed s).2)) ∧
  (∀ count scanned retval n1 n2 n3 n4 parsed (s' : state B),
     s' = store_an30259a_led_fade scanned s ∨
     s' = store_an30259a_led_intensity scanned s ∨
     s' = (store_an30259a_led_speed count scanned s).2 ∨
     s' = store_an30259a_led_slope retval n1 n2 n3 n4 s ∨
     s' = store_an30259a_led_lowpower parsed s ∨
     s' = (disable_samsung_pattern_on_store parsed s).2 →
     shadow_reg s' = shadow_reg s ∧ bus s' = bus s ∧ trace s' = trace s) ∧
  (∀ v,
     (v = 0 ∨ v = 1 →
        led_enable_fade (glob (store_an30259a_led_fade (Some v) s)) = v) ∧
     (v ≠ 0 → v ≠ 1 → store_an30259a_led_fade (Some v) s = s)) ∧
  store_an30259a_led_fade None s = s ∧
  (∀ v,
     (0 <= v <= 255 →
        led_intensity (glob (store_an30259a_led_intensity (Some v) s)) = v) ∧
     (v < 0 ∨ 255 < v → store_an30259a_led_intensity (Some v) s = s)) ∧
  store_an30259a_led_intensity None s = s ∧
  (∀ count v,
     (0 <= v <= 15 →
        led_speed (glob (store_an30259a_led_speed count (Some v) s).2) = v) ∧
     (v < 0 ∨ 15 < v → (store_an30259a_led_speed count (Some v) s).2 = s)) ∧
  (∀ count, (store_an30259a_led_speed count None s).2 = s) ∧
  (∀ n1 n2 n3 n4, store_an30259a_led_slope 0 n1 n2 n3 n4 s = s) ∧
  store_an30259a_led_lowpower None s = s ∧
  (disable_samsung_pattern_on_store None s).2 = s.
Proof.
  intros (Hf & Hi & Hsp & U1 & U2 & D1 & D2).
  split.
  { intros scanned. unfold store_an30259a_led_fade. cbv zeta.
    generalize (default (-1) scanned). intros x.
    destruct (Z.eqb_spec x 0) as [E|_]; simpl;
      [repeat split; simpl; auto; lia|].
    destruct (Z.eqb_spec x 1) as [E|_]; simpl;
      repeat split; simpl; auto; lia. }
  split.
  { intros scanned. unfold store_an30259a_led_intensity. cbv zeta.
    generalize (default (-1) scanned). intros x.
    pose proof (to_u8_range x).
    destruct (Z.leb_spec 0 x), (Z.leb_spec x 255); simpl;
      repeat split; simpl; auto; lia. }
  split.
  { intros count scanned. unfold store_an30259a_led_speed. cbv zeta.
    generalize (default (-1) scanned). intros x. cbn [snd].
    destruct (Z.leb_spec 0 x), (Z.leb_spec x 15); simpl;
      repeat split; simpl; auto; lia. }
  split.
  { intros retval n1 n2 n3 n4 s'. subst s'.
    unfold store_an30259a_led_slope.
    destruct (Z.eqb_spec retval 0); simpl;
      (split; [repeat split; simpl; auto; lia|]); [done|].
    intros _. done. }
  split.
  { intros [v|]; simpl; repeat split; simpl; auto; lia. }
  split.
  { intros [v|]; simpl; repeat split; simpl; auto; lia. }
  split.
  { intros count scanned retval n1 n2 n3 n4 parsed s' Hs'.
    destruct Hs' as [->|[->|[->|[->|[->| ->]]]]].
    - unfold store_an30259a_led_fade. by destruct (_ || _).
    - unfold store_an30259a_led_intensity. by destruct (_ && _).
    - unfold store_an30259a_led_speed. cbn [snd]. by destruct (_ && _).
    - unfold store_an30259a_led_slope. by destruct (negb _).
    - by destruct parsed.
    - by destruct parsed. }
  split.
  { intros v. unfold store_an30259a_led_fade.
    change (default (-1) (Some v)) with v. cbv zeta.
    split.
    - intros [-> | ->]; reflexivity.
    - intros H0 H1. apply Z.eqb_neq in H0. apply Z.eqb_neq in H1.
      by rewrite H0, H1. }
  split; [reflexivity|].
  split.
  { intros v. unfold store_an30259a_led_intensity.
    change (default (-1) (Some v)) with v. cbv zeta.
    split.
    - intros [H0 H255]. pose proof (to_u8_small v ltac:(lia)) as Hv.
      apply Z.leb_le in H0. apply Z.leb_le in H255. rewrite H0, H255.
      cbn [andb glob with_glob led_intensity set_led_intensity]. exact Hv.
    - intros [Hlt|Hgt].
      + apply Z.leb_gt in Hlt. by rewrite Hlt.
      + apply Z.leb_gt in Hgt. rewrite Hgt. by rewrite andb_false_r. }
  split; [reflexivity|].
  split.
  { intros count v. unfold store_an30259a_led_speed.
    change (default (-1) (Some v)) with v. cbv zeta. cbn [snd].
    split.
    - intros [H0 H15].
      apply Z.leb_le in H0. apply Z.leb_le in H15. by rewrite H0, H15.
    - intros [Hlt|Hgt].
      + apply Z.leb_gt in Hlt. by rewrite Hlt.
      + apply Z.leb_gt in Hgt. rewrite Hgt. by rewrite andb_false_r. }
  split; [reflexivity|].
  split; [reflexivity|].
  split; reflexivity.
Qed.

(** X13.  The led_pattern handler changes nothing when sscanf converts
    nothing, when named patterns are disabled, and for every index from 7 up
    to INT_MAX.  In particular, once a nonzero value has been written to
    disable_samsung_pattern (a write that reports 1 as its result), every
    later pattern request is a no-op; text that kstrtoul rejects gives
    -EINVAL and leaves the flag as it was. *)
Theorem store_an30259a_led_pattern_noop s retval mode :
  store_an30259a_led_pattern 0 mode s = Some s ∧
  (disabled_samsung_pattern (glob s) ≠ 0 →
     store_an30259a_led_pattern retval mode s = Some s) ∧
  (7 <= mode < 2 ^ 31 → store_an30259a_led_pattern retval mode s = Some s) ∧
  (∀ v, v ≠ 0 →
     let r := disable_samsung_pattern_on_store (Some v) s in
     r.1 = 1 ∧ store_an30259a_led_pattern retval mode r.2 = Some r.2) ∧
  disable_samsung_pattern_on_store None s = (- EINVAL, s).
Proof.
  assert (Hflag : ∀ s0 : state B, disabled_samsung_pattern (glob s0) ≠ 0 →
            store_an30259a_led_pattern retval mode s0 = Some s0).
  { intros s0 Hd. unfold store_an30259a_led_pattern, an30259a_start_led_pattern.
    apply Z.eqb_neq in Hd. rewrite Hd. cbn [negb].
    by destruct (retval =? 0), (POWERING <? to_int mode). }
  split; [reflexivity|]. split; [apply Hflag|]. split.
  { intros Hm. unfold store_an30259a_led_pattern, an30259a_start_led_pattern.
    assert (to_int mode = mode) as ->.
    { unfold to_int. rewrite Z.mod_small by lia. lia. }
    assert ((POWERING <? mode) = true) as ->
      by (apply Z.ltb_lt; unfold POWERING; lia).
    by destruct (retval =? 0). }
  split; [|reflexivity].
  intros v Hv r. subst r. split; [reflexivity|]. by apply Hflag.
Qed.

End Setters.

(** ** an30259a_parse_dt *)

Lemma byte_of_composite r g b :
  0 <= r <= 255 → 0 <= g <= 255 → 0 <= b <= 255 →
  let p := r * 2 ^ 16 + g * 2 ^ 8 + b in
  Z.land (Z.shiftr p LED_R_SHIFT) 0xff = r ∧
  Z.land (Z.shiftr p LED_G_SHIFT) 0xff = g ∧
  Z.land p 0xff = b.
Proof.
  intros Hr Hg Hb p. subst p. unfold LED_R_SHIFT, LED_G_SHIFT.
  change 0xff with (Z.ones 8). rewrite !Z.land_ones, !Z.shiftr_div_pow2 by lia.
  change (2 ^ 16) with 65536. change (2 ^ 8) with 256.
  assert ((r * 65536 + g * 256 + b) / 65536 = r) as ->
    by (symmetry; apply (Z.div_unique_pos _ _ _ (g * 256 + b)); lia).
  assert ((r * 65536 + g * 256 + b) / 256 = r * 256 + g) as ->
    by (symmetry; apply (Z.div_unique_pos _ _ _ b); lia).
  split; [apply Z.mod_small; lia|]. split.
  - symmetry. apply (Z.mod_unique_pos _ _ r); lia.
  - symmetry. apply (Z.mod_unique_pos _ _ (r * 256 + g)); lia.
Qed.

(** X14.  an30259a_parse_dt returns 0 whichever of the three properties
    are present or missing.  A missing property gives
    the defaults 0x28, 0x05 and offsets 0; a present offset property
    0xRRGGBB is split into the red, green and blue calibration offsets, each
    of which is a byte whatever the property holds.  No other tunable
    changes. *)
Theorem an30259a_parse_dt_offsets g r gr b dc lc any :
  0 <= r <= 255 → 0 <= gr <= 255 → 0 <= b <= 255 →
  let composite := r * 2 ^ 16 + gr * 2 ^ 8 + b in
  (an30259a_parse_dt dc lc any g).1 = 0 ∧
  led_offset (an30259a_parse_dt dc lc (Some composite) g).2 = [r; gr; b] ∧
  led_offset (an30259a_parse_dt dc lc None g).2 = [0; 0; 0] ∧
  led_default_cur (an30259a_parse_dt None lc any g).2 = 0x28 ∧
  led_lowpower_cur (an30259a_parse_dt dc None any g).2 = 0x05 ∧
  Forall (λ x, 0 <= x <= 255) (led_offset (an30259a_parse_dt dc lc any g).2) ∧
  length (led_offset (an30259a_parse_dt dc lc any g).2) = 3%nat ∧
  set_dt 0 0 [] (an30259a_parse_dt dc lc any g).2 = set_dt 0 0 [] g.
Proof.
  intros Hr Hg Hb composite.
  destruct (byte_of_composite r gr b Hr Hg Hb) as (E1 & E2 & E3).
  fold composite in E1, E2, E3.
  split; [reflexivity|]. split; [simpl; by rewrite E1, E2, E3|].
  split; [reflexivity|]. split; [reflexivity|]. split; [reflexivity|].
  split; [|split; [by destruct any|reflexivity]].
  assert (Hbyte : ∀ x, 0 <= Z.land x 0xff <= 255).
  { intros x. change (Z.land x 0xff) with (Z.land x (Z.ones 8)).
    rewrite Z.land_ones by lia.
    change (2 ^ 8) with 256.
    pose proof (Z.mod_pos_bound x 256 ltac:(lia)). lia. }
  destruct any as [p|]; simpl.
  - repeat constructor; apply Hbyte.
  - repeat constructor; lia.
Qed.

(** ** an30259a_remove and the brightness work *)

Section RemoveAndWork.
Context {B : Type} `{I2CAdapter B}.
Implicit Types (s : state B) (led : an30259a_led_enum).

Lemma reg_clear_bits_eq s (i : nat) m :
  (i < length (shadow_reg s))%nat →
  reg (clear_bits i m s) i = to_u8 (Z.land (reg s i) (Z.lnot m)).
Proof. intros Hi. unfold clear_bits. by apply reg_write_reg_eq. Qed.

Lemma reg_clear_bits_ne s (i j : nat) m :
  i ≠ j → reg (clear_bits i m s) j = reg s j.
Proof. intros Hij. unfold clear_bits. by apply reg_write_reg_ne. Qed.

Lemma lookup_clear_bits_ne s (i j : nat) m :
  i ≠ j → shadow_reg (clear_bits i m s) !! j = shadow_reg s !! j.
Proof.
  intros Hij. unfold clear_bits, write_reg; cbn [shadow_reg].
  by apply list_lookup_insert_ne.
Qed.

Lemma lookup_write_reg_ne s (i j : nat) v :
  i ≠ j → shadow_reg (write_reg i v s) !! j = shadow_reg s !! j.
Proof.
  intros Hij. unfold write_reg; cbn [shadow_reg].
  by apply list_lookup_insert_ne.
Qed.

Lemma length_clear_bits s (i : nat) m :
  length (shadow_reg (clear_bits i m s)) = length (shadow_reg s).
Proof. unfold clear_bits. apply length_write_reg. Qed.

Ltac image_reads Hlen :=
  repeat first
    [ rewrite reg_write_reg_ne by (compute; lia)
    | rewrite reg_clear_bits_ne by (compute; lia)
    | rewrite reg_write_reg_eq
        by (rewrite ?length_write_reg, ?length_clear_bits, Hlen; compute; lia)
    | rewrite reg_clear_bits_eq
        by (rewrite ?length_write_reg, ?length_clear_bits, Hlen; compute; lia) ].

Lemma remove_LEDON_bit s (i : Z) :
  length (shadow_reg s) = AN30259A_REG_MAX →
  0 <= i < 8 → i ≠ 3 → i ≠ 7 →
  Z.testbit (reg (an30259a_remove s) AN30259A_REG_LEDON) i = false.
Proof.
  intros Hlen Hi H3 H7. unfold an30259a_remove. cbv zeta.
  image_reads Hlen.
  repeat (progress rewrite ?testbit_to_u8, ?Z.land_spec, ?Z.lnot_spec by lia).
  rewrite !LED_ON_bit, !LED_SLOPE_MODE_bit by lia.
  assert (i = 0 ∨ i = 1 ∨ i = 2 ∨ i = 4 ∨ i = 5 ∨ i = 6)
    as [->|[->|[->|[->|[->| ->]]]]] by lia;
    cbn [Z.eqb Pos.eqb Z.add Pos.add negb];
    rewrite ?andb_false_r; reflexivity.
Qed.

(** X15.  The shadow edits of an30259a_remove switch every channel off in
    the image (enable and slope-mode bits clear, delay fields and current
    codes 0) and leave the duty, timing and slope registers alone, but they
    are edits of the image only: nothing is written to the bus, so the chip
    keeps whatever was last committed. *)
Theorem an30259a_remove_image_only s :
  length (shadow_reg s) = AN30259A_REG_MAX →
  let s' := an30259a_remove s in
  (∀ led, enable_bit s' led = false ∧ slope_bit s' led = false ∧
          delay_field s' led = 0 ∧ current_code s' led = 0) ∧
  (∀ i : nat, i ≠ AN30259A_REG_LEDON →
     (∀ led, i ≠ (AN30259A_REG_LED1CC + led_num led)%nat ∧
             i ≠ (AN30259A_REG_LED1CNT2 + led_num led * 4)%nat) →
     shadow_reg s' !! i = shadow_reg s !! i) ∧
  trace s' = trace s ∧ bus s' = bus s ∧ mutex s' = mutex s ∧
  glob s' = glob s.
Proof.
  intros Hlen s'. split; [|split; [|done]].
  - intros led. split; [|split; [|split]].
    + apply remove_LEDON_bit; [done|destruct led; simpl; lia..].
    + apply remove_LEDON_bit; [done|destruct led; simpl; lia..].
    + unfold delay_field. subst s'. unfold an30259a_remove. cbv zeta.
      destruct led; cbn [led_num]; image_reads Hlen;
        apply delay_field_cleared.
    + unfold current_code. subst s'. unfold an30259a_remove. cbv zeta.
      destruct led; cbn [led_num]; image_reads Hlen; reflexivity.
  - intros i Hon Hi. subst s'. unfold an30259a_remove. cbv zeta.
    destruct (Hi LED_R) as [R1 R2], (Hi LED_G) as [G1 G2],
             (Hi LED_B) as [B1 B2]. cbn [led_num] in *.
    rewrite !lookup_write_reg_ne by congruence.
    by rewrite !lookup_clear_bits_ne by congruence.
Qed.

(** X16.  The brightness work enables its channel without slope mode
    and commits once, for every level including 0: level 0 leaves the
    channel enabled with current code 0 rather than switching it off.  The
    level is taken modulo 256, nonzero levels get the calibration offset, and
    the other channels keep their enable and slope-mode bits, codes and slope
    registers.  The commit is one: the trace of the entry state is extended
    by exactly the lock, the block write of the new image from SEL, the
    LEDON byte unless the block failed, and the unlock, issued to the adapter
    of the entry state; the mutex is free afterwards. *)
Theorem an30259a_led_brightness_work_on s led_work level :
  length (shadow_reg s) = AN30259A_REG_MAX →
  let led := channel led_work in
  let s' :=
    an30259a_led_brightness_work (an30259a_set_brightness led_work level) s in
  enable_bit s' led = true ∧ slope_bit s' led = false ∧
  current_code s' led = ledcc_after (glob s) led (level mod 256) ∧
  (level mod 256 = 0 → current_code s' led = 0) ∧
  (∀ led', led' ≠ led →
     enable_bit s' led' = enable_bit s led' ∧
     slope_bit s' led' = slope_bit s led' ∧
     current_code s' led' = current_code s led' ∧
     ∀ i : nat, i ∈ slope_regs led' → shadow_reg s' !! i = shadow_reg s !! i) ∧
  delay_field s' led = delay_field s led ∧
  trace s' = trace (leds_i2c_write_all
                      (leds_on led true false (level mod 256) s)).2 ∧
  glob s' = glob s ∧
  trace s' = trace s ++ commit_events (shadow_reg s') (bus s) ∧
  mutex s' = false.
Proof.
  intros Hlen led s'. subst s'.
  unfold an30259a_led_brightness_work, an30259a_set_brightness.
  cbn [channel brightness]. fold led.
  change (to_u8 level) with (level mod 256).
  set (s1 := leds_on led true false (level mod 256) s).
  destruct (leds_i2c_write_all_keeps s1) as [Hs Hg].
  destruct (leds_i2c_write_all_trace s1) as [Htr Hmx].
  destruct (leds_on_outside s led true false (level mod 256))
    as (_ & _ & Hbus & Htrace & _).
  fold s1 in Hbus, Htrace. rewrite Hbus, Htrace, <- Hs in Htr.
  destruct (leds_i2c_write_all s1) as [ret s2]. cbn [snd] in *.
  assert (Hf : ∀ l, enable_bit s2 l = enable_bit s1 l ∧
                    slope_bit s2 l = slope_bit s1 l ∧
                    delay_field s2 l = delay_field s1 l ∧
                    current_code s2 l = current_code s1 l)
    by (intros l; by apply fields_ext).
  destruct (Hf led) as (-> & -> & -> & ->).
  subst s1.
  split; [rewrite enable_bit_leds_on by done; by rewrite decide_True|].
  split; [rewrite slope_bit_leds_on by done; by rewrite decide_True|].
  split; [by rewrite leds_on_LEDCC by done|].
  split.
  { intros Hz. rewrite leds_on_LEDCC by done. unfold ledcc_after.
    by rewrite Hz. }
  split.
  { intros led' Hne. destruct (Hf led') as (-> & -> & _ & ->).
    rewrite Hs.
    by destruct (channel_same_leds_on s led led' true false (level mod 256)
                   Hlen Hne) as (? & ? & ? & ?). }
  split.
  { unfold delay_field. f_equal. apply reg_lookup_eq.
    apply leds_on_true_other; destruct led; discriminate. }
  split; [done|]. split; [by rewrite Hg, glob_leds_on|].
  split; [exact Htr|exact Hmx].
Qed.

End RemoveAndWork.

(** ** Closed instances of the further properties *)

(** X2, witness: imax 3 on a freshly probed device sets SEL to 0xc0. *)
Lemma leds_set_imax_sel_witness :
  (leds_set_imax 3 probe_state).1 = 0 ∧
  reg (leds_set_imax 3 probe_state).2 AN30259A_REG_SEL = 0xc0.
Proof.
  destruct (leds_set_imax_sel probe_state 3 eq_refl) as (H1 & H2 & _).
  exact (conj H1 H2).
Defined.

(** X3, witness: 7 and 3 agree modulo 4. *)
Lemma store_an30259a_led_br_lev_mod_4_witness :
  shadow_reg (store_an30259a_led_br_lev (Some 7) probe_state)
  = shadow_reg (store_an30259a_led_br_lev (Some 3) probe_state).
Proof.
  destruct (store_an30259a_led_br_lev_mod_4 probe_state 7 3 eq_refl eq_refl)
    as (_ & Heq & _).
  exact Heq.
Defined.

(** X6, witness: the missed-notification pattern lights blue, in slope
    mode, and nothing else. *)
Lemma an30259a_start_led_pattern_lights_one_witness :
  ∃ s', an30259a_start_led_pattern MISSED_NOTI probe_state = Some s' ∧
        enable_bit s' LED_B = true ∧ slope_bit s' LED_B = true ∧
        enable_bit s' LED_R = false ∧ enable_bit s' LED_G = false.
Proof.
  destruct (an30259a_start_led_pattern MISSED_NOTI probe_state) as [s'|] eqn:E;
    [|vm_compute in E; discriminate].
  exists s'. split; [reflexivity|].
  pose proof (an30259a_start_led_pattern_lights_one probe_state MISSED_NOTI s'
                eq_refl eq_refl ltac:(unfold MISSED_NOTI; lia) E) as Hall.
  destruct (Hall LED_B) as [Hb Hsb]. destruct (Hall LED_R) as [Hr _].
  destruct (Hall LED_G) as [Hg _].
  exact (conj Hb (conj Hsb (conj Hr Hg))).
Defined.

(** X7, witness: the charging pattern at intensity 40 gives red 0x28. *)
Lemma an30259a_start_led_pattern_current_code_witness :
  ∃ s', an30259a_start_led_pattern CHARGING probe_state = Some s' ∧
        current_code s' LED_R = 0x28 ∧ current_code s' LED_B = 0.
Proof.
  destruct (an30259a_start_led_pattern CHARGING probe_state) as [s'|] eqn:E;
    [|vm_compute in E; discriminate].
  exists s'. split; [reflexivity|].
  pose proof (an30259a_start_led_pattern_current_code probe_state CHARGING s'
                eq_refl eq_refl ltac:(unfold CHARGING; lia) E) as Hall.
  exact (conj (Hall LED_R) (Hall LED_B)).
Defined.

(** X8, witness: a green blink leaves the blinking red channel alone. *)
Lemma an30259a_set_led_blink_frame_witness :
  ∃ s', an30259a_set_led_blink LED_G 1000 500 0x80 red_blinking = Some s' ∧
        enable_bit s' LED_R = true ∧ current_code s' LED_R = 0x28 ∧
        trace s' = [].
Proof.
  destruct (an30259a_set_led_blink LED_G 1000 500 0x80 red_blinking)
    as [s'|] eqn:E; [|vm_compute in E; discriminate].
  exists s'. split; [reflexivity|].
  destruct (an30259a_set_led_blink_frame red_blinking LED_G 1000 500 0x80 s'
              eq_refl ltac:(unfold int_range; simpl; lia) E)
    as (Hch & _ & _ & Ht & _).
  destruct (Hch LED_R ltac:(discriminate)) as (He & _ & Hc & _).
  exact (conj He (conj Hc Ht)).
Defined.

(** X9, witness: fading enabled at the probe defaults: peak 15, mid 7. *)
Lemma an30259a_set_led_blink_fade_witness :
  ∃ s', an30259a_set_led_blink LED_R 1000 500 0x80
          (store_an30259a_led_fade (Some 1) probe_state) = Some s' ∧
        hi_nibble (reg s' AN30259A_REG_LED1CNT1) = 15 ∧
        lo_nibble (reg s' AN30259A_REG_LED1CNT1) = 7 ∧
        lo_nibble (reg s' AN30259A_REG_LED1CNT3) = 1.
Proof.
  destruct (an30259a_set_led_blink_fade
              (store_an30259a_led_fade (Some 1) probe_state) LED_R 1000 500 0x80)
    as (s' & Hs' & H1 & H2 & _ & H3 & _);
    [reflexivity | vm_compute; intuition (auto; discriminate) | reflexivity
    | discriminate | lia | lia | lia |].
  exists s'. exact (conj Hs' (conj H1 (conj H2 H3))).
Defined.

(** X10, witness: 0x804020 at the probe defaults gives codes 20, 10, 5. *)
Lemma store_an30259a_led_blink_routes_witness :
  ∃ s', store_an30259a_led_blink 3 0x804020 1000 500 probe_state = Some s' ∧
        current_code s' LED_R = 20 ∧ current_code s' LED_G = 10 ∧
        current_code s' LED_B = 5.
Proof.
  destruct (store_an30259a_led_blink_routes probe_state 3 0x804020 1000 500)
    as (s' & Hs' & Hall);
    [reflexivity | simpl; lia | unfold int_range; simpl; lia
    | left; discriminate | discriminate | lia |].
  exists s'. split; [exact Hs'|].
  exact (conj (Hall LED_R) (conj (Hall LED_G) (Hall LED_B))).
Defined.

(** X11, witness: colour 0 switches the blinking red channel off. *)
Lemma store_an30259a_led_blink_black_witness :
  ∃ s', store_an30259a_led_blink 1 0 1000 500 red_blinking = Some s' ∧
        enable_bit s' LED_R = false.
Proof.
  destruct (store_an30259a_led_blink_black red_blinking 1 0 1000 500)
    as [_ Hoff]; [reflexivity | lia | by intros [] |].
  destruct (Hoff ltac:(discriminate)) as (s' & Hs' & Hall).
  exists s'. exact (conj Hs' (proj1 (Hall LED_R))).
Defined.

Lemma tunables_ok_probe : tunables_ok probe_globals.
Proof. vm_compute. intuition (auto; discriminate). Qed.

(** X12, witness: an out-of-range speed and an out-of-range intensity are
    ignored, out-of-range slopes are clamped. *)
Lemma setters_keep_tunables_ok_witness :
  tunables_ok (glob (store_an30259a_led_speed 3 (Some 99) probe_state).2) ∧
  tunables_ok (glob (store_an30259a_led_slope 4 9 (-3) 2 7 probe_state)) ∧
  store_an30259a_led_intensity (Some 300) probe_state = probe_state.
Proof.
  destruct (setters_keep_tunables_ok probe_state tunables_ok_probe)
    as (_ & _ & Hsp & Hsl & _ & _ & _ & _ & _ & Hint & _).
  split; [exact (Hsp 3 (Some 99))|].
  split; [exact (proj1 (Hsl 4 9 (-3) 2 7))|].
  exact (proj2 (Hint 300) ltac:(right; lia)).
Defined.

(** X13, witness: index 7 is ignored. *)
Lemma store_an30259a_led_pattern_noop_witness :
  store_an30259a_led_pattern 1 7 red_blinking = Some red_blinking.
Proof.
  destruct (store_an30259a_led_pattern_noop red_blinking 1 7)
    as (_ & _ & Hhigh & _).
  apply Hhigh. lia.
Defined.

(** X14, witness: the property 0x010203 gives offsets 1, 2, 3. *)
Lemma an30259a_parse_dt_offsets_witness :
  led_offset (an30259a_parse_dt None None (Some 0x010203) probe_globals).2
  = [1; 2; 3].
Proof.
  destruct (an30259a_parse_dt_offsets probe_globals 1 2 3 None None None)
    as (_ & Hoffs & _); [lia | lia | lia |].
  exact Hoffs.
Defined.

(** X15, witness: removing the blinking-red device clears the image and
    sends nothing. *)
Lemma an30259a_remove_image_only_witness :
  enable_bit (an30259a_remove red_blinking) LED_R = false ∧
  trace (an30259a_remove red_blinking) = trace red_blinking.
Proof.
  destruct (an30259a_remove_image_only red_blinking eq_refl)
    as (Hall & _ & Ht & _).
  exact (conj (proj1 (Hall LED_R)) Ht).
Defined.

(** X16, witness: level 0 on green leaves green enabled with code 0. *)
Lemma an30259a_led_brightness_work_on_witness :
  let s' := an30259a_led_brightness_work
              (an30259a_set_brightness (An30259aLed LED_G 0x55) 0)
              probe_state in
  enable_bit s' LED_G = true ∧ current_code s' LED_G = 0.
Proof.
  intros s'.
  destruct (an30259a_led_brightness_work_on probe_state
              (An30259aLed LED_G 0x55) 0 eq_refl) as (He & _ & _ & Hz & _).
  exact (conj He (Hz eq_refl)).
Defined.
